(** * Audio-environment lifecycle of the realtime transcription tool

    A shallow embedding of [transcriber/audio_setup.py] and of the
    easy-start orchestration in [transcriber/cli.py], with the properties
    of the design document stated and settled against it.

    Conventions of the embedding.
    - Python [str] is [string] (a byte string); [str.lower] and
      [str.strip] act on the ASCII range.
    - A Python [dict] used as a map is a [gmap]; a Python [set] is a
      [gset]; iteration over a set follows [elements].
    - Everything the program asks of the outside (device enumeration, the
      audio-server tool, files, the terminal, the pipeline) is answered by
      an oracle that sees the whole history of the run, and every effect
      is appended to that history.  Control flow that can raise lives in
      a state-and-exception monad. *)

From Stdlib Require Import QArith.
From Stdlib Require Import Ascii String.
From stdpp Require Import gmap strings list fin_maps pretty.

Open Scope string_scope.
Open Scope Z_scope.
Open Scope list_scope.

(** * The embedding *)

(** ** Python strings *)

Module PyStr.

Definition lower_ascii (c : ascii) : ascii :=
  let n := nat_of_ascii c in
  if ((65 <=? n) && (n <=? 90))%nat then ascii_of_nat (n + 32) else c.

(** [s.lower()] *)
Fixpoint lower (s : string) : string :=
  match s with
  | EmptyString => EmptyString
  | String c rest => String (lower_ascii c) (lower rest)
  end.

(** [hay.startswith(pre)] *)
Fixpoint startswith (hay pre : string) : bool :=
  match pre, hay with
  | EmptyString, _ => true
  | String _ _, EmptyString => false
  | String p pre', String h hay' =>
      if decide (p = h) then startswith hay' pre' else false
  end.

(** [needle in hay] *)
Fixpoint contains (needle hay : string) : bool :=
  startswith hay needle ||
  match hay with
  | EmptyString => false
  | String _ hay' => contains needle hay'
  end.

Fixpoint rev_string (acc s : string) : string :=
  match s with
  | EmptyString => acc
  | String c rest => rev_string (String c acc) rest
  end.

(** [hay.endswith(suf)] *)
Definition endswith (hay suf : string) : bool :=
  startswith (rev_string "" hay) (rev_string "" suf).

Definition is_space (c : ascii) : bool :=
  let n := nat_of_ascii c in
  ((n =? 32) || ((9 <=? n) && (n <=? 13)) || ((28 <=? n) && (n <=? 31)))%nat.

Fixpoint lstrip (s : string) : string :=
  match s with
  | EmptyString => EmptyString
  | String c rest => if is_space c then lstrip rest else s
  end.

(** [s.strip()] *)
Definition strip (s : string) : string :=
  rev_string "" (lstrip (rev_string "" (lstrip s))).

(** [s.split(sep)] for a one-character separator. *)
Fixpoint split_on (sep : ascii) (cur : string) (s : string) : list string :=
  match s with
  | EmptyString => [rev_string "" cur]
  | String c rest =>
      if decide (c = sep) then rev_string "" cur :: split_on sep "" rest
      else split_on sep (String c cur) rest
  end.

(** [s.split(sep, 1)[1]]: what follows the first separator, if any. *)
Fixpoint after_first (sep : ascii) (s : string) : option string :=
  match s with
  | EmptyString => None
  | String c rest => if decide (c = sep) then Some rest else after_first sep rest
  end.

Definition newline : ascii := ascii_of_nat 10.
Definition tab : ascii := ascii_of_nat 9.

(** [s.splitlines()], on the line feed. *)
Definition splitlines (s : string) : list string :=
  match s with
  | EmptyString => []
  | _ =>
      let parts := split_on newline "" s in
      match reverse parts with
      | EmptyString :: front => reverse front
      | _ => parts
      end
  end.

(** Truth value of a string: non-empty. *)
Definition truthy (s : string) : bool :=
  match s with EmptyString => false | _ => true end.

(** [s or None] *)
Definition or_none (s : string) : option string :=
  if truthy s then Some s else None.

(** Truth value of an [Optional[str]]. *)
Definition truthy_opt (o : option string) : bool :=
  match o with Some s => truthy s | None => false end.

(** [sep.join(parts)] *)
Fixpoint join (sep : string) (parts : list string) : string :=
  match parts with
  | [] => ""
  | [p] => p
  | p :: rest => p +:+ sep +:+ join sep rest
  end.

(** [str(n)] for an integer. *)
Definition of_Z (n : Z) : string := pretty n.
Definition of_nat (n : nat) : string := pretty n.

End PyStr.

(** ** Configuration and device records *)

(** Modelled from the spec: [AudioCaptureMode] of [transcriber/config.py],
    which is not part of the sources at hand; the design document lists the
    four modes. *)
Inductive AudioCaptureMode := AUTO | MICROPHONE | LOOPBACK | API.

#[global] Instance AudioCaptureMode_eq_dec : EqDecision AudioCaptureMode.
Proof. solve_decision. Defined.

(** Modelled from the spec: [AudioInputConfig] of [transcriber/config.py]
    (optional device index, capture mode, auto-setup flag, optional Linux
    sink-name hint); the field names are those the sources read. *)
Record AudioInputConfig := {
  device_index : option Z;
  mode : AudioCaptureMode;
  auto_setup_loopback : bool;
  linux_loopback_sink : option string;
}.

(** A device as [sounddevice] hands it over: a dictionary that the code
    always reads with [dict.get] and a default, so each key may be absent. *)
Record Device := {
  d_name : option string;               (* "name" *)
  d_max_input_channels : option Z;      (* "max_input_channels" *)
  d_max_output_channels : option Z;     (* "max_output_channels" *)
  d_hostapi : option Z;                 (* "hostapi" *)
  d_default_samplerate : option Q;      (* "default_samplerate" *)
}.

#[global] Instance Q_eq_dec : EqDecision Q.
Proof. solve_decision. Defined.
#[global] Instance Device_eq_dec : EqDecision Device.
Proof. solve_decision. Defined.

(** A host-API entry of [sd.query_hostapis()]. *)
Record HostApi := { h_name : option string }.

Record AudioDeviceSummary := {
  index : nat;
  name : string;
  hostapi : string;
  inputs : Z;
  outputs : Z;
  default_samplerate : option Q;
}.

Record AudioDiagnosticReport := {
  platform : string;
  report_mode : AudioCaptureMode;
  input_devices : list AudioDeviceSummary;
  loopback_candidates : list AudioDeviceSummary;
  configured_device : option AudioDeviceSummary;
  issues : list string;
  recommendations : list string;
}.

(** ** Exceptions *)

(** Every [raise AudioEnvironmentError(...)] of [audio_setup.py], one
    constructor per raise site (the class is the same at all of them; the
    message differs). *)
Inductive ErrorSite :=
| FailedToEnumerate                         (* "Failed to enumerate audio devices: ..." *)
| NoAudioDevices                            (* "No audio devices detected by PortAudio." *)
| IndexOutsideRange (idx : Z) (count : nat) (* "Configured AUDIO_DEVICE_INDEX ... outside the available range" *)
| ConfiguredDeviceHasNoInputs (idx : Z)     (* "Configured device ... has no input channels." *)
| NoInputCapableDevices                     (* "No input-capable audio devices detected." *)
| FlagSetButNoMonitor                       (* "Loopback auto-setup flag set but no monitor source detected." *)
| LinuxHelperFailed                         (* "Failed to initialise PipeWire virtual loopback ..." *)
| NoLoopbackAfterSetup                      (* "No loopback-capable input detected after setup. ..." *)
| NoWindowsLoopback                         (* "No Windows loopback-capable input detected. ..." *)
| NoMacLoopback.                            (* "No macOS loopback device detected. ..." *)

Inductive Exn :=
| AudioEnvironmentError (site : ErrorSite)
| CalledProcessError (returncode : Z)
| KeyError (key : string)
| OtherException (descr : string).

#[global] Instance ErrorSite_eq_dec : EqDecision ErrorSite.
Proof. solve_decision. Defined.
#[global] Instance Exn_eq_dec : EqDecision Exn.
Proof. solve_decision. Defined.

(** The error taxonomy of the design document (its section 7).  The
    sources have one exception class; the taxonomy sorts its raise sites. *)
Inductive ErrorKind :=
| EnumerationFailure | DeviceUnavailable | LoopbackSetupFailure | NoLoopbackDetected.

Definition error_kind (site : ErrorSite) : ErrorKind :=
  match site with
  | FailedToEnumerate => EnumerationFailure
  | NoAudioDevices | IndexOutsideRange _ _ | ConfiguredDeviceHasNoInputs _
  | NoInputCapableDevices => DeviceUnavailable
  | LinuxHelperFailed => LoopbackSetupFailure
  | FlagSetButNoMonitor | NoLoopbackAfterSetup | NoWindowsLoopback
  | NoMacLoopback => NoLoopbackDetected
  end.

(** [str(exc)], as far as the log lines need it. *)
Definition exn_text (e : Exn) : string :=
  match e with
  | AudioEnvironmentError _ => "AudioEnvironmentError"
  | CalledProcessError rc => "CalledProcessError " +:+ PyStr.of_Z rc
  | KeyError k => "KeyError " +:+ k
  | OtherException d => d
  end.

(** ** The outside world *)

Inductive LogLevel := LDEBUG | LINFO | LWARNING.

(** How the pipeline run ends, seen from [asyncio.run(run_pipeline(...))]:
    it returns (on its own or after a termination or suspend signal set the
    stop event and the task was cancelled), or an exception leaves it. *)
Inductive PipelineOutcome :=
| PipelineCompleted
| PipelineCancelledBySignal
| PipelineRaised (e : Exn).

Inductive Event :=
| EvQueryDevices                                    (* sd.query_devices() *)
| EvCheckOutput (argv : list string)                (* subprocess.check_output *)
| EvRun (argv : list string) (env : option (gmap string string))
                                                    (* subprocess.run *)
| EvLog (level : LogLevel) (fmt : string) (args : list string)
| EvPrint (text : string)
| EvPrintReport (report : AudioDiagnosticReport)    (* print(render_diagnostic_report(report)) *)
| EvInput (prompt : string)
| EvEnvironmentCheck                                (* run_environment_check() *)
| EvPipeline (environ : gmap string string) (outcome : PipelineOutcome).
                                                    (* asyncio.run(run_pipeline(...)) *)

Definition Trace := list Event.

(** The answers of the outside, each a function of the history so far. *)
Record Oracle := {
  o_platform_system : string;                                 (* platform.system() *)
  o_query_devices : Trace -> option (list Device);            (* None: the query raises *)
  o_query_hostapis : Trace -> option (list HostApi);
  o_which : string -> Trace -> bool;                          (* shutil.which(prog) found *)
  o_is_file : string -> Trace -> bool;                        (* Path.is_file() *)
  o_exists : string -> Trace -> bool;                         (* Path.exists() *)
  o_check_output : list string -> Trace -> option string;     (* None: raises *)
  o_exit_status : list string -> option (gmap string string) -> Trace -> Z;
  o_input : string -> Trace -> option string;                 (* input(prompt); None: EOFError *)
  o_environment_check : Trace -> bool;
  o_load_settings : Trace -> AudioInputConfig;                (* load_settings().audio *)
  o_pipeline : gmap string string -> Trace -> PipelineOutcome * gmap string string;
}.

Record World := {
  w_environ : gmap string string;     (* os.environ *)
  w_trace : Trace;                    (* oldest event first *)
  w_oracle : Oracle;
}.

Definition emit (ev : Event) (w : World) : World :=
  {| w_environ := w_environ w; w_trace := w_trace w ++ [ev]; w_oracle := w_oracle w |}.

Definition set_environ (env : gmap string string) (w : World) : World :=
  {| w_environ := env; w_trace := w_trace w; w_oracle := w_oracle w |}.

(** ** The state-and-exception monad *)

Inductive Outcome (A : Type) :=
| Return (a : A)
| Raise (e : Exn).
Arguments Return {A} a.
Arguments Raise {A} e.

Definition M (S A : Type) : Type := S -> Outcome A * S.

Definition ret {S A} (a : A) : M S A := fun s => (Return a, s).
Definition raise {S A} (e : Exn) : M S A := fun s => (Raise e, s).
Definition bind {S A B} (m : M S A) (k : A -> M S B) : M S B :=
  fun s => match m s with
           | (Return a, s') => k a s'
           | (Raise e, s') => (Raise e, s')
           end.
Definition get {S} : M S S := fun s => (Return s, s).
Definition modify {S} (f : S -> S) : M S unit := fun s => (Return tt, f s).

(** [try: body except <those h accepts>: handler] *)
Definition try_except {S A} (body : M S A) (h : Exn -> option (M S A)) : M S A :=
  fun s => match body s with
           | (Return a, s') => (Return a, s')
           | (Raise e, s') =>
               match h e with
               | Some handler => handler s'
               | None => (Raise e, s')
               end
           end.

(** [try: body finally: fin] *)
Definition try_finally {S A} (body : M S A) (fin : M S unit) : M S A :=
  fun s => match body s with
           | (r, s') =>
               match fin s' with
               | (Return _, s'') => (r, s'')
               | (Raise e, s'') => (Raise e, s'')
               end
           end.

Declare Scope py_scope.
Delimit Scope py_scope with py.
Notation "x <- m ;; k" := (bind m (fun x => k))
  (at level 100, m at next level, right associativity) : py_scope.
Notation "m ;;; k" := (bind m (fun _ => k))
  (at level 100, right associativity) : py_scope.
Open Scope py_scope.

(** [if c: body] with nothing to do otherwise. *)
Definition when {S} (c : bool) (body : M S unit) : M S unit :=
  if c then body else ret tt.

(** [for x in xs: body x] *)
Fixpoint for_each {S A} (xs : list A) (body : A -> M S unit) : M S unit :=
  match xs with
  | [] => ret tt
  | x :: rest => body x ;;; for_each rest body
  end.

(** ** Calls into the outside *)

Definition platform_system (w : World) : string := o_platform_system (w_oracle w).

Definition log (level : LogLevel) (fmt : string) (args : list string) : M World unit :=
  modify (emit (EvLog level fmt args)).

Definition print (text : string) : M World unit := modify (emit (EvPrint text)).

(** [sd.query_devices()] *)
Definition sd_query_devices : M World (list Device) :=
  fun w =>
    match o_query_devices (w_oracle w) (w_trace w) with
    | Some devices => (Return devices, emit EvQueryDevices w)
    | None => (Raise (OtherException "PortAudioError"), emit EvQueryDevices w)
    end.

(** [shutil.which(prog)], as a truth value. *)
Definition shutil_which (prog : string) : M World bool :=
  fun w => (Return (o_which (w_oracle w) prog (w_trace w)), w).

Definition path_is_file (path : string) : M World bool :=
  fun w => (Return (o_is_file (w_oracle w) path (w_trace w)), w).

Definition path_exists (path : string) : M World bool :=
  fun w => (Return (o_exists (w_oracle w) path (w_trace w)), w).

(** [os.environ.get(key)] *)
Definition environ_get (key : string) : M World (option string) :=
  fun w => (Return (w_environ w !! key), w).

(** [os.environ[key] = value] *)
Definition environ_set (key value : string) : M World unit :=
  modify (fun w => set_environ (<[key := value]> (w_environ w)) w).

(** [os.environ.pop(key, None)] *)
Definition environ_pop (key : string) : M World unit :=
  modify (fun w => set_environ (delete key (w_environ w)) w).

(** [subprocess.run(argv, check=check, env=env)].  The child is spawned and
    the oracle gives its exit status; with [check] a non-zero status raises
    [CalledProcessError]. *)
Definition subprocess_run (argv : list string) (check : bool)
    (env : option (gmap string string)) : M World Z :=
  fun w =>
    let status := o_exit_status (w_oracle w) argv env (w_trace w) in
    let w' := emit (EvRun argv env) w in
    if check && negb (status =? 0) then (Raise (CalledProcessError status), w')
    else (Return status, w').

(** [subprocess.check_output(argv, text=True, stderr=DEVNULL)] *)
Definition subprocess_check_output (argv : list string) : M World string :=
  fun w =>
    match o_check_output (w_oracle w) argv (w_trace w) with
    | Some text => (Return text, emit (EvCheckOutput argv) w)
    | None => (Raise (OtherException "check_output failed"), emit (EvCheckOutput argv) w)
    end.

(** The loop over the lines of [pactl info] that [_get_linux_defaults]
    and the launcher's [_capture_linux_defaults] both run. *)
Definition scan_default_line (acc : option string * option string) (line : string)
    : option string * option string :=
  let '(sink, source) := acc in
  if PyStr.startswith line "Default Sink:" then
    (PyStr.or_none (PyStr.strip (default "" (PyStr.after_first ":" line))), source)
  else if PyStr.startswith line "Default Source:" then
    (sink, PyStr.or_none (PyStr.strip (default "" (PyStr.after_first ":" line))))
  else acc.

Definition scan_defaults (output : string) : option (option string * option string) :=
  let '(sink, source) := foldl scan_default_line (None, None) (PyStr.splitlines output) in
  if PyStr.truthy_opt sink || PyStr.truthy_opt source then Some (sink, source) else None.

(** The rollback stack and its owner. *)
Definition Action : Type := M World unit.

Record Manager := {
  _config : AudioInputConfig;
  _platform : string;           (* platform.system().lower(), taken at construction *)
  _scripts_dir : string;
}.

Record ManagerState := {
  _cleanup_actions : list Action;
  world : World;
}.

Definition in_world {A} (m : M World A) : M ManagerState A :=
  fun st =>
    let '(r, w) := m (world st) in
    (r, {| _cleanup_actions := _cleanup_actions st; world := w |}).

Definition set_cleanup_actions (acts : list Action) : M ManagerState unit :=
  modify (fun st => {| _cleanup_actions := acts; world := world st |}).

(** The [value] of a capture mode is defined in [transcriber/config.py],
    which is not at hand; the lower-case names stand in for it (the log line
    of the API mode quotes 'api').  It only appears as a log argument. *)
Definition mode_value (m : AudioCaptureMode) : string :=
  match m with
  | AUTO => "auto" | MICROPHONE => "microphone" | LOOPBACK => "loopback" | API => "api"
  end.

Definition path_join (dir file : string) : string := dir +:+ "/" +:+ file.

(** ** [transcriber/audio_setup.py] *)

(** [resolve_capture_mode(config)]; [system] is [platform.system()]. *)
Definition resolve_capture_mode (system : string) (config : AudioInputConfig)
    : AudioCaptureMode :=
  match mode config with
  | AUTO =>
      let system := PyStr.lower system in
      if (system =? "linux")%string || (system =? "windows")%string
         || (system =? "darwin")%string
      then LOOPBACK else MICROPHONE
  | m => m
  end.

(** [device.get("max_input_channels", 0)] *)
Definition max_input_channels (device : Device) : Z :=
  default 0 (d_max_input_channels device).

(** The device query wrapped as every caller wraps it. *)
Definition query_devices_or_fail : M World (list Device) :=
  try_except sd_query_devices
    (fun _ => Some (raise (AudioEnvironmentError FailedToEnumerate))).

Definition _ensure_device_presence (self : Manager) : M World unit :=
  devices <- query_devices_or_fail ;;
  match devices with
  | [] => raise (AudioEnvironmentError NoAudioDevices)
  | _ =>
      match device_index (_config self) with
      | Some index =>
          if (index <? 0) || (index >=? Z.of_nat (length devices)) then
            raise (AudioEnvironmentError (IndexOutsideRange index (length devices)))
          else
            match devices !! Z.to_nat index with
            | None => raise (OtherException "IndexError")
            | Some device =>
                if max_input_channels device <=? 0 then
                  raise (AudioEnvironmentError (ConfiguredDeviceHasNoInputs index))
                else
                  log LDEBUG "Audio device index %s resolved to '%s' (inputs=%s)."
                    [PyStr.of_Z index;
                     default (PyStr.of_Z index) (d_name device);
                     from_option PyStr.of_Z "None" (d_max_input_channels device)]
            end
      | None =>
          if negb (existsb (fun dev => 0 <? max_input_channels dev) devices) then
            raise (AudioEnvironmentError NoInputCapableDevices)
          else ret tt
      end
  end.

(** The body of the loop of [_detect_loopback_candidate], from position
    [index] of the enumeration on; returning [true] is the early
    [return True], reaching the end the final [return False]. *)
Fixpoint detect_loop (self : Manager) (keyword_set : list string)
    (sink_hint : option string) (index : nat) (devices : list Device) : M World bool :=
  match devices with
  | [] => ret false
  | device :: rest =>
      let inputs := max_input_channels device in
      if inputs <=? 0 then detect_loop self keyword_set sink_hint (S index) rest
      else
        let name := PyStr.lower (default "" (d_name device)) in
        let is_candidate := existsb (fun keyword => PyStr.contains keyword name) keyword_set in
        let is_candidate :=
          if (_platform self =? "linux")%string then
            let is_candidate :=
              if negb is_candidate && PyStr.truthy_opt sink_hint
                 && PyStr.contains (default "" sink_hint) name
              then true else is_candidate in
            if negb is_candidate
               && ((name =? "pipewire")%string || (name =? "default")%string)
               && (inputs >=? 2)
            then true else is_candidate
          else if (_platform self =? "windows")%string then
            if negb is_candidate && PyStr.contains "loopback" name
               && PyStr.contains "wasapi" name
            then true else is_candidate
          else if (_platform self =? "darwin")%string then
            if negb is_candidate && PyStr.contains "blackhole" name
            then true else is_candidate
          else is_candidate in
        if is_candidate then
          log LDEBUG "Detected loopback candidate #%s: %s (inputs=%s)"
            [PyStr.of_nat index; default (PyStr.of_nat index) (d_name device);
             PyStr.of_Z inputs] ;;;
          ret true
        else detect_loop self keyword_set sink_hint (S index) rest
  end.

(** [config.linux_loopback_sink.lower() if platform == "linux" and
    config.linux_loopback_sink else None] *)
Definition sink_hint_of (platform_key : string) (config : AudioInputConfig)
    : option string :=
  if (platform_key =? "linux")%string && PyStr.truthy_opt (linux_loopback_sink config)
  then PyStr.lower <$> linux_loopback_sink config
  else None.

Definition _detect_loopback_candidate (self : Manager) (keywords : list string)
    : M World bool :=
  devices <- query_devices_or_fail ;;
  let keyword_set := PyStr.lower <$> keywords in
  let sink_hint := sink_hint_of (_platform self) (_config self) in
  detect_loop self keyword_set sink_hint 0%nat devices.

Definition _get_linux_defaults : M World (option (option string * option string)) :=
  try_except
    (output <- subprocess_check_output ["pactl"; "info"] ;; ret (scan_defaults output))
    (fun _ => Some (ret None)).

(** The closure [restore] that [_register_linux_defaults_restore] builds. *)
Definition restore (sink_name source_name : option string) : Action :=
  when (PyStr.truthy_opt sink_name)
    (subprocess_run ["pactl"; "set-default-sink"; default "" sink_name] false None ;;; ret tt) ;;;
  when (PyStr.truthy_opt source_name)
    (subprocess_run ["pactl"; "set-default-source"; default "" source_name] false None ;;; ret tt).

Definition _register_linux_defaults_restore (defaults : option string * option string)
    : M ManagerState unit :=
  let '(sink, source) := defaults in
  modify (fun st => {| _cleanup_actions := _cleanup_actions st ++ [restore sink source];
                       world := world st |}).

Definition linux_keywords : list string := ["monitor"; "loopback"].
Definition windows_keywords : list string :=
  ["loopback"; "stereo mix"; "cable output"; "cable input"; "virtual"].
Definition darwin_keywords : list string :=
  ["blackhole"; "loopback"; "soundflower"; "aggregate"; "multi-output"].

Definition is_called_process_error (e : Exn) : bool :=
  match e with CalledProcessError _ => true | _ => false end.

Definition _prepare_linux_loopback (self : Manager) : M ManagerState unit :=
  pactl <- in_world (shutil_which "pactl") ;;
  if negb pactl then
    in_world (log LWARNING
      "pactl not found; cannot auto-configure PipeWire/PulseAudio loopback. Ensure a monitor source is selected manually." [])
  else
    flag <- in_world (environ_get "AUDIO_LOOPBACK_ALREADY_SET") ;;
    if bool_decide (flag = Some "1") then
      in_world (log LDEBUG "Loopback already set by launcher; verifying availability only." []) ;;;
      match device_index (_config self) with
      | None =>
          found <- in_world (_detect_loopback_candidate self linux_keywords) ;;
          if negb found then raise (AudioEnvironmentError FlagSetButNoMonitor) else ret tt
      | Some _ => ret tt
      end
    else
      when (auto_setup_loopback (_config self))
        (capture_defaults <- in_world _get_linux_defaults ;;
         match capture_defaults with
         | Some defaults => _register_linux_defaults_restore defaults
         | None => ret tt
         end ;;;
         let script := path_join (_scripts_dir self) "setup_audio_loopback_linux.sh" in
         is_file <- in_world (path_is_file script) ;;
         if is_file then
           env <- in_world (fun w => (Return (w_environ w), w)) ;;
           let env :=
             if PyStr.truthy_opt (linux_loopback_sink (_config self))
             then <["HEADPHONE_SINK" := default "" (linux_loopback_sink (_config self))]> env
             else env in
           in_world (try_except
             (subprocess_run ["bash"; script] true (Some env) ;;; ret tt)
             (fun e => if is_called_process_error e
                       then Some (raise (AudioEnvironmentError LinuxHelperFailed))
                       else None))
         else
           in_world (log LDEBUG "Loopback helper script not found at %s; skipping auto-setup."
                       [script])) ;;;
      found <- in_world (_detect_loopback_candidate self linux_keywords) ;;
      if negb found then
        match device_index (_config self) with
        | None => raise (AudioEnvironmentError NoLoopbackAfterSetup)
        | Some index =>
            in_world (log LDEBUG
              "Loopback candidates not found, but AUDIO_DEVICE_INDEX=%s is configured; continuing."
              [PyStr.of_Z index])
        end
      else ret tt.

Definition py_bool (b : bool) : string := if b then "True" else "False".

Definition _prepare_windows_loopback (self : Manager) : M ManagerState unit :=
  when (auto_setup_loopback (_config self))
    (let script := path_join (_scripts_dir self) "setup_audio_loopback_windows.ps1" in
     powershell <- in_world (shutil_which "powershell") ;;
     is_file <- in_world (path_is_file script) ;;
     if is_file && powershell then
       in_world (try_except
         (subprocess_run
            ["powershell"; "-NoProfile"; "-ExecutionPolicy"; "Bypass"; "-File"; script]
            true None ;;; ret tt)
         (fun e => match e with
                   | CalledProcessError rc =>
                       Some (log LWARNING
                         "Windows loopback helper exited with code %s. Continuing with verification."
                         [PyStr.of_Z rc])
                   | _ => None
                   end))
     else
       present <- in_world (path_exists script) ;;
       in_world (log LDEBUG "Skipping Windows loopback helper (script=%s, powershell=%s)."
                   [py_bool present; py_bool powershell])) ;;;
  match device_index (_config self) with
  | None =>
      found <- in_world (_detect_loopback_candidate self windows_keywords) ;;
      if negb found then raise (AudioEnvironmentError NoWindowsLoopback) else ret tt
  | Some _ => ret tt
  end.

Definition _prepare_macos_loopback (self : Manager) : M ManagerState unit :=
  when (auto_setup_loopback (_config self))
    (let script := path_join (_scripts_dir self) "setup_audio_loopback_macos.sh" in
     is_file <- in_world (path_is_file script) ;;
     if is_file then
       in_world (try_except
         (subprocess_run ["bash"; script] true None ;;; ret tt)
         (fun e => match e with
                   | CalledProcessError rc =>
                       Some (log LWARNING
                         "macOS loopback helper exited with code %s. Continuing with verification."
                         [PyStr.of_Z rc])
                   | _ => None
                   end))
     else
       in_world (log LDEBUG "macOS loopback helper script not found at %s." [script])) ;;;
  match device_index (_config self) with
  | None =>
      found <- in_world (_detect_loopback_candidate self darwin_keywords) ;;
      if negb found then raise (AudioEnvironmentError NoMacLoopback) else ret tt
  | Some _ => ret tt
  end.

Definition _prepare_loopback (self : Manager) : M ManagerState unit :=
  if (_platform self =? "linux")%string then _prepare_linux_loopback self
  else if (_platform self =? "windows")%string then _prepare_windows_loopback self
  else if (_platform self =? "darwin")%string then _prepare_macos_loopback self
  else in_world (log LWARNING
         "Loopback capture not explicitly supported on platform '%s'. Ensure routing manually."
         [_platform self]).

Definition prepare (self : Manager) : M ManagerState unit :=
  st <- get ;;
  let mode := resolve_capture_mode (platform_system (world st)) (_config self) in
  in_world (log LDEBUG "Preparing audio environment for mode=%s" [mode_value mode]) ;;;
  set_cleanup_actions [] ;;;
  in_world (_ensure_device_presence self) ;;;
  match mode with
  | MICROPHONE => ret tt
  | API =>
      in_world (log LINFO
        "Audio capture mode set to 'api'. Ensure external media ingestion is configured." [])
  | LOOPBACK => _prepare_loopback self
  | AUTO => ret tt
  end.

(** [list.pop()] on a non-empty list: the list without its last element,
    and that element. *)
Definition list_pop {A} (l : list A) : option (list A * A) :=
  match reverse l with
  | [] => None
  | x :: front => Some (reverse front, x)
  end.

(** The body of the loop of [cleanup] once an action is popped: run it,
    and log what it raises. *)
Definition cleanup_turn (action : Action) : M World unit :=
  try_except action
    (fun exc => Some (log LWARNING "Audio environment cleanup failed: %s" [exn_text exc])).

(** [while self._cleanup_actions: ...], with one unit of fuel per turn;
    [None] is running out of fuel. *)
Fixpoint cleanup_loop (fuel : nat) (st : ManagerState)
    : option (Outcome unit * ManagerState) :=
  match list_pop (_cleanup_actions st) with
  | None => Some (Return tt, st)
  | Some (remaining, action) =>
      match fuel with
      | O => None
      | S fuel' =>
          match (set_cleanup_actions remaining ;;; in_world (cleanup_turn action)) st with
          | (Return _, st') => cleanup_loop fuel' st'
          | (Raise e, st') => Some (Raise e, st')
          end
      end
  end.

(** [cleanup()]: the loop gets as many turns as there are actions on the
    stack, which is what it needs. *)
Definition cleanup (self : Manager) : M ManagerState unit :=
  fun st =>
    match cleanup_loop (length (_cleanup_actions st)) st with
    | Some result => result
    | None => (Raise (OtherException "cleanup: out of fuel"), st)
    end.

(** [_hostapi_name(index)] *)
Definition _hostapi_name (idx : Z) : M World string :=
  fun w =>
    match o_query_hostapis (w_oracle w) (w_trace w) with
    | Some hostapis =>
        if (0 <=? idx) && (idx <? Z.of_nat (length hostapis)) then
          match hostapis !! Z.to_nat idx with
          | Some entry => (Return (default (PyStr.of_Z idx) (h_name entry)), w)
          | None => (Return (PyStr.of_Z idx), w)
          end
        else (Return (PyStr.of_Z idx), w)
    | None => (Return (PyStr.of_Z idx), w)
    end.

(** The loop of [_summarise_devices], from position [idx] on. *)
Fixpoint summarise_from (idx : nat) (devices : list Device)
    : M World (list AudioDeviceSummary) :=
  match devices with
  | [] => ret []
  | device :: rest =>
      api <- _hostapi_name (default (-1) (d_hostapi device)) ;;
      let summary :=
        {| index := idx;
           name := default ("Device " +:+ PyStr.of_nat idx) (d_name device);
           hostapi := api;
           inputs := max_input_channels device;
           outputs := default 0 (d_max_output_channels device);
           default_samplerate := d_default_samplerate device |} in
      summaries <- summarise_from (S idx) rest ;;
      ret (summary :: summaries)
  end.

Definition _summarise_devices (devices : list Device) : M World (list AudioDeviceSummary) :=
  summarise_from 0 devices.

(** [loopback_keywords.get(platform_key, set())] *)
Definition loopback_keywords (platform_key : string) : list string :=
  if (platform_key =? "linux")%string then ["monitor"; "loopback"]
  else if (platform_key =? "windows")%string then
    ["loopback"; "stereo mix"; "cable output"; "cable input"; "virtual"]
  else if (platform_key =? "darwin")%string then
    ["blackhole"; "loopback"; "soundflower"; "aggregate"; "multi-output"]
  else [].

(** The test the loop of [collect_audio_diagnostics] applies to one input
    summary. *)
Definition collect_is_candidate (platform_key : string) (keyword_set : list string)
    (sink_hint : option string) (summary : AudioDeviceSummary) : bool :=
  let lowered := PyStr.lower (name summary) in
  let is_candidate := existsb (fun keyword => PyStr.contains keyword lowered) keyword_set in
  if (platform_key =? "linux")%string then
    let is_candidate :=
      if negb is_candidate && PyStr.truthy_opt sink_hint
         && PyStr.contains (default "" sink_hint) lowered
      then true else is_candidate in
    if negb is_candidate
       && ((lowered =? "pipewire")%string || (lowered =? "default")%string)
       && (inputs summary >=? 2)
    then true else is_candidate
  else if (platform_key =? "windows")%string then
    if negb is_candidate && PyStr.contains "loopback" lowered
       && PyStr.contains "wasapi" lowered
    then true else is_candidate
  else if (platform_key =? "darwin")%string then
    if negb is_candidate && PyStr.contains "blackhole" lowered
    then true else is_candidate
  else is_candidate.

Definition msg_no_input_device : string :=
  "入力デバイスが見つかりませんでした。サウンド設定を確認してください。".
Definition msg_pin_device_index : string :=
  "AUDIO_DEVICE_INDEX を設定するとデバイス切り替えの影響を受けにくくなります。".
Definition msg_no_candidate : string :=
  "ループバック入力候補が検出できませんでした。仮想デバイスやモニターを準備してください。".
Definition msg_check_index_routing : string :=
  "現在の AUDIO_DEVICE_INDEX がループバック経路を指しているかオーディオ設定で確認してください。".
Definition msg_candidates_prefix : string := "ループバック候補: ".

(** [[summaries[idx] for idx, dev in enumerate(devices) if dev in input_devices]] *)
Definition select_input_summaries (devices input_devices : list Device)
    (summaries : list AudioDeviceSummary) : list AudioDeviceSummary :=
  omap (fun '(idx, dev) =>
          if bool_decide (dev ∈ input_devices) then summaries !! idx else None)
       (imap pair devices).

Definition collect_audio_diagnostics (config : AudioInputConfig)
    : M World AudioDiagnosticReport :=
  devices <- query_devices_or_fail ;;
  let input_devices := filter (fun dev => 0 < max_input_channels dev) devices in
  summaries <- _summarise_devices devices ;;
  let input_summaries := select_input_summaries devices input_devices summaries in
  w <- get ;;
  let platform_key := PyStr.lower (platform_system w) in
  let keywords := loopback_keywords platform_key in
  let keyword_set := PyStr.lower <$> keywords in
  let sink_hint := sink_hint_of platform_key config in
  let loopback_candidates :=
    List.filter (collect_is_candidate platform_key keyword_set sink_hint) input_summaries in
  let configured_device :=
    match device_index config with
    | Some i =>
        if (0 <=? i) && (i <? Z.of_nat (length summaries))
        then summaries !! Z.to_nat i else None
    | None => None
    end in
  let effective_mode := resolve_capture_mode (platform_system w) config in
  let issues := if bool_decide (input_summaries = []) then [msg_no_input_device] else [] in
  let recommendations :=
    if bool_decide (device_index config = None) && negb (bool_decide (input_summaries = []))
    then [msg_pin_device_index] else [] in
  let no_candidates := match loopback_candidates with [] => true | _ => false end in
  let '(issues, recommendations) :=
    if bool_decide (effective_mode = LOOPBACK) && no_candidates then
      match device_index config with
      | None => (issues ++ [msg_no_candidate], recommendations)
      | Some _ => (issues, recommendations ++ [msg_check_index_routing])
      end
    else (issues, recommendations) in
  let recommendations :=
    if bool_decide (effective_mode = LOOPBACK) && negb no_candidates then
      recommendations ++
        [msg_candidates_prefix +:+ PyStr.join ", " (name <$> take 3 loopback_candidates)]
    else recommendations in
  ret {| platform := platform_system w;
         report_mode := effective_mode;
         input_devices := input_summaries;
         loopback_candidates := loopback_candidates;
         configured_device := configured_device;
         issues := issues;
         recommendations := recommendations |}.

(** [run_cli_diagnostics(config)]; the rendered text is kept as the report
    it renders. *)
Definition run_cli_diagnostics (config : AudioInputConfig) : M World unit :=
  report <- collect_audio_diagnostics config ;;
  modify (emit (EvPrintReport report)).

(** ** [transcriber/cli.py] *)

Definition _capture_linux_defaults : M World (option (option string * option string)) :=
  try_except
    (output <- subprocess_check_output ["pactl"; "info"] ;; ret (scan_defaults output))
    (fun _ => Some (ret None)).

Definition _restore_linux_defaults (defaults : option (option string * option string))
    : M World unit :=
  match defaults with
  | None => ret tt
  | Some (sink, source) =>
      when (PyStr.truthy_opt sink)
        (subprocess_run ["pactl"; "set-default-sink"; default "" sink] false None ;;; ret tt) ;;;
      when (PyStr.truthy_opt source)
        (subprocess_run ["pactl"; "set-default-source"; default "" source] false None ;;; ret tt)
  end.

(** [_list_linux_devices(kind)], for [kind] one of "sinks" and "sources". *)
Definition _list_linux_devices (kind : string) : M World (list string) :=
  try_except
    (output <- subprocess_check_output ["pactl"; "list"; "short"; kind] ;;
     ret (omap (fun line =>
                  match PyStr.split_on PyStr.tab "" line with
                  | _ :: second :: _ => Some (PyStr.strip second)
                  | _ => None
                  end)
               (PyStr.splitlines output)))
    (fun _ => Some (ret [])).

Definition _ensure_linux_physical_defaults : M World unit :=
  info <- try_except
            (output <- subprocess_check_output ["pactl"; "info"] ;; ret (Some output))
            (fun _ => Some (ret None)) ;;
  match info with
  | None => ret tt
  | Some info =>
      let '(current_sink, current_source) :=
        foldl scan_default_line (None, None) (PyStr.splitlines info) in
      sinks <- _list_linux_devices "sinks" ;;
      sources <- _list_linux_devices "sources" ;;
      let physical_sinks :=
        List.filter (fun n => negb (PyStr.contains "codex_transcribe" n)) sinks in
      let physical_sources :=
        List.filter (fun n => negb (PyStr.contains ".monitor" n)
                              && negb (PyStr.contains "codex_transcribe" n)) sources in
      match current_sink, physical_sinks with
      | Some sink, first :: _ =>
          when (PyStr.truthy sink && PyStr.contains "codex_transcribe" sink)
            (subprocess_run ["pactl"; "set-default-sink"; first] false None ;;; ret tt)
      | _, _ => ret tt
      end ;;;
      match current_source, physical_sources with
      | Some source, first :: _ =>
          when (PyStr.truthy source
                && (PyStr.contains "codex_transcribe" source
                    || PyStr.endswith source ".monitor"))
            (subprocess_run ["pactl"; "set-default-source"; first] false None ;;; ret tt)
      | _, _ => ret tt
      end
  end.

(** The two-key dictionary [{"null": set(), "loop": set()}]. *)
Definition empty_modules : gmap string (gset string) :=
  <["null" := ∅]> (<["loop" := ∅]> ∅).

(** [modules.get(kind, set())] *)
Definition modules_get (modules : gmap string (gset string)) (kind : string) : gset string :=
  default ∅ (modules !! kind).

(** [modules[kind]] *)
Definition modules_index {S} (modules : gmap string (gset string)) (kind : string)
    : M S (gset string) :=
  match modules !! kind with
  | Some ids => ret ids
  | None => raise (KeyError kind)
  end.

(** The loop of [_snapshot_linux_modules] over the lines of the listing. *)
Definition scan_module_line (result : gmap string (gset string)) (line : string)
    : gmap string (gset string) :=
  match PyStr.split_on PyStr.tab "" line with
  | first :: second :: _ =>
      let idx := PyStr.strip first in
      let name := PyStr.strip second in
      if (name =? "module-null-sink")%string then
        <["null" := {[idx]} ∪ modules_get result "null"]> result
      else if (name =? "module-loopback")%string then
        <["loop" := {[idx]} ∪ modules_get result "loop"]> result
      else result
  | _ => result
  end.

Definition _snapshot_linux_modules : M World (gmap string (gset string)) :=
  try_except
    (output <- subprocess_check_output ["pactl"; "list"; "short"; "modules"] ;;
     ret (foldl scan_module_line empty_modules (PyStr.splitlines output)))
    (fun _ => Some (ret empty_modules)).

Definition unload_module (module_id : string) : M World unit :=
  subprocess_run ["pactl"; "unload-module"; module_id] false None ;;; ret tt.

Definition _unload_linux_modules (modules : gmap string (gset string)) : M World unit :=
  for_each (elements (modules_get modules "loop")) unload_module ;;;
  for_each (elements (modules_get modules "null")) unload_module.

(** The statements with which [run_easy_start] fills [modules_to_unload]
    from a fresh snapshot (they stand twice in it, after the helper script
    and in its exception handler). *)
Definition diff_modules (modules_before_script : option (gmap string (gset string)))
    (modules_after : gmap string (gset string)) : M World (gmap string (gset string)) :=
  let modules_before_script := default empty_modules modules_before_script in
  let modules_to_unload := empty_modules in
  null_after <- modules_index modules_after "null" ;;
  let modules_to_unload :=
    <["null" := null_after ∖ modules_get modules_before_script "null"]> modules_to_unload in
  loop_after <- modules_index modules_after "loop" ;;
  let modules_to_unload :=
    <["loop" := loop_after ∖ modules_get modules_before_script "loop"]> modules_to_unload in
  ret modules_to_unload.

(** Diff against the snapshot taken before the script, then unload: what
    the exception handler of [run_easy_start] does with the two. *)
Definition diff_and_unload (modules_before_script : option (gmap string (gset string)))
    (modules_after : gmap string (gset string)) : M World unit :=
  modules_to_unload <- diff_modules modules_before_script modules_after ;;
  _unload_linux_modules modules_to_unload.

Definition run_environment_check : M World bool :=
  fun w => (Return (o_environment_check (w_oracle w) (w_trace w)), emit EvEnvironmentCheck w).

Definition load_settings_audio : M World AudioInputConfig :=
  fun w => (Return (o_load_settings (w_oracle w) (w_trace w)), w).

(** [input(prompt)]: the line the user types, or [EOFError] when the
    standard input is at its end. *)
Definition input (prompt : string) : M World string :=
  fun w =>
    match o_input (w_oracle w) prompt (w_trace w) with
    | Some line => (Return line, emit (EvInput prompt) w)
    | None => (Raise (OtherException "EOFError"), emit (EvInput prompt) w)
    end.

(** [asyncio.run(run_pipeline(backend_override, log_file_override))], seen
    from its caller.  [run_pipeline] binds the termination signals and the
    suspend signal to one stop event, cancels the pipeline task when it is
    set and swallows the cancellation, so a signal makes it return; anything
    else the task raises leaves through [asyncio.run].  What the run does to
    the process environment is the oracle's to say. *)
Definition asyncio_run_pipeline : M World unit :=
  fun w =>
    let '(outcome, env') := o_pipeline (w_oracle w) (w_environ w) (w_trace w) in
    let w' := set_environ env' (emit (EvPipeline (w_environ w) outcome) w) in
    match outcome with
    | PipelineRaised e => (Raise e, w')
    | PipelineCompleted | PipelineCancelledBySignal => (Return tt, w')
    end.

Definition in_set (x : string) (xs : list string) : bool :=
  existsb (String.eqb x) xs.

(** The locals of [run_easy_start] that its [finally] block reads. *)
Record LaunchState := {
  headphone_env_previous : option string;
  loopback_flag_previous : option string;
  launch_world : World;
}.

Definition in_launch {A} (m : M World A) : M LaunchState A :=
  fun st =>
    let '(r, w) := m (launch_world st) in
    (r, {| headphone_env_previous := headphone_env_previous st;
           loopback_flag_previous := loopback_flag_previous st;
           launch_world := w |}).

Definition set_headphone_env_previous (v : option string) : M LaunchState unit :=
  modify (fun st => {| headphone_env_previous := v;
                       loopback_flag_previous := loopback_flag_previous st;
                       launch_world := launch_world st |}).

Definition set_loopback_flag_previous (v : option string) : M LaunchState unit :=
  modify (fun st => {| headphone_env_previous := headphone_env_previous st;
                       loopback_flag_previous := v;
                       launch_world := launch_world st |}).

(** Runs a block that has its own locals, starting from their initial
    values, and hands the world back. *)
Definition with_launch_locals {A} (m : M LaunchState A) : M World A :=
  fun w =>
    let '(r, st) := m {| headphone_env_previous := None;
                         loopback_flag_previous := None;
                         launch_world := w |} in
    (r, launch_world st).

Definition SystemDefaults : Type := option string * option string.

(** The [try] block of the launch branch of [run_easy_start]. *)
Definition launch_try (system : string) (defaults_before_script : option SystemDefaults)
    : M LaunchState unit :=
  when (system =? "linux")%string
    (match defaults_before_script with
     | Some (sink_hint, _) =>
         match sink_hint with
         | Some hint =>
             when (PyStr.truthy hint)
               (previous <- in_launch (environ_get "HEADPHONE_SINK") ;;
                set_headphone_env_previous previous ;;;
                in_launch (environ_set "HEADPHONE_SINK" hint))
         | None => ret tt
         end
     | None => ret tt
     end ;;;
     previous <- in_launch (environ_get "AUDIO_LOOPBACK_ALREADY_SET") ;;
     set_loopback_flag_previous previous ;;;
     in_launch (environ_set "AUDIO_LOOPBACK_ALREADY_SET" "1")) ;;;
  in_launch asyncio_run_pipeline.

(** Its [finally] block. *)
Definition launch_finally (system : string) (defaults_before_script : option SystemDefaults)
    (modules_to_unload : gmap string (gset string)) : M LaunchState unit :=
  in_launch (_restore_linux_defaults defaults_before_script) ;;;
  when (system =? "linux")%string
    (st <- get ;;
     match headphone_env_previous st with
     | Some previous => in_launch (environ_set "HEADPHONE_SINK" previous)
     | None => in_launch (environ_pop "HEADPHONE_SINK")
     end ;;;
     match loopback_flag_previous st with
     | Some previous => in_launch (environ_set "AUDIO_LOOPBACK_ALREADY_SET" previous)
     | None => in_launch (environ_pop "AUDIO_LOOPBACK_ALREADY_SET")
     end ;;;
     in_launch (_unload_linux_modules modules_to_unload) ;;;
     in_launch _ensure_linux_physical_defaults).

(** The branch taken when the user declines to start the pipeline. *)
Definition launch_declined (system : string) (defaults_before_script : option SystemDefaults)
    (modules_to_unload : gmap string (gset string)) : M World unit :=
  print "パイプラインの起動をスキップしました。`python -m transcriber.cli --log-level=INFO` でいつでも開始できます。" ;;;
  _restore_linux_defaults defaults_before_script ;;;
  when (system =? "linux")%string
    (environ_pop "AUDIO_LOOPBACK_ALREADY_SET" ;;;
     environ_pop "HEADPHONE_SINK" ;;;
     _unload_linux_modules modules_to_unload ;;;
     _ensure_linux_physical_defaults).

(** From the second prompt of [run_easy_start] to its [return True]. *)
Definition launch_phase (system : string) (defaults_before_script : option SystemDefaults)
    (modules_to_unload : gmap string (gset string)) : M World bool :=
  start <- input "環境準備が整いました。文字起こしを今すぐ開始しますか？ [Y/n]: " ;;
  let start := PyStr.lower (PyStr.strip start) in
  (if in_set start [""; "y"; "yes"] then
     with_launch_locals
       (try_finally (launch_try system defaults_before_script)
                    (launch_finally system defaults_before_script modules_to_unload))
   else launch_declined system defaults_before_script modules_to_unload) ;;;
  ret true.

(** What the helper-script block of [run_easy_start] leaves behind: [None]
    is its [return False]; otherwise the values of [defaults_before_script]
    and [modules_to_unload] it ends with. *)
Definition script_phase (system : string) (script : option (string * string))
    (command : list string) (defaults_before_script : option SystemDefaults)
    (modules_before_script : option (gmap string (gset string)))
    : M World (option (option SystemDefaults * gmap string (gset string))) :=
  match script with
  | None => ret (Some (defaults_before_script, empty_modules))
  | Some (dir, file) =>
      present <- path_exists (path_join dir file) ;;
      if present && negb (bool_decide (command = [])) then
        answer <- input (file +:+ " を実行してループバック設定を整えますか？ [y/N]: ") ;;
        let answer := PyStr.lower (PyStr.strip answer) in
        if in_set answer ["y"; "yes"] then
          try_except
            (subprocess_run command true None ;;;
             if (system =? "linux")%string then
               modules_after <- _snapshot_linux_modules ;;
               modules_to_unload <- diff_modules modules_before_script modules_after ;;
               ret (Some (defaults_before_script, modules_to_unload))
             else ret (Some (defaults_before_script, empty_modules)))
            (fun exc => Some
               (print ("スクリプト実行中に問題が発生しました: " +:+ exn_text exc) ;;;
                _restore_linux_defaults defaults_before_script ;;;
                when (system =? "linux")%string
                  (modules_after <- _snapshot_linux_modules ;;
                   diff_and_unload modules_before_script modules_after) ;;;
                ret None))
        else ret (Some (None, empty_modules))
      else ret (Some (defaults_before_script, empty_modules))
  end.

(** [run_easy_start(backend_override, log_file_override, interactive)]; the
    two overrides only travel to the pipeline and are left out. *)
Definition run_easy_start (interactive : bool) : M World bool :=
  ready <- run_environment_check ;;
  if negb ready then
    print "環境チェックで問題が見つかりました。表示された項目を修正して再実行してください。" ;;;
    ret false
  else
    audio <- load_settings_audio ;;
    diagnosed <- try_except (run_cli_diagnostics audio ;;; ret true)
      (fun exc => match exc with
                  | AudioEnvironmentError _ =>
                      Some (print ("オーディオ環境エラー: " +:+ exn_text exc) ;;; ret false)
                  | _ => None
                  end) ;;
    if negb diagnosed then ret false
    else
      w <- get ;;
      let system := PyStr.lower (platform_system w) in
      let scripts_dir := "scripts" in
      selected <-
        (if (system =? "linux")%string then
           defaults <- _capture_linux_defaults ;;
           modules <- _snapshot_linux_modules ;;
           ret (Some (scripts_dir, "setup_audio_loopback_linux.sh"),
                ["bash"; path_join scripts_dir "setup_audio_loopback_linux.sh"],
                defaults, Some modules)
         else if (system =? "darwin")%string then
           ret (Some (scripts_dir, "setup_audio_loopback_macos.sh"),
                ["bash"; path_join scripts_dir "setup_audio_loopback_macos.sh"],
                None, None)
         else if (system =? "windows")%string then
           ret (Some (scripts_dir, "setup_audio_loopback_windows.ps1"),
                ["powershell"; "-NoProfile"; "-ExecutionPolicy"; "Bypass"; "-File";
                 path_join scripts_dir "setup_audio_loopback_windows.ps1"],
                None, None)
         else ret (None, [], None, None)) ;;
      let '(script, command, defaults_before_script, modules_before_script) := selected in
      if negb interactive then
        _restore_linux_defaults defaults_before_script ;;;
        when (system =? "linux")%string _ensure_linux_physical_defaults ;;;
        ret true
      else
        prepared <- script_phase system script command defaults_before_script
                      modules_before_script ;;
        match prepared with
        | None => ret false
        | Some (defaults_before_script, modules_to_unload) =>
            launch_phase system defaults_before_script modules_to_unload
        end.

(** * Vocabulary of the properties *)

(** ** Relations between worlds *)

(** [w'] is [w] after some more events: same oracle, and the history of
    [w] is a prefix of the history of [w']. *)
Definition extends_by (events : list Event) (w w' : World) : Prop :=
  w_oracle w' = w_oracle w /\ w_trace w' = w_trace w ++ events.

(** Events that only look at the outside or write to the log or the
    terminal's output: nothing in the system is changed by them. *)
Definition is_observation (ev : Event) : bool :=
  match ev with
  | EvQueryDevices | EvLog _ _ _ | EvPrint _ | EvPrintReport _ | EvCheckOutput _ => true
  | EvRun _ _ | EvInput _ | EvEnvironmentCheck | EvPipeline _ _ => false
  end.

(** A world relation kept by a computation whatever its outcome. *)
Definition keeps {A} (R : World -> World -> Prop) (m : M World A) : Prop :=
  forall w, R w (snd (m w)).

(** The relations of interest are preorders on worlds. *)
Class WorldPreorder (R : World -> World -> Prop) := {
  R_refl : forall w, R w w;
  R_trans : forall w1 w2 w3, R w1 w2 -> R w2 w3 -> R w1 w3;
}.

(** Same process environment, and the same outside, before and after. *)
Definition same_environ (w w' : World) : Prop :=
  w_environ w' = w_environ w /\ w_oracle w' = w_oracle w.

(** Nothing but observations happened: the environment and the oracle are
    the same and the history grew by observations only. *)
Definition only_observed (w w' : World) : Prop :=
  w_environ w' = w_environ w /\
  exists events, extends_by events w w' /\ forallb is_observation events = true.

(** The history only grows. *)
Definition grows (w w' : World) : Prop := exists events, w_trace w' = w_trace w ++ events.

(** The computation ends normally from every state. *)
Definition returns {S A} (m : M S A) : Prop := forall s, exists a, fst (m s) = Return a.

(** ** Rollback, module snapshots and preparation *)

(** What one turn of the cleanup loop does to the world. *)
Definition run_logged (w : World) (action : Action) : World :=
  snd (cleanup_turn action w).

(** The trace of one [pactl unload-module]. *)
Definition unload_event (module_id : string) : Event :=
  EvRun ["pactl"; "unload-module"; module_id] None.

(** The world after some events, in order. *)
Definition emit_all (events : list Event) (w : World) : World :=
  {| w_environ := w_environ w; w_trace := w_trace w ++ events; w_oracle := w_oracle w |}.

(** A snapshot that lists both module kinds. *)
Definition has_both_kinds (modules : gmap string (gset string)) : Prop :=
  is_Some (modules !! "null") /\ is_Some (modules !! "loop").

(** The snapshots of the example of the design document. *)
Definition example_before : gmap string (gset string) :=
  <["null" := {["1"]}]> (<["loop" := ∅]> ∅).
Definition example_after : gmap string (gset string) :=
  <["null" := {["1"; "2"]}]> (<["loop" := {["3"]}]> ∅).

(** The first log line of [prepare()]. *)
Definition prepare_log (self : Manager) (w : World) : Event :=
  EvLog LDEBUG "Preparing audio environment for mode=%s"
    [mode_value (resolve_capture_mode (platform_system w) (_config self))].

Definition is_log (ev : Event) : bool :=
  match ev with EvLog _ _ _ => true | _ => false end.

Definition no_pactl_warning : Event :=
  EvLog LWARNING
    "pactl not found; cannot auto-configure PipeWire/PulseAudio loopback. Ensure a monitor source is selected manually."
    [].

Definition flag_debug_log : Event :=
  EvLog LDEBUG "Loopback already set by launcher; verifying availability only." [].

Definition with_world (st : ManagerState) (w : World) : ManagerState :=
  {| _cleanup_actions := _cleanup_actions st; world := w |}.

(** The outcome is the environment error, raised at a site of [kind]. *)
Definition fails_with (kind : ErrorKind) (r : Outcome unit) : Prop :=
  exists site, r = Raise (AudioEnvironmentError site) /\ error_kind site = kind.

(** ** Sample worlds *)

Module Samples.

(** The capture device of the unit tests. *)
Definition webcam : Device :=
  {| d_name := Some "alsa_input.usb-Logitech_Webcam-00";
     d_max_input_channels := Some 2;
     d_max_output_channels := Some 0;
     d_hostapi := Some 0;
     d_default_samplerate := None |}.

(** An outside that always answers the same: platform [system], the given
    enumeration, [pactl] on the path or not, [pactl info] answering [info],
    every child exiting with status 0, the user typing [answer], and the
    pipeline ending as [outcome] with the environment untouched. *)
Definition steady (system : string) (devices : option (list Device)) (pactl : bool)
    (info : option string) (answer : string) (outcome : PipelineOutcome) : Oracle :=
  {| o_platform_system := system;
     o_query_devices := fun _ => devices;
     o_query_hostapis := fun _ => Some [ {| h_name := Some "ALSA" |} ];
     o_which := fun prog _ => if (prog =? "pactl")%string then pactl else true;
     o_is_file := fun _ _ => true;
     o_exists := fun _ _ => true;
     o_check_output :=
       fun argv _ => match argv with
                     | ["pactl"; "info"] => info
                     | _ => if pactl then Some "" else None
                     end;
     o_exit_status := fun _ _ _ => 0;
     o_input := fun _ _ => Some answer;
     o_environment_check := fun _ => true;
     o_load_settings :=
       fun _ => {| device_index := None; mode := AUTO; auto_setup_loopback := true;
                   linux_loopback_sink := None |};
     o_pipeline := fun env _ => (outcome, env) |}.

Definition fresh (env : gmap string string) (o : Oracle) : World :=
  {| w_environ := env; w_trace := []; w_oracle := o |}.

Definition config_of (idx : option Z) (sink : option string) : AudioInputConfig :=
  {| device_index := idx; mode := AUTO; auto_setup_loopback := true;
     linux_loopback_sink := sink |}.

Definition manager (system : string) (config : AudioInputConfig) : Manager :=
  {| _config := config; _platform := PyStr.lower system; _scripts_dir := "scripts" |}.

Definition idle (w : World) : ManagerState := {| _cleanup_actions := []; world := w |}.

(** Linux, one webcam, no [pactl], the launcher's flag set. *)
Definition flagged_without_pactl : World :=
  fresh (<["AUDIO_LOOPBACK_ALREADY_SET" := "1"]> ∅)
        (steady "Linux" (Some [webcam]) false None "y" PipelineCompleted).

(** Linux, one webcam, [pactl] present, the launcher's flag set. *)
Definition flagged_with_pactl : World :=
  fresh (<["AUDIO_LOOPBACK_ALREADY_SET" := "1"]> ∅)
        (steady "Linux" (Some [webcam]) true None "y" PipelineCompleted).

(** Linux, one webcam, no [pactl], nothing in the environment. *)
Definition plain_without_pactl : World :=
  fresh ∅ (steady "Linux" (Some [webcam]) false None "y" PipelineCompleted).

(** An output device: it has no input channel. *)
Definition speakers : Device :=
  {| d_name := Some "alsa_output.pci-0000_00_1f.3.analog-stereo";
     d_max_input_channels := Some 0;
     d_max_output_channels := Some 2;
     d_hostapi := Some 0;
     d_default_samplerate := None |}.

(** Linux, the speakers as the only device, no [pactl], nothing in the
    environment. *)
Definition output_only_without_pactl : World :=
  fresh ∅ (steady "Linux" (Some [speakers]) false None "y" PipelineCompleted).

End Samples.

(** C7 as it is worded: on Linux with the signal set, the loopback stage
    changes nothing and fails with the no-loopback error exactly when no
    index is configured and the detection finds no candidate. *)
Definition flag_set_claim (self : Manager) (st : ManagerState) : Prop :=
  let w1 := emit flag_debug_log (world st) in
  let result := _prepare_loopback self st in
  _platform self = "linux" ->
  w_environ (world st) !! "AUDIO_LOOPBACK_ALREADY_SET" = Some "1" ->
  _cleanup_actions (snd result) = _cleanup_actions st
  /\ only_observed (world st) (world (snd result))
  /\ (fails_with NoLoopbackDetected (fst result)
      <-> device_index (_config self) = None
          /\ fst (_detect_loopback_candidate self linux_keywords w1) = Return false).

(** C9 as it is worded: on Linux in the loopback mode, without [pactl]
    on the path [prepare()] returns, registers no rollback action and changes
    nothing, whatever the devices are. *)
Definition without_pactl_claim (self : Manager) (st : ManagerState) : Prop :=
  _platform self = "linux" ->
  resolve_capture_mode (platform_system (world st)) (_config self) = LOOPBACK ->
  (forall trace, o_which (w_oracle (world st)) "pactl" trace = false) ->
  fst (prepare self st) = Return tt
  /\ _cleanup_actions (snd (prepare self st)) = []
  /\ only_observed (world st) (world (snd (prepare self st))).

(** ** The launch of the pipeline *)

Definition HEADPHONE_SINK : string := "HEADPHONE_SINK".
Definition AUDIO_LOOPBACK_ALREADY_SET : string := "AUDIO_LOOPBACK_ALREADY_SET".

Definition launch_prompt : string :=
  "環境準備が整いました。文字起こしを今すぐ開始しますか？ [Y/n]: ".

(** What the user answers to the second prompt, as the code reads it;
    [None] when the prompt cannot be read. *)
Definition start_answer (w : World) : option string :=
  (fun line => PyStr.lower (PyStr.strip line))
    <$> o_input (w_oracle w) launch_prompt (w_trace w).

(** The sink name that the launch branch puts into [HEADPHONE_SINK], if it
    puts one. *)
Definition sink_hint_for_run (defaults : option SystemDefaults) : option string :=
  match defaults with
  | Some (Some hint, _) => if PyStr.truthy hint then Some hint else None
  | _ => None
  end.

(** The environment the pipeline is started with. *)
Definition environ_for_run (defaults : option SystemDefaults) (env : gmap string string)
    : gmap string string :=
  <[AUDIO_LOOPBACK_ALREADY_SET := "1"]>
    match sink_hint_for_run defaults with
    | Some hint => <[HEADPHONE_SINK := hint]> env
    | None => env
    end.

(** [os.environ[key] = previous] or [os.environ.pop(key, None)]. *)
Definition put_back (key : string) (previous : option string) (env : gmap string string)
    : gmap string string :=
  match previous with
  | Some value => <[key := value]> env
  | None => delete key env
  end.

Definition launch_locals (hp lf : option string) (w : World) : LaunchState :=
  {| headphone_env_previous := hp; loopback_flag_previous := lf; launch_world := w |}.

Definition is_pipeline_event (ev : Event) : bool :=
  match ev with EvPipeline _ _ => true | _ => false end.

Module LaunchSamples.

(** Linux with both hints already in the environment and a pipeline that
    raises after overwriting them. *)
Definition hostile_pipeline : Oracle :=
  {| o_platform_system := "Linux";
     o_query_devices := fun _ => Some [Samples.webcam];
     o_query_hostapis := fun _ => None;
     o_which := fun _ _ => true;
     o_is_file := fun _ _ => true;
     o_exists := fun _ _ => true;
     o_check_output := fun _ _ => Some "";
     o_exit_status := fun _ _ _ => 0;
     o_input := fun _ _ => Some " Y ";
     o_environment_check := fun _ => true;
     o_load_settings := fun _ => Samples.config_of None None;
     o_pipeline :=
       fun env _ => (PipelineRaised (OtherException "backend unreachable"),
                     delete "AUDIO_LOOPBACK_ALREADY_SET" (<["HEADPHONE_SINK" := "x"]> env)) |}.

Definition inherited : gmap string string :=
  <["HEADPHONE_SINK" := "usb-headset"]> (<["AUDIO_LOOPBACK_ALREADY_SET" := "0"]> ∅).

Definition launching : World := Samples.fresh inherited hostile_pipeline.

Definition declining : World :=
  Samples.fresh inherited
    (Samples.steady "Linux" (Some [Samples.webcam]) true None "n" PipelineCompleted).

Definition captured : option SystemDefaults := Some (Some "alsa_output.analog", None).

(** Linux where [pactl info] names a default sink, the user declines the
    helper script and starts the pipeline, and the pipeline completes
    without touching the environment. *)
Definition script_declined : Oracle :=
  {| o_platform_system := "Linux";
     o_query_devices := fun _ => Some [Samples.webcam];
     o_query_hostapis := fun _ => None;
     o_which := fun _ _ => true;
     o_is_file := fun _ _ => true;
     o_exists := fun _ _ => true;
     o_check_output :=
       fun argv _ =>
         match argv with
         | ["pactl"; "info"] => Some "Default Sink: speakers"
         | _ => Some ""
         end;
     o_exit_status := fun _ _ _ => 0;
     o_input :=
       fun prompt _ => if (prompt =? launch_prompt)%string then Some "y" else Some "n";
     o_environment_check := fun _ => true;
     o_load_settings := fun _ => Samples.config_of None None;
     o_pipeline := fun env _ => (PipelineCompleted, env) |}.

(** That run, entered with both hints in the environment. *)
Definition inheriting : World := Samples.fresh inherited script_declined.

(** Linux with the standard input at its end: no prompt can be read. *)
Definition silent : Oracle :=
  {| o_platform_system := "Linux";
     o_query_devices := fun _ => Some [Samples.webcam];
     o_query_hostapis := fun _ => None;
     o_which := fun _ _ => true;
     o_is_file := fun _ _ => true;
     o_exists := fun _ _ => true;
     o_check_output := fun _ _ => Some "";
     o_exit_status := fun _ _ _ => 0;
     o_input := fun _ _ => None;
     o_environment_check := fun _ => true;
     o_load_settings := fun _ => Samples.config_of None None;
     o_pipeline := fun env _ => (PipelineCompleted, env) |}.

End LaunchSamples.

(** ** The loopback classifier *)

(** The verdict the loop of [_detect_loopback_candidate] reaches on one
    input-capable device; [detect_loop_spec] shows that this is what the
    loop computes. *)
Definition detect_verdict (self : Manager) (keyword_set : list string)
    (sink_hint : option string) (device : Device) : bool :=
  let inputs := max_input_channels device in
  let name := PyStr.lower (default "" (d_name device)) in
  let is_candidate := existsb (fun keyword => PyStr.contains keyword name) keyword_set in
  if (_platform self =? "linux")%string then
    let is_candidate :=
      if negb is_candidate && PyStr.truthy_opt sink_hint
         && PyStr.contains (default "" sink_hint) name
      then true else is_candidate in
    if negb is_candidate
       && ((name =? "pipewire")%string || (name =? "default")%string)
       && (inputs >=? 2)
    then true else is_candidate
  else if (_platform self =? "windows")%string then
    if negb is_candidate && PyStr.contains "loopback" name && PyStr.contains "wasapi" name
    then true else is_candidate
  else if (_platform self =? "darwin")%string then
    if negb is_candidate && PyStr.contains "blackhole" name
    then true else is_candidate
  else is_candidate.

(** What [_summarise_devices] makes of device [dev] at position [idx]. *)
Definition summary_of (idx : nat) (dev : Device) (s : AudioDeviceSummary) : Prop :=
  index s = idx
  /\ name s = default ("Device " +:+ PyStr.of_nat idx) (d_name dev)
  /\ inputs s = max_input_channels dev.

(** The keywords each platform's preparation hands to the detection;
    [_prepare_loopback] runs no detection on any other platform. *)
Definition prepare_keywords (platform_key : string) : list string :=
  if (platform_key =? "linux")%string then linux_keywords
  else if (platform_key =? "windows")%string then windows_keywords
  else if (platform_key =? "darwin")%string then darwin_keywords
  else [].

(** C6 as it is worded: the existence check of the preparation answers yes
    exactly when the collection of the diagnostics is not empty. *)
Definition shapes_agree (self : Manager) (w_prepare w_diagnose : World) : Prop :=
  fst (_detect_loopback_candidate self (prepare_keywords (_platform self)) w_prepare)
    = Return true
  <-> exists report,
        fst (collect_audio_diagnostics (_config self) w_diagnose) = Return report
        /\ loopback_candidates report <> [].

Module ClassifierSamples.

Definition usb_sink : Device :=
  {| d_name := Some "usb-sink-analog";
     d_max_input_channels := Some 1;
     d_max_output_channels := Some 0;
     d_hostapi := Some 0;
     d_default_samplerate := None |}.

Definition linux_with (devices : list Device) : World :=
  Samples.fresh ∅ (Samples.steady "Linux" (Some devices) true None "y" PipelineCompleted).

Definition hinted (hint : string) : Manager :=
  Samples.manager "Linux" (Samples.config_of None (Some hint)).

End ClassifierSamples.

(** The Linux rule in the words of the design document, matching on the
    lower-cased name: the name contains "monitor" or "loopback", or equals
    the sink hint up to case, or is "pipewire" or "default" with at least
    two input channels. *)
Definition linux_candidate_as_specified (config : AudioInputConfig)
    (name : string) (inputs : Z) : bool :=
  let lowered := PyStr.lower name in
  PyStr.contains "monitor" lowered || PyStr.contains "loopback" lowered
  || match linux_loopback_sink config with
     | Some hint => (PyStr.lower hint =? lowered)%string
     | None => false
     end
  || ((lowered =? "pipewire")%string || (lowered =? "default")%string) && (inputs >=? 2).

(** The Linux rule the code applies: as above, but the sink hint, when it
    is not empty, only has to occur in the name. *)
Definition linux_candidate (config : AudioInputConfig) (name : string) (inputs : Z) : bool :=
  let lowered := PyStr.lower name in
  PyStr.contains "monitor" lowered || PyStr.contains "loopback" lowered
  || match linux_loopback_sink config with
     | Some hint => PyStr.truthy hint && PyStr.contains (PyStr.lower hint) lowered
     | None => false
     end
  || ((lowered =? "pipewire")%string || (lowered =? "default")%string) && (inputs >=? 2).

(** C2 as it is worded, on the candidates the diagnostics collect. *)
Definition linux_rule_claim (config : AudioInputConfig) (w : World) : Prop :=
  forall report,
    fst (collect_audio_diagnostics config w) = Return report ->
    forall s, s ∈ input_devices report ->
      (s ∈ loopback_candidates report
       <-> linux_candidate_as_specified config (name s) (inputs s) = true).

Module RollbackSamples.

Definition marker (label : string) : Action := print label.

Definition failing (label : string) : Action :=
  print label ;;; raise (OtherException "pactl vanished").

Definition registered : ManagerState :=
  {| _cleanup_actions := [marker "A"; failing "B"; marker "C"];
     world := Samples.plain_without_pactl |}.

End RollbackSamples.

(** * Vocabulary of the further properties *)

(** What [_ensure_device_presence] asks of an enumeration: it is not
    empty, and the configured index points at an input-capable device or,
    without an index, some device is input-capable. *)
Definition presence_ok (config : AudioInputConfig) (devices : list Device) : Prop :=
  devices <> []
  /\ match device_index config with
     | Some i =>
         0 <= i < Z.of_nat (length devices)
         /\ exists device, devices !! Z.to_nat i = Some device
                           /\ 0 < max_input_channels device
     | None => Exists (fun device => 0 < max_input_channels device) devices
     end.

(** Two enumerations whose devices differ at most in the letter case of
    their names. *)
Definition same_up_to_case (devices devices' : list Device) : Prop :=
  Forall2 (fun d d' =>
             PyStr.lower (default "" (d_name d)) = PyStr.lower (default "" (d_name d'))
             /\ max_input_channels d = max_input_channels d')
          devices devices'.

(** A manager like [self], with another sink hint. *)
Definition with_sink_hint (self : Manager) (hint : option string) : Manager :=
  {| _config := {| device_index := device_index (_config self);
                   mode := mode (_config self);
                   auto_setup_loopback := auto_setup_loopback (_config self);
                   linux_loopback_sink := hint |};
     _platform := _platform self;
     _scripts_dir := _scripts_dir self |}.

(** A name without white space in it, and not empty. *)
Fixpoint no_space (s : string) : bool :=
  match s with
  | EmptyString => true
  | String c rest => negb (PyStr.is_space c) && no_space rest
  end.

(** A text without a line feed in it. *)
Fixpoint no_newline (s : string) : bool :=
  match s with
  | EmptyString => true
  | String c rest => negb (bool_decide (c = PyStr.newline)) && no_newline rest
  end.

Definition clean_name (s : string) : Prop := s <> "" /\ no_space s = true.

(** The two lines of [pactl info] that name the defaults. *)
Definition pactl_info_text (sink source : string) : string :=
  "Default Sink: " +:+ sink +:+ String PyStr.newline
    ("Default Source: " +:+ source +:+ String PyStr.newline "").

(** The module a line of [pactl list short modules] lists: identifier and
    name, the first two tab-separated fields without surrounding space. *)
Definition listed_module (line : string) : option (string * string) :=
  match PyStr.split_on PyStr.tab "" line with
  | first :: second :: _ => Some (PyStr.strip first, PyStr.strip second)
  | _ => None
  end.

(** [w'] is [w] after some events that all satisfy [P]; the environment and
    the oracle are those of [w]. *)
Definition adds (P : Event -> bool) (w w' : World) : Prop :=
  exists events, w' = emit_all events w /\ forallb P events = true.

(** [argv] is [pactl <command> <name>]. *)
Definition pactl_call (command : string) (argv : list string) : option string :=
  match argv with
  | [prog; cmd; target] =>
      if (prog =? "pactl")%string && (cmd =? command)%string then Some target else None
  | _ => None
  end.

(** The events [_ensure_linux_physical_defaults] may cause: queries of the
    audio server, and making a device the default that is not one of the
    tool's own ("codex_transcribe") and, for a source, not a monitor. *)
Definition physical_default_event (ev : Event) : bool :=
  match ev with
  | EvCheckOutput _ => true
  | EvRun argv None =>
      match pactl_call "set-default-sink" argv, pactl_call "set-default-source" argv with
      | Some sink, _ => negb (PyStr.contains "codex_transcribe" sink)
      | None, Some source =>
          negb (PyStr.contains ".monitor" source)
          && negb (PyStr.contains "codex_transcribe" source)
      | None, None => false
      end
  | _ => false
  end.

(** The events of a run that neither asks the user, nor starts the
    pipeline or a helper script, nor unloads a module: checks, queries,
    output, and setting a default sink or source. *)
Definition passive_event (ev : Event) : bool :=
  match ev with
  | EvEnvironmentCheck | EvQueryDevices | EvCheckOutput _ | EvPrint _ | EvPrintReport _ => true
  | EvRun argv None =>
      match pactl_call "set-default-sink" argv, pactl_call "set-default-source" argv with
      | None, None => false
      | _, _ => true
      end
  | _ => false
  end.

Definition msg_not_ready : string :=
  "環境チェックで問題が見つかりました。表示された項目を修正して再実行してください。".

(** ** The rollback stack across a stage *)

(** The stage leaves the stack as it found it. *)
Definition keeps_stack {A} (m : M ManagerState A) : Prop :=
  forall st, _cleanup_actions (snd (m st)) = _cleanup_actions st.

(** The stage leaves the stack as it found it, or with one action more,
    which restores defaults of which one at least is named. *)
Definition pushes_at_most_restore {A} (m : M ManagerState A) : Prop :=
  forall st,
    _cleanup_actions (snd (m st)) = _cleanup_actions st
    \/ exists sink source,
         PyStr.truthy_opt sink || PyStr.truthy_opt source = true
         /\ _cleanup_actions (snd (m st)) = _cleanup_actions st ++ [restore sink source].

(** [pactl set-default-sink <name>] or [pactl set-default-source <name>],
    unchecked and in the process environment. *)
Definition sets_a_default (ev : Event) : bool :=
  match ev with
  | EvRun argv None =>
      match pactl_call "set-default-sink" argv, pactl_call "set-default-source" argv with
      | None, None => false
      | _, _ => true
      end
  | _ => false
  end.

(** The commands that run the helper scripts of Windows and of macOS. *)
Definition windows_helper_argv (self : Manager) : list string :=
  ["powershell"; "-NoProfile"; "-ExecutionPolicy"; "Bypass"; "-File";
   path_join (_scripts_dir self) "setup_audio_loopback_windows.ps1"].

Definition macos_helper_argv (self : Manager) : list string :=
  ["bash"; path_join (_scripts_dir self) "setup_audio_loopback_macos.sh"].

(** The environment [_prepare_linux_loopback] runs its helper in. *)
Definition helper_environ (self : Manager) (env : gmap string string) : gmap string string :=
  if PyStr.truthy_opt (linux_loopback_sink (_config self))
  then <["HEADPHONE_SINK" := default "" (linux_loopback_sink (_config self))]> env
  else env.

(** What [_prepare_linux_loopback] registers for the defaults it captured. *)
Definition registered_for (captured : option (option string * option string))
    : list Action :=
  match captured with
  | Some (sink, source) => [restore sink source]
  | None => []
  end.

(** The defaults [pactl info] names in world [w], read as
    [_get_linux_defaults] reads them. *)
Definition captured_in (w : World) : option (option string * option string) :=
  match o_check_output (w_oracle w) ["pactl"; "info"] (w_trace w) with
  | Some output => scan_defaults output
  | None => None
  end.

Module HelperSamples.

(** Linux with [pactl], where every helper script exits with status 3. *)
Definition failing_helper : World :=
  Samples.fresh ∅
    {| o_platform_system := "Linux";
       o_query_devices := fun _ => Some [Samples.webcam];
       o_query_hostapis := fun _ => None;
       o_which := fun _ _ => true;
       o_is_file := fun _ _ => true;
       o_exists := fun _ _ => true;
       o_check_output :=
         fun argv _ =>
           match argv with
           | ["pactl"; "info"] => Some "Default Sink: speakers"
           | _ => None
           end;
       o_exit_status := fun argv _ _ => match argv with "bash" :: _ => 3 | _ => 0 end;
       o_input := fun _ _ => Some "";
       o_environment_check := fun _ => true;
       o_load_settings := fun _ => Samples.config_of None None;
       o_pipeline := fun env _ => (PipelineCompleted, env) |}.

(** An outside in which every helper script exits with status 3. *)
Definition every_helper_fails : World :=
  Samples.fresh ∅
    {| o_platform_system := "Darwin";
       o_query_devices := fun _ => Some [Samples.webcam];
       o_query_hostapis := fun _ => None;
       o_which := fun _ _ => true;
       o_is_file := fun _ _ => true;
       o_exists := fun _ _ => true;
       o_check_output := fun _ _ => None;
       o_exit_status := fun _ _ _ => 3;
       o_input := fun _ _ => Some "";
       o_environment_check := fun _ => true;
       o_load_settings := fun _ => Samples.config_of None None;
       o_pipeline := fun env _ => (PipelineCompleted, env) |}.

(** Linux with [pactl], a helper script that succeeds, and a webcam as the
    only device. *)
Definition helper_succeeds : World :=
  Samples.fresh ∅
    (Samples.steady "Linux" (Some [Samples.webcam]) true None "y" PipelineCompleted).

End HelperSamples.

(** The history of [w] records a pipeline run that raised [e]. *)
Definition pipeline_raised (e : Exn) (w : World) : Prop :=
  exists env, In (EvPipeline env (PipelineRaised e)) (w_trace w).

(** [e] is the [EOFError] of a prompt that could not be read, and that
    prompt is the last thing that happened in [w]. *)
Definition prompt_failed (e : Exn) (w : World) : Prop :=
  e = OtherException "EOFError" /\ exists prompt, last (w_trace w) = Some (EvInput prompt).

(** Whatever [m] raises, a pipeline run raised before, or it is the
    failure of a prompt. *)
Definition raises_only_pipeline_or_prompt {A} (m : M World A) : Prop :=
  forall w e,
    fst (m w) = Raise e -> pipeline_raised e (snd (m w)) \/ prompt_failed e (snd (m w)).

(** * Properties *)

(** ** Python strings, tried *)

Example lower_demo : PyStr.lower "Monitor of USB" = "monitor of usb".
Proof. reflexivity. Qed.

Example contains_demo :
  PyStr.contains "monitor" "alsa_output.monitor" = true /\
  PyStr.contains "monitor" "alsa_input.usb" = false.
Proof. split; reflexivity. Qed.

Example strip_demo : PyStr.strip "  a b	" = "a b".
Proof. reflexivity. Qed.

Example splitlines_demo :
  PyStr.splitlines (String "a" (String PyStr.newline (String "b" (String PyStr.newline "")))) = ["a"; "b"].
Proof. reflexivity. Qed.

Example jp_demo : PyStr.truthy "入力デバイス" = true.
Proof. reflexivity. Qed.

Example str_demo : PyStr.of_nat 12 = "12" /\ PyStr.of_Z (-3) = "-3".
Proof. split; vm_compute; reflexivity. Qed.

(** ** How computations treat the world *)

Section Keeps.
Context (R : World -> World -> Prop) `{!WorldPreorder R}.

Lemma keeps_ret {A} (a : A) : keeps R (ret a).
Proof. intros w. apply R_refl. Qed.

Lemma keeps_raise {A} (e : Exn) : keeps R (raise (A := A) e).
Proof. intros w. apply R_refl. Qed.

Lemma keeps_bind {A B} (m : M World A) (k : A -> M World B) :
  keeps R m -> (forall a, keeps R (k a)) -> keeps R (bind m k).
Proof.
  intros Hm Hk w. unfold bind. specialize (Hm w).
  destruct (m w) as [[a|e] w1]; simpl in *; [|done].
  eapply R_trans; [exact Hm | apply Hk].
Qed.

Lemma keeps_try_except {A} (body : M World A) (h : Exn -> option (M World A)) :
  keeps R body -> (forall e handler, h e = Some handler -> keeps R handler) ->
  keeps R (try_except body h).
Proof.
  intros Hb Hh w. unfold try_except. specialize (Hb w).
  destruct (body w) as [[a|e] w1]; simpl in *; [done|].
  destruct (h e) as [handler|] eqn:He; [|done].
  eapply R_trans; [exact Hb | eapply Hh; exact He].
Qed.

Lemma keeps_when (c : bool) (body : M World unit) :
  keeps R body -> keeps R (when c body).
Proof. intros Hb. destruct c; simpl; [done | apply keeps_ret]. Qed.

Lemma keeps_for_each {A} (xs : list A) (body : A -> M World unit) :
  (forall x, keeps R (body x)) -> keeps R (for_each xs body).
Proof.
  intros Hb. induction xs as [|x xs IH]; simpl.
  - apply keeps_ret.
  - apply keeps_bind; [apply Hb | intros _; exact IH].
Qed.

Lemma keeps_if {A} (c : bool) (m1 m2 : M World A) :
  keeps R m1 -> keeps R m2 -> keeps R (if c then m1 else m2).
Proof. by destruct c. Qed.
End Keeps.

Lemma same_environ_refl w : same_environ w w.
Proof. done. Qed.

Lemma same_environ_trans w1 w2 w3 :
  same_environ w1 w2 -> same_environ w2 w3 -> same_environ w1 w3.
Proof. intros [? ?] [? ?]. split; congruence. Qed.

Lemma only_observed_refl w : only_observed w w.
Proof.
  split; [done|]. exists []. split; [|done].
  split; [done|]. by rewrite app_nil_r.
Qed.

Lemma only_observed_trans w1 w2 w3 :
  only_observed w1 w2 -> only_observed w2 w3 -> only_observed w1 w3.
Proof.
  intros [He1 (ev1 & [Ho1 Ht1] & Hf1)] [He2 (ev2 & [Ho2 Ht2] & Hf2)].
  split; [congruence|]. exists (ev1 ++ ev2). split.
  - split; [congruence|]. rewrite Ht2, Ht1. by rewrite app_assoc.
  - rewrite forallb_app. by rewrite Hf1, Hf2.
Qed.

Lemma only_observed_emit ev w : is_observation ev = true -> only_observed w (emit ev w).
Proof.
  intros Hev. split; [done|]. exists [ev]. split; [done|].
  simpl. by rewrite Hev.
Qed.

#[global] Instance same_environ_preorder : WorldPreorder same_environ :=
  {| R_refl := same_environ_refl; R_trans := same_environ_trans |}.

#[global] Instance only_observed_preorder : WorldPreorder only_observed :=
  {| R_refl := only_observed_refl; R_trans := only_observed_trans |}.

Create HintDb keeps_db.

Section Primitives.
Lemma observed_log level fmt args : keeps only_observed (log level fmt args).
Proof. intros w. by apply only_observed_emit. Qed.

Lemma observed_print text : keeps only_observed (print text).
Proof. intros w. by apply only_observed_emit. Qed.

Lemma observed_query : keeps only_observed sd_query_devices.
Proof.
  intros w. unfold sd_query_devices.
  destruct (o_query_devices _ _); by apply only_observed_emit.
Qed.

Lemma observed_check_output argv : keeps only_observed (subprocess_check_output argv).
Proof.
  intros w. unfold subprocess_check_output.
  destruct (o_check_output _ _ _); by apply only_observed_emit.
Qed.

Lemma observed_which prog : keeps only_observed (shutil_which prog).
Proof. intros w. apply only_observed_refl. Qed.

Lemma observed_is_file path : keeps only_observed (path_is_file path).
Proof. intros w. apply only_observed_refl. Qed.

Lemma observed_exists path : keeps only_observed (path_exists path).
Proof. intros w. apply only_observed_refl. Qed.

Lemma observed_environ_get key : keeps only_observed (environ_get key).
Proof. intros w. apply only_observed_refl. Qed.

Lemma observed_get : keeps only_observed (get (S := World)).
Proof. intros w. apply only_observed_refl. Qed.

Lemma observed_hostapi_name idx : keeps only_observed (_hostapi_name idx).
Proof.
  intros w. unfold _hostapi_name.
  repeat case_match; apply only_observed_refl.
Qed.

Lemma only_observed_same_environ w w' : only_observed w w' -> same_environ w w'.
Proof. by intros [? (events & [? _] & _)]. Qed.

Lemma keeps_weaken {A} (m : M World A) : keeps only_observed m -> keeps same_environ m.
Proof. intros H w. apply only_observed_same_environ, H. Qed.

Lemma environ_kept_run argv check env : keeps same_environ (subprocess_run argv check env).
Proof. intros w. unfold subprocess_run. by case_match. Qed.
End Primitives.

#[local] Hint Resolve observed_log observed_print observed_query observed_check_output
  observed_which observed_is_file observed_exists observed_environ_get observed_get
  observed_hostapi_name environ_kept_run : keeps_db.

(** Splits a goal [keeps R m] along the structure of [m]. *)
Ltac keeps_step :=
  match goal with
  | |- keeps _ (bind _ _) => apply (keeps_bind _); [| intros ?]
  | |- keeps _ (try_except _ _) => apply (keeps_try_except _); [| intros ? ? ?]
  | |- keeps _ (when _ _) => apply (keeps_when _)
  | |- keeps _ (for_each _ _) => apply (keeps_for_each _); intros ?
  | |- keeps _ (ret _) => apply (keeps_ret _)
  | |- keeps _ (raise _) => apply (keeps_raise _)
  | |- keeps same_environ (log _ _ _) => apply keeps_weaken, observed_log
  | |- keeps same_environ (print _) => apply keeps_weaken, observed_print
  | |- keeps same_environ (subprocess_check_output _) => apply keeps_weaken, observed_check_output
  | |- keeps same_environ (path_exists _) => apply keeps_weaken, observed_exists
  | |- keeps _ (if ?c then _ else _) => destruct c eqn:?
  | |- keeps _ (match ?x with _ => _ end) => destruct x eqn:?
  | H : Some _ = Some _ |- _ => injection H as <-
  | H : (if ?c then _ else _) = Some _ |- _ => destruct c eqn:?; try discriminate H
  | H : match ?x with _ => _ end = Some _ |- _ => destruct x eqn:?; try discriminate H
  | |- keeps _ _ => solve [eauto with keeps_db]
  end.

Ltac keeps_tac := repeat keeps_step.

Lemma ensure_device_presence_observes self : keeps only_observed (_ensure_device_presence self).
Proof. unfold _ensure_device_presence, query_devices_or_fail. keeps_tac. Qed.

Lemma detect_loop_observes self kws hint idx devices :
  keeps only_observed (detect_loop self kws hint idx devices).
Proof.
  revert idx. induction devices as [|d ds IH]; intros idx; simpl.
  - keeps_tac.
  - destruct (max_input_channels d <=? 0); [apply IH|].
    match goal with |- keeps _ (if ?c then _ else _) => destruct c end;
      [keeps_tac | apply IH].
Qed.

Lemma detect_observes self kws : keeps only_observed (_detect_loopback_candidate self kws).
Proof.
  unfold _detect_loopback_candidate, query_devices_or_fail.
  apply (keeps_bind _).
  - keeps_tac.
  - intros devices. apply detect_loop_observes.
Qed.

Lemma restore_linux_defaults_keeps_environ defaults :
  keeps same_environ (_restore_linux_defaults defaults).
Proof. unfold _restore_linux_defaults. keeps_tac. Qed.

Lemma unload_linux_modules_keeps_environ modules :
  keeps same_environ (_unload_linux_modules modules).
Proof. unfold _unload_linux_modules, unload_module. keeps_tac. Qed.

Lemma list_linux_devices_keeps_environ kind : keeps same_environ (_list_linux_devices kind).
Proof. unfold _list_linux_devices. keeps_tac. Qed.

#[local] Hint Resolve list_linux_devices_keeps_environ : keeps_db.

Lemma ensure_linux_physical_defaults_keeps_environ :
  keeps same_environ _ensure_linux_physical_defaults.
Proof. unfold _ensure_linux_physical_defaults. keeps_tac. Qed.

(** ** The rollback stack *)

Lemma list_pop_nil {A} : list_pop (@nil A) = None.
Proof. reflexivity. Qed.

Lemma list_pop_snoc {A} (l : list A) (x : A) : list_pop (l ++ [x]) = Some (l, x).
Proof. unfold list_pop. rewrite reverse_snoc. by rewrite reverse_involutive. Qed.

Lemma cleanup_turn_returns action w : fst (cleanup_turn action w) = Return tt.
Proof.
  unfold cleanup_turn, try_except.
  destruct (action w) as [[[]|e] w']; reflexivity.
Qed.

Lemma cleanup_turn_spec action w :
  match action w with
  | (Return _, w') => cleanup_turn action w = (Return tt, w')
  | (Raise exc, w') =>
      cleanup_turn action w =
        (Return tt,
         emit (EvLog LWARNING "Audio environment cleanup failed: %s" [exn_text exc]) w')
  end.
Proof.
  unfold cleanup_turn, try_except.
  destruct (action w) as [[[]|e] w']; reflexivity.
Qed.

Lemma cleanup_loop_enough actions : forall fuel w,
  (length actions <= fuel)%nat ->
  cleanup_loop fuel {| _cleanup_actions := actions; world := w |} =
    Some (Return tt,
          {| _cleanup_actions := []; world := foldl run_logged w (reverse actions) |}).
Proof.
  induction actions as [|action actions IH] using rev_ind; intros fuel w Hfuel.
  - destruct fuel; reflexivity.
  - rewrite length_app in Hfuel. simpl in Hfuel.
    destruct fuel as [|fuel]; [lia|].
    simpl. rewrite list_pop_snoc.
    unfold bind, set_cleanup_actions, modify, in_world. simpl.
    pose proof (cleanup_turn_returns action w) as Hret.
    unfold run_logged.
    destruct (cleanup_turn action w) as [r w'] eqn:Hturn. simpl in Hret. subst r.
    rewrite IH by lia.
    rewrite reverse_snoc. simpl. by rewrite Hturn.
Qed.

Lemma cleanup_spec self st :
  cleanup self st =
    (Return tt,
     {| _cleanup_actions := [];
        world := foldl run_logged (world st) (reverse (_cleanup_actions st)) |}).
Proof.
  unfold cleanup. destruct st as [actions w]. simpl.
  by rewrite cleanup_loop_enough.
Qed.

(** C4. [cleanup()] runs the registered actions last-registered first
    (the world it leaves is the fold of the single turns over the reversed
    stack), a turn whose action raises ends normally with the failure
    logged, [cleanup()] itself returns and leaves the stack empty, and a
    second [cleanup()] changes nothing. *)
Theorem cleanup_unwinds_in_reverse (self : Manager) (st : ManagerState) :
  cleanup self st =
    (Return tt,
     {| _cleanup_actions := [];
        world := foldl (fun w action => snd (cleanup_turn action w)) (world st)
                       (reverse (_cleanup_actions st)) |})
  /\ (forall (action : Action) (w : World),
        match action w with
        | (Return _, w') => cleanup_turn action w = (Return tt, w')
        | (Raise exc, w') =>
            cleanup_turn action w =
              (Return tt,
               emit (EvLog LWARNING "Audio environment cleanup failed: %s" [exn_text exc]) w')
        end)
  /\ cleanup self (snd (cleanup self st)) = (Return tt, snd (cleanup self st)).
Proof.
  split; [apply cleanup_spec|]. split; [apply cleanup_turn_spec|].
  rewrite (cleanup_spec self st). simpl. by rewrite cleanup_spec.
Qed.

(** ** Unloading the modules a helper script created *)

Lemma emit_all_nil w : emit_all [] w = w.
Proof. destruct w. unfold emit_all. simpl. by rewrite app_nil_r. Qed.

Lemma emit_all_app evs1 evs2 w : emit_all evs2 (emit_all evs1 w) = emit_all (evs1 ++ evs2) w.
Proof. unfold emit_all. simpl. by rewrite app_assoc. Qed.

Lemma emit_is_emit_all ev w : emit ev w = emit_all [ev] w.
Proof. reflexivity. Qed.

Lemma unload_each ids w :
  for_each ids unload_module w = (Return tt, emit_all (unload_event <$> ids) w).
Proof.
  revert w. induction ids as [|module_id ids IH]; intros w; simpl.
  - unfold ret. by rewrite emit_all_nil.
  - unfold bind at 1. unfold unload_module at 1, bind, subprocess_run, ret. simpl.
    rewrite IH. rewrite emit_is_emit_all, emit_all_app. reflexivity.
Qed.

Lemma unload_linux_modules_spec modules w :
  _unload_linux_modules modules w =
    (Return tt,
     emit_all ((unload_event <$> elements (modules_get modules "loop"))
               ++ (unload_event <$> elements (modules_get modules "null"))) w).
Proof.
  unfold _unload_linux_modules, bind. rewrite unload_each. rewrite unload_each.
  by rewrite emit_all_app.
Qed.

Lemma diff_modules_spec before after null_after loop_after w :
  after !! "null" = Some null_after ->
  after !! "loop" = Some loop_after ->
  diff_modules before after w =
    (Return (<["loop" := loop_after ∖ modules_get (default empty_modules before) "loop"]>
             (<["null" := null_after ∖ modules_get (default empty_modules before) "null"]>
              empty_modules)), w).
Proof.
  intros Hnull Hloop. unfold diff_modules, modules_index, bind, ret.
  by rewrite Hnull, Hloop.
Qed.

Lemma modules_get_insert_eq modules kind ids :
  modules_get (<[kind := ids]> modules) kind = ids.
Proof. unfold modules_get. by rewrite lookup_insert_eq. Qed.

Lemma modules_get_insert_ne modules kind kind' ids :
  kind <> kind' -> modules_get (<[kind := ids]> modules) kind' = modules_get modules kind'.
Proof. intros Hne. unfold modules_get. by rewrite lookup_insert_ne. Qed.

Lemma scan_module_line_both_kinds modules line :
  has_both_kinds modules -> has_both_kinds (scan_module_line modules line).
Proof.
  intros [Hnull Hloop]. unfold scan_module_line.
  repeat case_match; try (by split); split;
    rewrite ?lookup_insert_eq, ?lookup_insert_ne by done; done.
Qed.

(** Every snapshot [_snapshot_linux_modules] returns lists both kinds. *)
Lemma snapshot_has_both_kinds w :
  exists modules,
    fst (_snapshot_linux_modules w) = Return modules /\ has_both_kinds modules.
Proof.
  unfold _snapshot_linux_modules, try_except, bind, subprocess_check_output.
  destruct (o_check_output _ _ _) as [output|]; simpl.
  - eexists. split; [reflexivity|].
    generalize (PyStr.splitlines output). intros lines.
    assert (Hstart : has_both_kinds empty_modules) by (split; by eexists).
    revert Hstart. generalize empty_modules.
    induction lines as [|line lines IH]; intros modules Hm; simpl; [exact Hm|].
    apply IH. by apply scan_module_line_both_kinds.
  - eexists. split; [reflexivity|]. split; by eexists.
Qed.

(** C5. Diffing a fresh snapshot against the one taken before the script
    and unloading the result issues one unload per identifier in
    [after - before] of the loopback kind, then one per identifier in
    [after - before] of the null-sink kind, and nothing else; no
    identifier that the earlier snapshot lists under its kind is unloaded.
    The same unloads are issued when the diff is kept and unloaded later,
    as on the way through the launch prompt.
    For before = {null:{1}, loop:{}} and after = {null:{1,2}, loop:{3}} the
    unloads are of 3 and then of 2. *)
Theorem diff_and_unload_only_new_loop_first
    (before : option (gmap string (gset string))) (after : gmap string (gset string))
    (null_after loop_after : gset string) (w : World) :
  after !! "null" = Some null_after ->
  after !! "loop" = Some loop_after ->
  let before_null := modules_get (default empty_modules before) "null" in
  let before_loop := modules_get (default empty_modules before) "loop" in
  diff_and_unload before after w =
    (Return tt,
     emit_all ((unload_event <$> elements (loop_after ∖ before_loop))
               ++ (unload_event <$> elements (null_after ∖ before_null))) w)
  /\ (forall id, id ∈ elements (loop_after ∖ before_loop) <-> id ∈ loop_after /\ id ∉ before_loop)
  /\ (forall id, id ∈ elements (null_after ∖ before_null) <-> id ∈ null_after /\ id ∉ before_null)
  /\ NoDup (elements (loop_after ∖ before_loop))
  /\ NoDup (elements (null_after ∖ before_null))
  /\ (exists modules_to_unload,
        diff_modules before after w = (Return modules_to_unload, w)
        /\ forall w_later,
             _unload_linux_modules modules_to_unload w_later =
               (Return tt,
                emit_all ((unload_event <$> elements (loop_after ∖ before_loop))
                          ++ (unload_event <$> elements (null_after ∖ before_null)))
                         w_later))
  /\ diff_and_unload (Some example_before) example_after w =
       (Return tt, emit_all [unload_event "3"; unload_event "2"] w).
Proof.
  intros Hnull Hloop before_null before_loop.
  assert (Hgeneral : forall b a na la,
    a !! "null" = Some na -> a !! "loop" = Some la ->
    diff_and_unload b a w =
      (Return tt,
       emit_all ((unload_event <$> elements (la ∖ modules_get (default empty_modules b) "loop"))
                 ++ (unload_event <$>
                       elements (na ∖ modules_get (default empty_modules b) "null"))) w)).
  { intros b a na la Hn Hl. unfold diff_and_unload, bind.
    rewrite (diff_modules_spec b a na la w Hn Hl).
    rewrite unload_linux_modules_spec.
    rewrite modules_get_insert_eq.
    rewrite modules_get_insert_ne by done. by rewrite modules_get_insert_eq. }
  split; [by apply Hgeneral|].
  split; [intros id; rewrite elem_of_elements; set_solver|].
  split; [intros id; rewrite elem_of_elements; set_solver|].
  split; [apply NoDup_elements|]. split; [apply NoDup_elements|].
  split.
  { eexists. split; [by apply diff_modules_spec|].
    intros w_later. rewrite unload_linux_modules_spec.
    rewrite modules_get_insert_eq.
    rewrite modules_get_insert_ne by done. by rewrite modules_get_insert_eq. }
  rewrite (Hgeneral (Some example_before) example_after {["1"; "2"]} {["3"]})
    by reflexivity.
  assert (Hl : ({["3"]} : gset string) ∖ modules_get (default empty_modules (Some example_before)) "loop"
               = {["3"]}).
  { simpl. unfold example_before.
    rewrite modules_get_insert_ne by done. rewrite modules_get_insert_eq. set_solver. }
  assert (Hn : ({["1"; "2"]} : gset string) ∖ modules_get (default empty_modules (Some example_before)) "null"
               = {["2"]}).
  { simpl. unfold example_before. rewrite modules_get_insert_eq.
    apply set_eq. intros x. rewrite elem_of_difference, elem_of_union, !elem_of_singleton.
    split; [intros [[->| ->] Hne]; [done | done] | intros ->; split; [by right | discriminate]]. }
  rewrite Hl, Hn. by rewrite !elements_singleton.
Qed.

(** ** Preparing the capture mode *)

Lemma query_devices_or_fail_some w devices :
  o_query_devices (w_oracle w) (w_trace w) = Some devices ->
  query_devices_or_fail w = (Return devices, emit EvQueryDevices w).
Proof.
  intros Hq. unfold query_devices_or_fail, try_except, sd_query_devices. by rewrite Hq.
Qed.

Lemma query_devices_or_fail_none w :
  o_query_devices (w_oracle w) (w_trace w) = None ->
  query_devices_or_fail w =
    (Raise (AudioEnvironmentError FailedToEnumerate), emit EvQueryDevices w).
Proof.
  intros Hq. unfold query_devices_or_fail, try_except, sd_query_devices. by rewrite Hq.
Qed.

Lemma ensure_device_presence_index_outside self w devices idx :
  device_index (_config self) = Some idx ->
  o_query_devices (w_oracle w) (w_trace w) = Some devices ->
  idx < 0 \/ idx > Z.of_nat (length devices) - 1 ->
  exists site,
    _ensure_device_presence self w =
      (Raise (AudioEnvironmentError site), emit EvQueryDevices w)
    /\ error_kind site = DeviceUnavailable.
Proof.
  intros Hidx Hq Hout. unfold _ensure_device_presence, bind.
  rewrite (query_devices_or_fail_some _ _ Hq).
  destruct devices as [|d ds].
  - exists NoAudioDevices. done.
  - rewrite Hidx.
    assert (Hc : (idx <? 0) || (idx >=? Z.of_nat (length (d :: ds))) = true).
    { apply orb_true_iff. destruct Hout; [left; lia | right; lia]. }
    rewrite Hc. eexists. split; reflexivity.
Qed.

(** Every way through [_ensure_device_presence] asks for the devices once
    and otherwise only logs. *)
Lemma ensure_device_presence_trace self w :
  exists logs,
    snd (_ensure_device_presence self w) = emit_all (EvQueryDevices :: logs) w
    /\ forallb is_log logs = true.
Proof.
  unfold _ensure_device_presence, bind, query_devices_or_fail, try_except, sd_query_devices.
  destruct (o_query_devices _ _) as [devices|]; simpl; [|by exists []].
  destruct devices as [|d ds]; [by exists []|].
  destruct (device_index _) as [idx|].
  - destruct ((idx <? 0) || _); [by exists []|].
    destruct (_ !! _) as [device|]; [|by exists []].
    destruct (_ <=? 0); [by exists []|].
    eexists [_]. split; [|].
    + unfold log, modify, emit, emit_all. simpl. by rewrite <- app_assoc.
    + reflexivity.
  - destruct (negb _); by exists [].
Qed.

(** C3. With a configured index outside [0, n-1] of an enumeration of
    length n, [prepare()] raises the environment error of the
    device-unavailable kind; the rollback stack is empty afterwards, and all
    that happened is the first log line and the device query: no process was
    run and the process environment is as before. *)
Theorem prepare_rejects_index_outside_range
    (self : Manager) (st : ManagerState) (devices : list Device) (idx : Z) :
  let w1 := emit (prepare_log self (world st)) (world st) in
  device_index (_config self) = Some idx ->
  o_query_devices (w_oracle w1) (w_trace w1) = Some devices ->
  idx < 0 \/ idx > Z.of_nat (length devices) - 1 ->
  exists site,
    prepare self st =
      (Raise (AudioEnvironmentError site),
       {| _cleanup_actions := []; world := emit EvQueryDevices w1 |})
    /\ error_kind site = DeviceUnavailable
    /\ only_observed (world st) (emit EvQueryDevices w1).
Proof.
  intros w1 Hidx Hq Hout.
  destruct (ensure_device_presence_index_outside self w1 devices idx Hidx Hq Hout)
    as (site & Hrun & Hkind).
  exists site. split; [|split; [exact Hkind|]].
  - unfold prepare, bind, get, in_world, set_cleanup_actions, modify, log. simpl.
    fold (prepare_log self (world st)). fold w1. by rewrite Hrun.
  - eapply only_observed_trans; by apply only_observed_emit.
Qed.

Lemma prepare_linux_loopback_without_pactl self st :
  o_which (w_oracle (world st)) "pactl" (w_trace (world st)) = false ->
  _prepare_linux_loopback self st =
    (Return tt, with_world st (emit no_pactl_warning (world st))).
Proof.
  intros Hwhich. unfold _prepare_linux_loopback, bind, in_world, shutil_which. simpl.
  rewrite Hwhich. reflexivity.
Qed.

Lemma prepare_loopback_linux self st :
  _platform self = "linux" -> _prepare_loopback self st = _prepare_linux_loopback self st.
Proof. intros Hp. unfold _prepare_loopback. by rewrite Hp. Qed.

(** C9, as amended. On Linux without [pactl] on the path, the loopback
    stage returns after the warning alone, whatever the devices and the
    configured index are; so [prepare()] in the loopback mode, once its
    device-presence check has passed, returns normally, leaves the rollback
    stack empty, runs no process, and asks for the devices only the one time
    the presence check does: no candidate detection takes place. *)
Theorem prepare_without_pactl_only_warns
    (self : Manager) (st : ManagerState) (w2 : World) :
  let w1 := emit (prepare_log self (world st)) (world st) in
  _platform self = "linux" ->
  (o_which (w_oracle (world st)) "pactl" (w_trace (world st)) = false ->
   _prepare_loopback self st =
     (Return tt, with_world st (emit no_pactl_warning (world st))))
  /\ (resolve_capture_mode (platform_system (world st)) (_config self) = LOOPBACK ->
      _ensure_device_presence self w1 = (Return tt, w2) ->
      o_which (w_oracle w2) "pactl" (w_trace w2) = false ->
      prepare self st =
        (Return tt, {| _cleanup_actions := []; world := emit no_pactl_warning w2 |})
      /\ only_observed (world st) (emit no_pactl_warning w2)
      /\ exists logs,
           emit no_pactl_warning w2 =
             emit_all (prepare_log self (world st) :: EvQueryDevices :: logs) (world st)
           /\ forallb is_log logs = true).
Proof.
  intros w1 Hlinux. split.
  - intros Hwhich. rewrite prepare_loopback_linux by done.
    by apply prepare_linux_loopback_without_pactl.
  - intros Hmode Hpresence Hwhich.
    assert (Hobs : only_observed (world st) (emit no_pactl_warning w2)).
    { eapply only_observed_trans; [by apply (only_observed_emit (prepare_log self (world st)))|].
      eapply only_observed_trans; [|by apply only_observed_emit].
      pose proof (ensure_device_presence_observes self w1) as H.
      fold w1. by rewrite Hpresence in H. }
    split; [|split; [exact Hobs|]].
    + unfold prepare, bind, get, in_world, set_cleanup_actions, modify, log. simpl.
      fold (prepare_log self (world st)). fold w1. rewrite Hpresence, Hmode.
      rewrite prepare_loopback_linux by done.
      by rewrite prepare_linux_loopback_without_pactl.
    + destruct (ensure_device_presence_trace self w1) as (logs & Htrace & Hlogs).
      rewrite Hpresence in Htrace. simpl in Htrace. subst w2.
      exists (logs ++ [no_pactl_warning]). split.
      * unfold w1. rewrite !emit_is_emit_all, !emit_all_app. reflexivity.
      * rewrite forallb_app, Hlogs. reflexivity.
Qed.

Lemma detect_loop_returns self kws hint devices : forall idx w,
  exists found, fst (detect_loop self kws hint idx devices w) = Return found.
Proof.
  induction devices as [|d ds IH]; intros idx w; simpl.
  - by exists false.
  - destruct (max_input_channels d <=? 0); [apply IH|].
    match goal with |- context [if ?c then _ else _] => destruct c end; [|apply IH].
    by exists true.
Qed.

Lemma detect_outcome self kws w :
  (exists found, fst (_detect_loopback_candidate self kws w) = Return found)
  \/ fst (_detect_loopback_candidate self kws w) = Raise (AudioEnvironmentError FailedToEnumerate).
Proof.
  unfold _detect_loopback_candidate, bind.
  destruct (o_query_devices (w_oracle w) (w_trace w)) as [devices|] eqn:Hq.
  - rewrite (query_devices_or_fail_some _ _ Hq). left. apply detect_loop_returns.
  - rewrite (query_devices_or_fail_none _ Hq). by right.
Qed.

(** C7, as amended. On Linux with [pactl] on the path and the
    already-configured signal set, the loopback stage changes nothing (the
    rollback stack is as before, no process is run, the environment is
    untouched); with a configured index it returns at once, and without one
    it runs the candidate detection and fails with the no-loopback error
    exactly when the detection answers that there is none. *)
Theorem prepare_loopback_flag_set_only_verifies (self : Manager) (st : ManagerState) :
  let w1 := emit flag_debug_log (world st) in
  let result := _prepare_loopback self st in
  _platform self = "linux" ->
  o_which (w_oracle (world st)) "pactl" (w_trace (world st)) = true ->
  w_environ (world st) !! "AUDIO_LOOPBACK_ALREADY_SET" = Some "1" ->
  _cleanup_actions (snd result) = _cleanup_actions st
  /\ only_observed (world st) (world (snd result))
  /\ (fails_with NoLoopbackDetected (fst result)
      <-> device_index (_config self) = None
          /\ fst (_detect_loopback_candidate self linux_keywords w1) = Return false)
  /\ (device_index (_config self) <> None -> result = (Return tt, with_world st w1)).
Proof.
  intros w1 result Hlinux Hwhich Hflag.
  assert (Hresult : result =
    match device_index (_config self) with
    | None =>
        match _detect_loopback_candidate self linux_keywords w1 with
        | (Return found, w2) =>
            (if negb found then Raise (AudioEnvironmentError FlagSetButNoMonitor)
             else Return tt, with_world st w2)
        | (Raise e, w2) => (Raise e, with_world st w2)
        end
    | Some _ => (Return tt, with_world st w1)
    end).
  { unfold result. rewrite prepare_loopback_linux by done.
    unfold _prepare_linux_loopback, bind, in_world, shutil_which, environ_get. simpl.
    rewrite Hwhich. simpl. rewrite Hflag.
    rewrite bool_decide_eq_true_2 by done.
    cbn [world _cleanup_actions]. fold flag_debug_log. fold w1.
    destruct (device_index (_config self)); [reflexivity|].
    cbn [world _cleanup_actions].
    destruct (_detect_loopback_candidate self linux_keywords w1) as [[found|e] w2];
      [|reflexivity].
    by destruct found. }
  assert (Hw1 : only_observed (world st) w1) by by apply only_observed_emit.
  pose proof (detect_observes self linux_keywords w1) as Hdetect.
  pose proof (detect_outcome self linux_keywords w1) as Hout.
  rewrite Hresult. clear Hresult result.
  destruct (device_index (_config self)) as [idx|].
  - simpl. split; [done|]. split; [exact Hw1|]. split; [|done].
    split; [intros (site & Hr & _); discriminate Hr | intros [Hnone _]; discriminate Hnone].
  - specialize (Hdetect). unfold keeps in Hdetect.
    destruct (_detect_loopback_candidate self linux_keywords w1) as [[found|e] w2] eqn:Hd;
      simpl in *.
    + split; [done|]. split; [by eapply only_observed_trans|].
      split; [|done]. destruct found; simpl.
      * split; [intros (site & Hr & _); discriminate Hr | intros [_ Hf]; discriminate Hf].
      * split; [done|]. intros _. by exists FlagSetButNoMonitor.
    + split; [done|]. split; [by eapply only_observed_trans|].
      split; [|done].
      destruct Hout as [[found Hfound]|He]; [discriminate Hfound|].
      injection He as ->.
      split; [intros (site & Hr & Hk); by injection Hr as <- | intros [_ Hf]; discriminate Hf].
Qed.

(** Without [pactl] the stage returns although the signal is set, no index
    is configured and the only device is a webcam. *)
Lemma flag_set_claim_fails_without_pactl :
  ~ flag_set_claim (Samples.manager "Linux" (Samples.config_of None None))
                   (Samples.idle Samples.flagged_without_pactl).
Proof.
  intros Hclaim.
  destruct (Hclaim eq_refl eq_refl) as (_ & _ & [_ Hfails]).
  destruct (Hfails (conj eq_refl eq_refl)) as (site & Hraise & _).
  vm_compute in Hraise. discriminate Hraise.
Qed.

Lemma prepare_loopback_flag_set_only_verifies_witness :
  let self := Samples.manager "Linux" (Samples.config_of None None) in
  let st := Samples.idle Samples.flagged_with_pactl in
  _cleanup_actions (snd (_prepare_loopback self st)) = []
  /\ fails_with NoLoopbackDetected (fst (_prepare_loopback self st)).
Proof.
  intros self st.
  destruct (prepare_loopback_flag_set_only_verifies self st eq_refl eq_refl eq_refl)
    as (Hstack & _ & [_ Hfails] & _).
  split; [exact Hstack|]. apply Hfails. split; reflexivity.
Defined.

Lemma prepare_rejects_index_outside_range_witness :
  let self := Samples.manager "Linux" (Samples.config_of (Some 5) None) in
  let st := Samples.idle Samples.plain_without_pactl in
  exists site,
    fst (prepare self st) = Raise (AudioEnvironmentError site)
    /\ error_kind site = DeviceUnavailable
    /\ _cleanup_actions (snd (prepare self st)) = [].
Proof.
  intros self st.
  assert (Hout : 5 < 0 \/ 5 > Z.of_nat (length [Samples.webcam]) - 1)
    by (right; vm_compute; reflexivity).
  destruct (prepare_rejects_index_outside_range self st [Samples.webcam] 5
              eq_refl eq_refl Hout) as (site & Hrun & Hkind & _).
  exists site. rewrite Hrun. repeat split; done.
Defined.

Lemma diff_and_unload_only_new_loop_first_witness :
  diff_and_unload (Some example_before) example_after Samples.plain_without_pactl =
    (Return tt,
     emit_all [unload_event "3"; unload_event "2"] Samples.plain_without_pactl).
Proof.
  apply (diff_and_unload_only_new_loop_first (Some example_before) example_after
           {["1"; "2"]} {["3"]} Samples.plain_without_pactl eq_refl eq_refl).
Defined.

(** Without [pactl] and with the speakers as the only device, [prepare()]
    does not return: its device-presence check, which comes before the
    loopback stage, raises for want of an input-capable device. *)
Lemma prepare_without_pactl_needs_an_input :
  ~ without_pactl_claim (Samples.manager "Linux" (Samples.config_of None None))
                        (Samples.idle Samples.output_only_without_pactl).
Proof.
  intros Hclaim.
  destruct (Hclaim eq_refl eq_refl (fun _ => eq_refl)) as [Hreturns _].
  vm_compute in Hreturns. discriminate Hreturns.
Qed.

Lemma prepare_without_pactl_only_warns_witness :
  let self := Samples.manager "Linux" (Samples.config_of None None) in
  let st := Samples.idle Samples.plain_without_pactl in
  fst (_detect_loopback_candidate self linux_keywords (world st)) = Return false
  /\ fst (prepare self st) = Return tt
  /\ _cleanup_actions (snd (prepare self st)) = [].
Proof.
  intros self st. split; [reflexivity|].
  destruct (prepare_without_pactl_only_warns self st
              (snd (_ensure_device_presence self
                      (emit (prepare_log self (world st)) (world st))))
              eq_refl) as [_ Hprepare].
  destruct (Hprepare eq_refl eq_refl eq_refl) as (Hrun & _).
  rewrite Hrun. split; reflexivity.
Defined.

(** ** Computations that cannot raise *)

Lemma returns_ret {S A} (a : A) : returns (S := S) (ret a).
Proof. intros s. by exists a. Qed.

Lemma returns_bind {S A B} (m : M S A) (k : A -> M S B) :
  returns m -> (forall a, returns (k a)) -> returns (bind m k).
Proof.
  intros Hm Hk s. unfold bind. destruct (Hm s) as [a Ha].
  destruct (m s) as [r s']. simpl in Ha. subst r. apply Hk.
Qed.

Lemma returns_when {S} (c : bool) (body : M S unit) : returns body -> returns (when c body).
Proof. intros Hb. destruct c; [exact Hb | apply returns_ret]. Qed.

Lemma returns_for_each {S A} (xs : list A) (body : A -> M S unit) :
  (forall x, returns (body x)) -> returns (for_each xs body).
Proof.
  intros Hb. induction xs as [|x xs IH]; simpl; [apply returns_ret|].
  apply returns_bind; [apply Hb | intros _; exact IH].
Qed.

(** A [try] whose handler takes every exception and cannot raise. *)
Lemma returns_try_except {S A} (body : M S A) (h : Exn -> option (M S A)) :
  (forall e, exists handler, h e = Some handler /\ returns handler) ->
  returns (try_except body h).
Proof.
  intros Hh s. unfold try_except. destruct (body s) as [[a|e] s']; [by exists a|].
  destruct (Hh e) as (handler & -> & Hret). apply Hret.
Qed.

Lemma returns_run_unchecked argv env : returns (subprocess_run argv false env).
Proof. intros w. unfold subprocess_run. simpl. by eexists. Qed.

Lemma returns_log level fmt args : returns (log level fmt args).
Proof. intros w. by exists tt. Qed.

Lemma returns_print text : returns (print text).
Proof. intros w. by exists tt. Qed.

Lemma returns_environ_pop key : returns (environ_pop key).
Proof. intros w. by exists tt. Qed.

Lemma returns_environ_set key value : returns (environ_set key value).
Proof. intros w. by exists tt. Qed.

Create HintDb returns_db.
#[local] Hint Resolve @returns_ret @returns_run_unchecked returns_log returns_print
  returns_environ_pop returns_environ_set : returns_db.

Ltac returns_step :=
  match goal with
  | |- returns (bind _ _) => apply returns_bind; [| intros ?]
  | |- returns (when _ _) => apply returns_when
  | |- returns (for_each _ _) => apply returns_for_each; intros ?
  | |- returns (try_except _ _) =>
      apply returns_try_except; intros ?; eexists; split; [reflexivity|]
  | |- returns (if ?c then _ else _) => destruct c eqn:?
  | |- returns (match ?x with _ => _ end) => destruct x eqn:?
  | |- returns _ => solve [eauto with returns_db]
  end.

Ltac returns_tac := repeat returns_step.

Lemma restore_linux_defaults_returns defaults : returns (_restore_linux_defaults defaults).
Proof. unfold _restore_linux_defaults. returns_tac. Qed.

Lemma unload_linux_modules_returns modules : returns (_unload_linux_modules modules).
Proof. unfold _unload_linux_modules, unload_module. returns_tac. Qed.

Lemma list_linux_devices_returns kind : returns (_list_linux_devices kind).
Proof. unfold _list_linux_devices. returns_tac. Qed.

#[local] Hint Resolve list_linux_devices_returns : returns_db.

Lemma ensure_linux_physical_defaults_returns : returns _ensure_linux_physical_defaults.
Proof. unfold _ensure_linux_physical_defaults. returns_tac. Qed.

(** A computation that returns and keeps the environment, run at [w]. *)
Lemma run_returning_keeping {A} (m : M World A) (w : World) :
  returns m -> keeps same_environ m ->
  exists a w', m w = (Return a, w') /\ w_environ w' = w_environ w.
Proof.
  intros Hr Hk. destruct (Hr w) as [a Ha]. destruct (Hk w) as [Henv _].
  destruct (m w) as [r w']. simpl in *. subst r. by exists a, w'.
Qed.

(** ** The process-context hints around a pipeline run *)

Lemma grows_refl w : grows w w.
Proof. exists []. by rewrite app_nil_r. Qed.

Lemma grows_trans w1 w2 w3 : grows w1 w2 -> grows w2 w3 -> grows w1 w3.
Proof. intros [e1 H1] [e2 H2]. exists (e1 ++ e2). by rewrite H2, H1, app_assoc. Qed.

#[global] Instance grows_preorder : WorldPreorder grows :=
  {| R_refl := grows_refl; R_trans := grows_trans |}.

Lemma only_observed_grows w w' : only_observed w w' -> grows w w'.
Proof. intros [_ (events & [_ Ht] & _)]. by exists events. Qed.

Lemma grows_run argv check env : keeps grows (subprocess_run argv check env).
Proof. intros w. unfold subprocess_run. case_match; by exists [EvRun argv env]. Qed.

Lemma grows_check_output argv : keeps grows (subprocess_check_output argv).
Proof. intros w. apply only_observed_grows, observed_check_output. Qed.

Lemma grows_log level fmt args : keeps grows (log level fmt args).
Proof. intros w. apply only_observed_grows, observed_log. Qed.

Lemma grows_print text : keeps grows (print text).
Proof. intros w. apply only_observed_grows, observed_print. Qed.

#[local] Hint Resolve grows_run grows_check_output grows_log grows_print : keeps_db.

Lemma restore_linux_defaults_grows defaults : keeps grows (_restore_linux_defaults defaults).
Proof. unfold _restore_linux_defaults. keeps_tac. Qed.

Lemma unload_linux_modules_grows modules : keeps grows (_unload_linux_modules modules).
Proof. unfold _unload_linux_modules, unload_module. keeps_tac. Qed.

Lemma list_linux_devices_grows kind : keeps grows (_list_linux_devices kind).
Proof. unfold _list_linux_devices. keeps_tac. Qed.

#[local] Hint Resolve list_linux_devices_grows : keeps_db.

Lemma ensure_linux_physical_defaults_grows : keeps grows _ensure_linux_physical_defaults.
Proof. unfold _ensure_linux_physical_defaults. keeps_tac. Qed.

Lemma lookup_put_back_eq key previous env : put_back key previous env !! key = previous.
Proof.
  destruct previous; simpl; [apply lookup_insert_eq | apply lookup_delete_eq].
Qed.

Lemma lookup_put_back_ne key key' previous env :
  key <> key' -> put_back key previous env !! key' = env !! key'.
Proof.
  intros Hne. destruct previous; simpl;
    [by apply lookup_insert_ne | by apply lookup_delete_ne].
Qed.

Lemma launch_try_linux defaults w :
  let env := w_environ w in
  let w_run := set_environ (environ_for_run defaults env) w in
  launch_try "linux" defaults (launch_locals None None w) =
    (fst (asyncio_run_pipeline w_run),
     launch_locals
       (match sink_hint_for_run defaults with Some _ => env !! HEADPHONE_SINK | None => None end)
       (env !! AUDIO_LOOPBACK_ALREADY_SET)
       (snd (asyncio_run_pipeline w_run))).
Proof.
  intros env w_run. unfold w_run, environ_for_run, sink_hint_for_run, launch_try.
  destruct w as [env0 trace oracle]. simpl in env. subst env.
  destruct defaults as [[[hint|] source]|]; simpl.
  - destruct (PyStr.truthy hint); simpl.
    + unfold bind, in_launch, environ_get, set_headphone_env_previous,
        set_loopback_flag_previous, environ_set, modify, set_environ. simpl.
      rewrite lookup_insert_ne by done.
      by destruct (asyncio_run_pipeline _).
    + unfold bind, in_launch, environ_get, set_loopback_flag_previous, environ_set,
        modify, set_environ, ret. simpl.
      by destruct (asyncio_run_pipeline _).
  - unfold bind, in_launch, environ_get, set_loopback_flag_previous, environ_set,
      modify, set_environ, ret. simpl.
    by destruct (asyncio_run_pipeline _).
  - unfold bind, in_launch, environ_get, set_loopback_flag_previous, environ_set,
      modify, set_environ, ret. simpl.
    by destruct (asyncio_run_pipeline _).
Qed.

Lemma in_launch_returning_keeping {A} (m : M World A) hp lf w :
  returns m -> keeps same_environ m -> keeps grows m ->
  exists a w', in_launch m (launch_locals hp lf w) = (Return a, launch_locals hp lf w')
               /\ w_environ w' = w_environ w /\ grows w w'.
Proof.
  intros Hr Hk Hg. destruct (run_returning_keeping m w Hr Hk) as (a & w' & Hrun & Henv).
  exists a, w'. specialize (Hg w). rewrite Hrun in Hg.
  split; [|by split]. unfold in_launch, launch_locals. simpl. by rewrite Hrun.
Qed.

Lemma launch_finally_linux defaults modules hp lf w :
  exists w',
    launch_finally "linux" defaults modules (launch_locals hp lf w) =
      (Return tt, launch_locals hp lf w')
    /\ w_environ w' =
         put_back AUDIO_LOOPBACK_ALREADY_SET lf (put_back HEADPHONE_SINK hp (w_environ w))
    /\ grows w w'.
Proof.
  unfold launch_finally.
  destruct (in_launch_returning_keeping (_restore_linux_defaults defaults) hp lf w
              (restore_linux_defaults_returns _) (restore_linux_defaults_keeps_environ _)
              (restore_linux_defaults_grows _))
    as ([] & w1 & Hrun1 & Henv1 & Hg1).
  unfold bind at 1. rewrite Hrun1. simpl.
  set (w2 := set_environ (put_back HEADPHONE_SINK hp (w_environ w1)) w1).
  set (w3 := set_environ (put_back AUDIO_LOOPBACK_ALREADY_SET lf (w_environ w2)) w2).
  destruct (in_launch_returning_keeping (_unload_linux_modules modules) hp lf w3
              (unload_linux_modules_returns _) (unload_linux_modules_keeps_environ _)
              (unload_linux_modules_grows _))
    as ([] & w4 & Hrun4 & Henv4 & Hg4).
  destruct (in_launch_returning_keeping _ensure_linux_physical_defaults hp lf w4
              ensure_linux_physical_defaults_returns
              ensure_linux_physical_defaults_keeps_environ
              ensure_linux_physical_defaults_grows)
    as ([] & w5 & Hrun5 & Henv5 & Hg5).
  exists w5. split; [|split].
  - unfold bind, get. simpl.
    assert (Hhp :
      match hp with
      | Some previous => in_launch (environ_set "HEADPHONE_SINK" previous)
      | None => in_launch (environ_pop "HEADPHONE_SINK")
      end (launch_locals hp lf w1) = (Return tt, launch_locals hp lf w2)).
    { by destruct hp. }
    rewrite Hhp.
    assert (Hlf :
      match lf with
      | Some previous => in_launch (environ_set "AUDIO_LOOPBACK_ALREADY_SET" previous)
      | None => in_launch (environ_pop "AUDIO_LOOPBACK_ALREADY_SET")
      end (launch_locals hp lf w2) = (Return tt, launch_locals hp lf w3)).
    { by destruct lf. }
    rewrite Hlf. rewrite Hrun4. exact Hrun5.
  - rewrite Henv5, Henv4. unfold w3, w2. simpl. by rewrite Henv1.
  - eapply grows_trans; [exact Hg1|]. eapply grows_trans; [|exact Hg5]. exact Hg4.
Qed.

(** The launch branch, step by step: the environment of the run, the result,
    and what is left of the two hints afterwards. *)
Lemma launch_phase_started
    (defaults : option SystemDefaults) (modules : gmap string (gset string)) (w : World)
    (answer : string) :
  let env := w_environ w in
  let env_run := environ_for_run defaults env in
  let outcome := fst (o_pipeline (w_oracle w) env_run (w_trace w ++ [EvInput launch_prompt])) in
  let result := launch_phase "linux" defaults modules w in
  start_answer w = Some answer ->
  in_set answer [""; "y"; "yes"] = true ->
  In (EvPipeline env_run outcome) (w_trace (snd result))
  /\ env_run !! AUDIO_LOOPBACK_ALREADY_SET = Some "1"
  /\ (forall hint, sink_hint_for_run defaults = Some hint ->
                   env_run !! HEADPHONE_SINK = Some hint)
  /\ fst result = match outcome with
                  | PipelineRaised e => Raise e
                  | PipelineCompleted | PipelineCancelledBySignal => Return true
                  end
  /\ w_environ (snd result) !! AUDIO_LOOPBACK_ALREADY_SET = env !! AUDIO_LOOPBACK_ALREADY_SET
  /\ w_environ (snd result) !! HEADPHONE_SINK =
       match sink_hint_for_run defaults with
       | Some _ => env !! HEADPHONE_SINK
       | None => None
       end.
Proof.
  intros env env_run outcome result Hanswer Hstart.
  unfold start_answer in Hanswer.
  destruct (o_input (w_oracle w) launch_prompt (w_trace w)) as [line|] eqn:Hline;
    [|discriminate Hanswer].
  injection Hanswer as <-.
  set (w0 := emit (EvInput launch_prompt) w).
  set (w_run := set_environ env_run w0).
  set (hp := match sink_hint_for_run defaults with
             | Some _ => env !! HEADPHONE_SINK | None => None end).
  set (lf := env !! AUDIO_LOOPBACK_ALREADY_SET).
  pose proof (launch_try_linux defaults w0) as Htry. cbv zeta in Htry.
  change (w_environ w0) with env in Htry. fold env_run w_run hp lf in Htry.
  destruct (launch_finally_linux defaults modules hp lf (snd (asyncio_run_pipeline w_run)))
    as (w_end & Hfin & Henv & Hgrow).
  assert (Hresult : result =
    (match fst (asyncio_run_pipeline w_run) with
     | Return _ => Return true | Raise e => Raise e end, w_end)).
  { unfold result, launch_phase, bind at 1. unfold input at 1.
    fold launch_prompt. rewrite Hline. fold w0. rewrite Hstart.
    unfold bind, with_launch_locals, try_finally.
    change {| headphone_env_previous := None; loopback_flag_previous := None;
              launch_world := w0 |} with (launch_locals None None w0).
    rewrite Htry, Hfin. simpl.
    by destruct (asyncio_run_pipeline w_run).1. }
  assert (Hpipe : asyncio_run_pipeline w_run =
    (match outcome with
     | PipelineRaised e => Raise e
     | PipelineCompleted | PipelineCancelledBySignal => Return tt
     end,
     set_environ (snd (o_pipeline (w_oracle w) env_run (w_trace w ++ [EvInput launch_prompt])))
       (emit (EvPipeline env_run outcome) w_run))).
  { unfold asyncio_run_pipeline, outcome. simpl.
    destruct (o_pipeline (w_oracle w) env_run (w_trace w ++ [EvInput launch_prompt]))
      as [o env']. simpl. by destruct o. }
  rewrite Hresult. simpl. rewrite Hpipe in Hgrow |- *. simpl in Hgrow |- *.
  split.
  { destruct Hgrow as [events ->]. apply in_or_app. left.
    apply in_or_app. right. by left. }
  split; [apply lookup_insert_eq|].
  split.
  { intros hint Hhint. unfold env_run, environ_for_run. rewrite Hhint.
    rewrite lookup_insert_ne by done. apply lookup_insert_eq. }
  split; [by destruct outcome|].
  rewrite Henv. split.
  - by rewrite lookup_put_back_eq.
  - rewrite lookup_put_back_ne by done. by rewrite lookup_put_back_eq.
Qed.

(** What the launch does restore.  When the user starts the pipeline from
    easy-start on Linux, the pipeline runs with [AUDIO_LOOPBACK_ALREADY_SET]
    set to "1" and, when a default sink was captured, with [HEADPHONE_SINK]
    set to it; however the run ends (it completes, a signal cancels it, or it
    raises, in which case the exception goes on to the caller), afterwards
    the flag is what it was before, present with its value or absent, and so
    is the sink hint whenever the branch had set it. *)
Lemma launch_restores_hints
    (defaults : option SystemDefaults) (modules : gmap string (gset string)) (w : World)
    (answer : string) :
  let env := w_environ w in
  let env_run := environ_for_run defaults env in
  let outcome := fst (o_pipeline (w_oracle w) env_run (w_trace w ++ [EvInput launch_prompt])) in
  let result := launch_phase "linux" defaults modules w in
  start_answer w = Some answer ->
  in_set answer [""; "y"; "yes"] = true ->
  In (EvPipeline env_run outcome) (w_trace (snd result))
  /\ env_run !! AUDIO_LOOPBACK_ALREADY_SET = Some "1"
  /\ (forall hint, sink_hint_for_run defaults = Some hint ->
                   env_run !! HEADPHONE_SINK = Some hint)
  /\ fst result = match outcome with
                  | PipelineRaised e => Raise e
                  | PipelineCompleted | PipelineCancelledBySignal => Return true
                  end
  /\ w_environ (snd result) !! AUDIO_LOOPBACK_ALREADY_SET = env !! AUDIO_LOOPBACK_ALREADY_SET
  /\ (is_Some (sink_hint_for_run defaults) ->
      w_environ (snd result) !! HEADPHONE_SINK = env !! HEADPHONE_SINK).
Proof.
  intros env env_run outcome result Hanswer Hstart.
  destruct (launch_phase_started defaults modules w answer Hanswer Hstart)
    as (Hran & Hflag_run & Hsink_run & Hresult & Hflag & Hsink).
  repeat (split; [assumption|]).
  intros [hint Hhint]. fold result env in Hsink. by rewrite Hhint in Hsink.
Qed.

(** C1. The failing run: easy-start on Linux is entered with
    [HEADPHONE_SINK] set to "usb-headset" and the flag set to "0", the user
    declines the helper script and starts the pipeline.  The pipeline runs
    with the inherited [HEADPHONE_SINK] and the flag "1" and completes;
    afterwards the flag is "0" again, but [HEADPHONE_SINK], which was
    present before, is gone: the [finally] block deletes it whenever the
    branch recorded no previous value, also when it recorded none because it
    never set the variable. *)
Theorem launch_deletes_inherited_headphone_sink :
  let w := LaunchSamples.inheriting in
  let result := run_easy_start true w in
  w_environ w !! HEADPHONE_SINK = Some "usb-headset"
  /\ w_environ w !! AUDIO_LOOPBACK_ALREADY_SET = Some "0"
  /\ fst result = Return true
  /\ existsb (fun ev =>
       match ev with
       | EvPipeline env PipelineCompleted =>
           bool_decide (env !! HEADPHONE_SINK = Some "usb-headset")
           && bool_decide (env !! AUDIO_LOOPBACK_ALREADY_SET = Some "1")
       | _ => false
       end) (w_trace (snd result)) = true
  /\ w_environ (snd result) !! AUDIO_LOOPBACK_ALREADY_SET = Some "0"
  /\ w_environ (snd result) !! HEADPHONE_SINK = None.
Proof. vm_compute. repeat split. Qed.

(** When the branch has no sink name to pass on (no defaults were captured,
    or the helper script was declined), it does not touch [HEADPHONE_SINK]
    before the run and deletes it afterwards. *)
Lemma launch_without_sink_hint_drops_headphone_sink
    (defaults : option SystemDefaults) (modules : gmap string (gset string)) (w : World)
    (answer : string) :
  start_answer w = Some answer ->
  in_set answer [""; "y"; "yes"] = true ->
  sink_hint_for_run defaults = None ->
  w_environ (snd (launch_phase "linux" defaults modules w)) !! HEADPHONE_SINK = None.
Proof.
  intros Hanswer Hstart Hnone.
  destruct (launch_phase_started defaults modules w answer Hanswer Hstart)
    as (_ & _ & _ & _ & _ & Hsink).
  by rewrite Hnone in Hsink.
Qed.

(** C10. When the user declines to start the pipeline from easy-start on
    Linux, the branch returns with [AUDIO_LOOPBACK_ALREADY_SET] and
    [HEADPHONE_SINK] deleted from the environment, whatever they held
    before, and with every other variable as it was. *)
Theorem decline_removes_hints
    (defaults : option SystemDefaults) (modules : gmap string (gset string)) (w : World)
    (answer : string) :
  let result := launch_phase "linux" defaults modules w in
  start_answer w = Some answer ->
  in_set answer [""; "y"; "yes"] = false ->
  fst result = Return true
  /\ w_environ (snd result) =
       delete HEADPHONE_SINK (delete AUDIO_LOOPBACK_ALREADY_SET (w_environ w))
  /\ w_environ (snd result) !! AUDIO_LOOPBACK_ALREADY_SET = None
  /\ w_environ (snd result) !! HEADPHONE_SINK = None.
Proof.
  intros result Hanswer Hstart.
  unfold start_answer in Hanswer.
  destruct (o_input (w_oracle w) launch_prompt (w_trace w)) as [line|] eqn:Hline;
    [|discriminate Hanswer].
  injection Hanswer as <-.
  set (w0 := emit (EvInput launch_prompt) w).
  destruct (run_returning_keeping (print
      "パイプラインの起動をスキップしました。`python -m transcriber.cli --log-level=INFO` でいつでも開始できます。")
      w0 (returns_print _) (keeps_weaken _ (observed_print _)))
    as ([] & w1 & Hrun1 & Henv1).
  destruct (run_returning_keeping (_restore_linux_defaults defaults) w1
      (restore_linux_defaults_returns _) (restore_linux_defaults_keeps_environ _))
    as ([] & w2 & Hrun2 & Henv2).
  set (w3 := set_environ (delete AUDIO_LOOPBACK_ALREADY_SET (w_environ w2)) w2).
  set (w4 := set_environ (delete HEADPHONE_SINK (w_environ w3)) w3).
  destruct (run_returning_keeping (_unload_linux_modules modules) w4
      (unload_linux_modules_returns _) (unload_linux_modules_keeps_environ _))
    as ([] & w5 & Hrun5 & Henv5).
  destruct (run_returning_keeping _ensure_linux_physical_defaults w5
      ensure_linux_physical_defaults_returns ensure_linux_physical_defaults_keeps_environ)
    as ([] & w6 & Hrun6 & Henv6).
  assert (Hresult : result = (Return true, w6)).
  { unfold result, launch_phase, bind at 1. unfold input at 1.
    fold launch_prompt. rewrite Hline. fold w0. rewrite Hstart.
    unfold launch_declined, bind at 1. unfold bind at 1. rewrite Hrun1.
    unfold bind at 1. rewrite Hrun2. simpl.
    unfold bind, environ_pop, modify.
    match goal with
    | |- context [_unload_linux_modules modules ?x] => change x with w4
    end.
    by rewrite Hrun5, Hrun6. }
  assert (Henv : w_environ w6 =
    delete HEADPHONE_SINK (delete AUDIO_LOOPBACK_ALREADY_SET (w_environ w))).
  { rewrite Henv6, Henv5. unfold w4, w3. simpl. by rewrite Henv2, Henv1. }
  rewrite Hresult. simpl. split; [done|]. split; [exact Henv|].
  rewrite Henv. split.
  - rewrite lookup_delete_ne by done. apply lookup_delete_eq.
  - apply lookup_delete_eq.
Qed.

Lemma launch_restores_hints_witness :
  let result := launch_phase "linux" LaunchSamples.captured empty_modules
                  LaunchSamples.launching in
  fst result = Raise (OtherException "backend unreachable")
  /\ w_environ (snd result) !! AUDIO_LOOPBACK_ALREADY_SET = Some "0"
  /\ w_environ (snd result) !! HEADPHONE_SINK = Some "usb-headset".
Proof.
  intros result.
  destruct (launch_restores_hints LaunchSamples.captured empty_modules
              LaunchSamples.launching "y" eq_refl eq_refl)
    as (_ & _ & _ & Hresult & Hflag & Hsink).
  split; [exact Hresult|]. split; [exact Hflag|].
  apply Hsink. by eexists.
Defined.

Lemma decline_removes_hints_witness :
  let result := launch_phase "linux" LaunchSamples.captured empty_modules
                  LaunchSamples.declining in
  w_environ (LaunchSamples.declining) !! HEADPHONE_SINK = Some "usb-headset"
  /\ w_environ (snd result) !! HEADPHONE_SINK = None
  /\ w_environ (snd result) !! AUDIO_LOOPBACK_ALREADY_SET = None.
Proof.
  intros result.
  destruct (decline_removes_hints LaunchSamples.captured empty_modules
              LaunchSamples.declining "n" eq_refl eq_refl)
    as (_ & _ & Hflag & Hsink).
  split; [reflexivity|]. split; [exact Hsink | exact Hflag].
Defined.

(** ** The loopback classifier, proved *)

Lemma detect_loop_spec self kws hint devices : forall idx w,
  fst (detect_loop self kws hint idx devices w) =
    Return (existsb (fun d => negb (max_input_channels d <=? 0)
                              && detect_verdict self kws hint d) devices).
Proof.
  induction devices as [|d ds IH]; intros idx w; [reflexivity|].
  cbn [detect_loop existsb].
  destruct (max_input_channels d <=? 0) eqn:Hin; [apply IH|].
  cbn [negb andb]. fold (detect_verdict self kws hint d).
  destruct (detect_verdict self kws hint d); [reflexivity | apply IH].
Qed.

Lemma detect_spec self keywords w devices :
  o_query_devices (w_oracle w) (w_trace w) = Some devices ->
  fst (_detect_loopback_candidate self keywords w) =
    Return (existsb (fun d => negb (max_input_channels d <=? 0)
                              && detect_verdict self (PyStr.lower <$> keywords)
                                   (sink_hint_of (_platform self) (_config self)) d)
                    devices).
Proof.
  intros Hq. unfold _detect_loopback_candidate, bind.
  rewrite (query_devices_or_fail_some _ _ Hq). apply detect_loop_spec.
Qed.

Lemma summarise_from_spec devices : forall idx0 w,
  exists summaries,
    summarise_from idx0 devices w = (Return summaries, w)
    /\ length summaries = length devices
    /\ forall i dev, devices !! i = Some dev ->
         exists s, summaries !! i = Some s /\ summary_of (idx0 + i) dev s.
Proof.
  induction devices as [|d ds IH]; intros idx0 w.
  - exists []. split; [reflexivity|]. split; [reflexivity|]. intros i dev H. done.
  - cbn [summarise_from]. unfold bind at 1.
    assert (Hapi : exists api, _hostapi_name (default (-1) (d_hostapi d)) w = (Return api, w)).
    { unfold _hostapi_name. repeat case_match; by eexists. }
    destruct Hapi as [api ->].
    destruct (IH (S idx0) w) as (rest & Hrun & Hlen & Hlookup).
    unfold bind. rewrite Hrun. eexists. split; [reflexivity|].
    split; [simpl; by rewrite Hlen|].
    intros [|i] dev Hdev; simpl in Hdev.
    + injection Hdev as <-. eexists. split; [reflexivity|].
      rewrite Nat.add_0_r. by repeat split.
    + destruct (Hlookup i dev Hdev) as (s & Hs & Hof).
      exists s. split; [exact Hs|]. by replace (idx0 + S i)%nat with (S idx0 + i)%nat by lia.
Qed.

Lemma elem_of_select_input_summaries devices input_devices summaries s :
  s ∈ select_input_summaries devices input_devices summaries <->
  exists i dev, devices !! i = Some dev /\ dev ∈ input_devices /\ summaries !! i = Some s.
Proof.
  unfold select_input_summaries. rewrite list_elem_of_omap. split.
  - intros ([i dev] & Hin & Hsome).
    apply elem_of_lookup_imap in Hin as (i' & dev' & Heq & Hdev).
    injection Heq as -> ->.
    destruct (bool_decide (dev' ∈ input_devices)) eqn:Hmem; [|discriminate].
    apply bool_decide_eq_true in Hmem. by exists i', dev'.
  - intros (i & dev & Hdev & Hmem & Hs). exists (i, dev). split.
    + apply elem_of_lookup_imap. by exists i, dev.
    + by rewrite bool_decide_eq_true_2.
Qed.

(** The fields of the report, read off the code. *)
Lemma collect_fields config w devices :
  o_query_devices (w_oracle w) (w_trace w) = Some devices ->
  exists summaries report w',
    collect_audio_diagnostics config w = (Return report, w')
    /\ length summaries = length devices
    /\ (forall i dev, devices !! i = Some dev ->
          exists s, summaries !! i = Some s /\ summary_of i dev s)
    /\ input_devices report =
         select_input_summaries devices
           (filter (fun dev => 0 < max_input_channels dev) devices) summaries
    /\ loopback_candidates report =
         (let platform_key := PyStr.lower (platform_system w) in
          List.filter
            (collect_is_candidate platform_key
               (PyStr.lower <$> loopback_keywords platform_key)
               (sink_hint_of platform_key config))
            (input_devices report))
    /\ report_mode report = resolve_capture_mode (platform_system w) config
    /\ issues report =
         (if bool_decide (input_devices report = []) then [msg_no_input_device] else [])
         ++ (if bool_decide (report_mode report = LOOPBACK)
                && bool_decide (loopback_candidates report = [])
                && bool_decide (device_index config = None)
             then [msg_no_candidate] else [])
    /\ recommendations report =
         (if bool_decide (device_index config = None)
             && negb (bool_decide (input_devices report = []))
          then [msg_pin_device_index] else [])
         ++ (if bool_decide (report_mode report = LOOPBACK)
                && bool_decide (loopback_candidates report = [])
                && negb (bool_decide (device_index config = None))
             then [msg_check_index_routing] else [])
         ++ (if bool_decide (report_mode report = LOOPBACK)
                && negb (bool_decide (loopback_candidates report = []))
             then [msg_candidates_prefix +:+
                     PyStr.join ", " (name <$> take 3 (loopback_candidates report))]
             else []).
Proof.
  intros Hq.
  destruct (summarise_from_spec devices 0 (emit EvQueryDevices w))
    as (summaries & Hrun & Hlen & Hlookup).
  exists summaries. unfold collect_audio_diagnostics, bind at 1.
  rewrite (query_devices_or_fail_some _ _ Hq).
  unfold bind at 1. unfold _summarise_devices. rewrite Hrun.
  unfold bind, get. cbn beta iota zeta.
  change (platform_system (emit EvQueryDevices w)) with (platform_system w).
  set (platform_key := PyStr.lower (platform_system w)).
  set (input_summaries :=
         select_input_summaries devices
           (filter (fun dev => 0 < max_input_channels dev) devices) summaries).
  set (candidates :=
         List.filter (collect_is_candidate platform_key
                        (PyStr.lower <$> loopback_keywords platform_key)
                        (sink_hint_of platform_key config)) input_summaries).
  set (effective := resolve_capture_mode (platform_system w) config).
  assert (Hnil : match candidates with [] => true | _ => false end
                 = bool_decide (candidates = [])) by by destruct candidates.
  rewrite Hnil.
  destruct (bool_decide (effective = LOOPBACK)) eqn:Hmode;
    destruct (bool_decide (candidates = [])) eqn:Hcand;
    destruct (device_index config) as [idx|] eqn:Hidx;
    cbn [andb negb bool_decide];
    eexists; eexists; (split; [reflexivity|]); cbn [input_devices loopback_candidates
      report_mode issues recommendations];
    fold input_summaries; fold candidates; fold effective;
    rewrite ?Hmode, ?Hcand;
    repeat split; try done; try exact Hlookup;
    destruct (bool_decide (input_summaries = [])); simpl; by rewrite ?app_nil_r.
Qed.

(** C8. On Linux in the loopback mode, with an input-capable device in
    the enumeration, no loopback candidate among them and no configured
    index, the report has the no-candidate message as its only issue and the
    advice to pin a device index as its only recommendation; no
    recommendation lists candidate names. *)
Theorem collect_reports_missing_candidate_only
    (config : AudioInputConfig) (w w' : World) (devices : list Device)
    (report : AudioDiagnosticReport) :
  PyStr.lower (platform_system w) = "linux" ->
  o_query_devices (w_oracle w) (w_trace w) = Some devices ->
  collect_audio_diagnostics config w = (Return report, w') ->
  report_mode report = LOOPBACK ->
  Exists (fun dev => 0 < max_input_channels dev) devices ->
  loopback_candidates report = [] ->
  device_index config = None ->
  issues report = [msg_no_candidate]
  /\ recommendations report = [msg_pin_device_index]
  /\ Forall (fun r => PyStr.startswith r msg_candidates_prefix = false)
            (recommendations report).
Proof.
  intros _ Hq Hrun Hmode Hinput Hnone Hidx.
  destruct (collect_fields config w devices Hq)
    as (summaries & report' & w'' & Hrun' & Hlen & Hlookup & Hin & _ & _ & Hissues & Hrecs).
  rewrite Hrun in Hrun'. injection Hrun' as <- <-.
  assert (Hnonempty : input_devices report <> []).
  { apply Exists_exists in Hinput as (dev & Hdev & Hpos).
    apply list_elem_of_lookup in Hdev as [i Hi].
    destruct (Hlookup i dev Hi) as (s & Hs & _).
    assert (Hs_in : s ∈ input_devices report).
    { rewrite Hin. apply elem_of_select_input_summaries.
      exists i, dev. split; [exact Hi|]. split; [|exact Hs].
      apply list_elem_of_filter. split; [exact Hpos|].
      apply list_elem_of_lookup. by exists i. }
    intros Hempty. rewrite Hempty in Hs_in. by apply elem_of_nil in Hs_in. }
  rewrite Hissues, Hrecs, Hmode, Hnone, Hidx.
  rewrite (bool_decide_eq_false_2 _ Hnonempty).
  rewrite !bool_decide_eq_true_2 by done. cbn [andb negb app].
  split; [reflexivity|]. split; [reflexivity|].
  constructor; [reflexivity | constructor].
Qed.

Lemma prepare_keywords_table platform_key :
  prepare_keywords platform_key = loopback_keywords platform_key.
Proof.
  unfold prepare_keywords, loopback_keywords.
  repeat case_match; reflexivity.
Qed.

Lemma verdicts_agree self kws hint idx dev s :
  is_Some (d_name dev) -> summary_of idx dev s ->
  detect_verdict self kws hint dev = collect_is_candidate (_platform self) kws hint s.
Proof.
  intros [n Hn] (_ & Hname & Hinputs).
  unfold detect_verdict, collect_is_candidate.
  rewrite Hname, Hinputs, Hn. reflexivity.
Qed.

Lemma filter_nonempty {A} (f : A -> bool) (l : list A) :
  List.filter f l <> [] <-> exists x, x ∈ l /\ f x = true.
Proof.
  split.
  - intros Hne. destruct (List.filter f l) as [|x rest] eqn:Hf; [done|].
    assert (Hx : In x (List.filter f l)) by (rewrite Hf; by left).
    apply filter_In in Hx as [Hin Hfx]. exists x. split; [|exact Hfx].
    by apply list_elem_of_In.
  - intros (x & Hin & Hfx) Hempty.
    assert (Hx : In x (List.filter f l)).
    { apply filter_In. split; [by apply list_elem_of_In | exact Hfx]. }
    by rewrite Hempty in Hx.
Qed.

(** C6. The two call shapes agree.  On every enumeration whose
    input-capable devices carry a name, as the devices that PortAudio
    enumerates do, the existence check (with the keywords the preparation of
    the platform passes) answers yes exactly when the diagnostics collect at
    least one candidate from the same enumeration, whatever the platform and
    the sink hint are. *)
Theorem shapes_agree_on_named_devices
    (self : Manager) (w_prepare w_diagnose : World) (devices : list Device) :
  _platform self = PyStr.lower (platform_system w_diagnose) ->
  o_query_devices (w_oracle w_prepare) (w_trace w_prepare) = Some devices ->
  o_query_devices (w_oracle w_diagnose) (w_trace w_diagnose) = Some devices ->
  Forall (fun dev => 0 < max_input_channels dev -> is_Some (d_name dev)) devices ->
  shapes_agree self w_prepare w_diagnose.
Proof.
  intros Hplatform Hq1 Hq2 Hnamed. unfold shapes_agree.
  rewrite (detect_spec self _ w_prepare devices Hq1).
  destruct (collect_fields (_config self) w_diagnose devices Hq2)
    as (summaries & report & w' & Hrun & Hlen & Hlookup & Hin & Hcand & _).
  rewrite Hrun. cbn [fst]. cbv zeta in Hcand.
  rewrite <- Hplatform, <- prepare_keywords_table in Hcand.
  set (kws := PyStr.lower <$> prepare_keywords (_platform self)) in *.
  set (hint := sink_hint_of (_platform self) (_config self)) in *.
  rewrite Forall_forall in Hnamed.
  split.
  - intros Hfound. injection Hfound as Hfound.
    apply existsb_exists in Hfound as (dev & Hdev & Hverdict).
    apply andb_true_iff in Hverdict as [Hpos Hverdict].
    apply negb_true_iff, Z.leb_gt in Hpos.
    apply list_elem_of_In in Hdev.
    pose proof Hdev as Hdev'. apply list_elem_of_lookup in Hdev' as [i Hi].
    destruct (Hlookup i dev Hi) as (s & Hs & Hof).
    exists report. split; [reflexivity|].
    rewrite Hcand. apply filter_nonempty. exists s. split.
    + rewrite Hin. apply elem_of_select_input_summaries.
      exists i, dev. split; [exact Hi|]. split; [|exact Hs].
      apply list_elem_of_filter. by split.
    + rewrite <- (verdicts_agree self kws hint i dev s); [exact Hverdict | | exact Hof].
      by apply Hnamed.
  - intros (report' & Hreport & Hne). injection Hreport as <-.
    rewrite Hcand in Hne. apply filter_nonempty in Hne as (s & Hs & Hverdict).
    rewrite Hin in Hs. apply elem_of_select_input_summaries in Hs
      as (i & dev & Hi & Hdev & Hs).
    apply list_elem_of_filter in Hdev as [Hpos Hdev].
    destruct (Hlookup i dev Hi) as (s' & Hs' & Hof).
    rewrite Hs in Hs'. injection Hs' as <-.
    f_equal. apply existsb_exists. exists dev. split; [by apply list_elem_of_In|].
    apply andb_true_iff. split.
    + apply negb_true_iff, Z.leb_gt. exact Hpos.
    + rewrite (verdicts_agree self kws hint i dev s); [exact Hverdict | | exact Hof].
      by apply Hnamed.
Qed.

Lemma shapes_agree_on_named_devices_witness :
  shapes_agree (ClassifierSamples.hinted "sink")
    (ClassifierSamples.linux_with [ClassifierSamples.usb_sink; Samples.webcam])
    (ClassifierSamples.linux_with [ClassifierSamples.usb_sink; Samples.webcam]).
Proof.
  apply (shapes_agree_on_named_devices (ClassifierSamples.hinted "sink")
           (ClassifierSamples.linux_with [ClassifierSamples.usb_sink; Samples.webcam])
           (ClassifierSamples.linux_with [ClassifierSamples.usb_sink; Samples.webcam])
           [ClassifierSamples.usb_sink; Samples.webcam]); try reflexivity.
  repeat constructor; by eexists.
Defined.

Lemma collect_reports_missing_candidate_only_witness :
  let run := collect_audio_diagnostics (Samples.config_of None None)
               (ClassifierSamples.linux_with [Samples.webcam]) in
  exists report,
    fst run = Return report
    /\ issues report = [msg_no_candidate]
    /\ recommendations report = [msg_pin_device_index].
Proof.
  intros run.
  destruct run as [[report|e] w'] eqn:Hrun; [|vm_compute in Hrun; discriminate Hrun].
  exists report. split; [reflexivity|].
  assert (Hreport : report_mode report = LOOPBACK /\ loopback_candidates report = []).
  { vm_compute in Hrun. injection Hrun as <- _. split; reflexivity. }
  destruct Hreport as [Hmode Hnone].
  destruct (collect_reports_missing_candidate_only (Samples.config_of None None)
              (ClassifierSamples.linux_with [Samples.webcam]) w' [Samples.webcam] report
              eq_refl eq_refl Hrun Hmode) as (Hissues & Hrecs & _).
  - constructor. reflexivity.
  - exact Hnone.
  - reflexivity.
  - split; [exact Hissues | exact Hrecs].
Defined.

(** With the sink hint "sink", the input "usb-sink-analog" is collected as
    a candidate although its name is not the hint. *)
Lemma sink_hint_matches_inside_name :
  ~ linux_rule_claim (Samples.config_of None (Some "sink"))
      (ClassifierSamples.linux_with [ClassifierSamples.usb_sink]).
Proof.
  intros Hclaim.
  destruct (collect_audio_diagnostics (Samples.config_of None (Some "sink"))
              (ClassifierSamples.linux_with [ClassifierSamples.usb_sink]))
    as [[report|e] w'] eqn:Hrun; [|vm_compute in Hrun; discriminate Hrun].
  specialize (Hclaim report ltac:(by rewrite Hrun)).
  vm_compute in Hrun. injection Hrun as <- _.
  cbn [input_devices loopback_candidates] in Hclaim.
  match type of Hclaim with
  | forall s, s ∈ [?x] -> _ =>
      destruct (Hclaim x (list_elem_of_here _ _)) as [Hforward _];
      specialize (Hforward (list_elem_of_here _ _))
  end.
  vm_compute in Hforward. discriminate Hforward.
Qed.

Lemma truthy_lower s : PyStr.truthy (PyStr.lower s) = PyStr.truthy s.
Proof. by destruct s. Qed.

Lemma linux_keyword_set : PyStr.lower <$> linux_keywords = ["monitor"; "loopback"].
Proof. reflexivity. Qed.

Lemma collect_is_candidate_linux config s :
  collect_is_candidate "linux" (PyStr.lower <$> loopback_keywords "linux")
    (sink_hint_of "linux" config) s
  = linux_candidate config (name s) (inputs s).
Proof.
  unfold collect_is_candidate, linux_candidate, sink_hint_of.
  change (PyStr.lower <$> loopback_keywords "linux") with ["monitor"; "loopback"].
  change ("linux" =? "linux")%string with true. cbn [existsb andb].
  destruct (linux_loopback_sink config) as [hint|];
    cbv [PyStr.truthy_opt fmap option_fmap option_map default from_option id].
  - destruct (PyStr.truthy hint) eqn:Ht;
      cbv [PyStr.truthy_opt fmap option_fmap option_map default from_option id].
    + rewrite truthy_lower, Ht.
      destruct (PyStr.contains "monitor" _), (PyStr.contains "loopback" _),
        (PyStr.contains (PyStr.lower hint) _),
        (((PyStr.lower (name s) =? "pipewire")%string || _)), (inputs s >=? 2);
        reflexivity.
    + destruct (PyStr.contains "monitor" _), (PyStr.contains "loopback" _),
        (((PyStr.lower (name s) =? "pipewire")%string || _)), (inputs s >=? 2);
        reflexivity.
  - destruct (PyStr.contains "monitor" _), (PyStr.contains "loopback" _),
      (((PyStr.lower (name s) =? "pipewire")%string || _)), (inputs s >=? 2);
      reflexivity.
Qed.

Lemma detect_verdict_linux self dev :
  _platform self = "linux" ->
  detect_verdict self (PyStr.lower <$> linux_keywords)
    (sink_hint_of "linux" (_config self)) dev
  = linux_candidate (_config self) (default "" (d_name dev)) (max_input_channels dev).
Proof.
  intros Hlinux.
  set (s := {| index := 0%nat; name := default "" (d_name dev); hostapi := "";
               inputs := max_input_channels dev; outputs := 0;
               default_samplerate := None |}).
  transitivity (collect_is_candidate "linux" (PyStr.lower <$> loopback_keywords "linux")
                  (sink_hint_of "linux" (_config self)) s).
  - unfold detect_verdict, collect_is_candidate. rewrite Hlinux. reflexivity.
  - apply (collect_is_candidate_linux (_config self) s).
Qed.

(** C2, as amended. On Linux an input-capable device is a loopback
    candidate exactly when its lower-cased name contains "monitor" or
    "loopback", or contains the lower-cased sink hint (a non-empty one), or
    is "pipewire" or "default" while the device has at least two input
    channels: the diagnostics collect exactly the input devices of that
    kind, and the existence check answers whether the enumeration has
    one. *)
Theorem linux_candidates_by_rule (self : Manager) (w : World) (devices : list Device) :
  _platform self = "linux" ->
  PyStr.lower (platform_system w) = "linux" ->
  o_query_devices (w_oracle w) (w_trace w) = Some devices ->
  (exists report w',
     collect_audio_diagnostics (_config self) w = (Return report, w')
     /\ forall s, s ∈ loopback_candidates report
                  <-> s ∈ input_devices report
                      /\ linux_candidate (_config self) (name s) (inputs s) = true)
  /\ fst (_detect_loopback_candidate self linux_keywords w) =
       Return (existsb (fun dev =>
                          (0 <? max_input_channels dev)
                          && linux_candidate (_config self) (default "" (d_name dev))
                               (max_input_channels dev))
                       devices).
Proof.
  intros Hself Hplatform Hq. split.
  - destruct (collect_fields (_config self) w devices Hq)
      as (summaries & report & w' & Hrun & _ & _ & _ & Hcand & _).
    exists report, w'. split; [exact Hrun|].
    cbv zeta in Hcand. rewrite Hplatform in Hcand.
    intros s. rewrite Hcand. split.
    + intros Hs. apply list_elem_of_In, filter_In in Hs as [Hin Hrule].
      split; [by apply list_elem_of_In|]. by rewrite <- collect_is_candidate_linux.
    + intros [Hin Hrule]. apply list_elem_of_In, filter_In.
      split; [by apply list_elem_of_In|]. by rewrite collect_is_candidate_linux.
  - rewrite (detect_spec self linux_keywords w devices Hq). f_equal.
    rewrite Hself. clear Hq.
    induction devices as [|dev devices IH]; [reflexivity|].
    cbn [existsb]. rewrite IH. f_equal.
    rewrite detect_verdict_linux by done. f_equal.
    destruct (Z.leb_spec (max_input_channels dev) 0), (Z.ltb_spec 0 (max_input_channels dev));
      try reflexivity; lia.
Qed.

Lemma linux_candidates_by_rule_witness :
  fst (_detect_loopback_candidate (ClassifierSamples.hinted "sink") linux_keywords
         (ClassifierSamples.linux_with [Samples.webcam; ClassifierSamples.usb_sink]))
  = Return true.
Proof.
  destruct (linux_candidates_by_rule (ClassifierSamples.hinted "sink")
              (ClassifierSamples.linux_with [Samples.webcam; ClassifierSamples.usb_sink])
              [Samples.webcam; ClassifierSamples.usb_sink] eq_refl eq_refl eq_refl)
    as [_ Hdetect].
  rewrite Hdetect. reflexivity.
Defined.

(** ** From the entry of easy-start to the launch prompt *)

Lemma bind_run {A B} (m : M World A) (k : A -> M World B) (w : World) :
  keeps same_environ m ->
  (exists a w1, same_environ w w1 /\ bind m k w = k a w1)
  \/ (exists e w1, same_environ w w1 /\ bind m k w = (Raise e, w1)).
Proof.
  intros Hk. specialize (Hk w). unfold bind.
  destruct (m w) as [[a|e] w1]; simpl in Hk; [left; by exists a, w1 | right; by exists e, w1].
Qed.

Lemma bind_get {B} (k : World -> M World B) (w : World) : bind get k w = k w w.
Proof. reflexivity. Qed.

Lemma environ_kept_input prompt : keeps same_environ (input prompt).
Proof.
  intros w. unfold input. by destruct (o_input (w_oracle w) prompt (w_trace w)).
Qed.

Lemma environ_kept_environment_check : keeps same_environ run_environment_check.
Proof. by intros w. Qed.

Lemma environ_kept_load_settings : keeps same_environ load_settings_audio.
Proof. by intros w. Qed.

Lemma environ_kept_modules_index modules kind :
  keeps same_environ (modules_index (S := World) modules kind).
Proof. intros w. unfold modules_index. by case_match. Qed.

#[local] Hint Resolve environ_kept_input environ_kept_environment_check
  environ_kept_load_settings environ_kept_modules_index
  restore_linux_defaults_keeps_environ unload_linux_modules_keeps_environ
  ensure_linux_physical_defaults_keeps_environ : keeps_db.

Lemma summarise_from_keeps_environ devices idx : keeps same_environ (summarise_from idx devices).
Proof.
  intros w. destruct (summarise_from_spec devices idx w) as (summaries & -> & _). done.
Qed.

Lemma run_cli_diagnostics_keeps_environ config : keeps same_environ (run_cli_diagnostics config).
Proof.
  unfold run_cli_diagnostics, collect_audio_diagnostics, query_devices_or_fail.
  apply (keeps_bind _); [|by intros report w].
  apply (keeps_bind _).
  { apply (keeps_try_except _); [apply keeps_weaken, observed_query|].
    intros e handler [= <-]. apply (keeps_raise _). }
  intros devices. apply (keeps_bind _); [apply summarise_from_keeps_environ|].
  intros summaries. apply (keeps_bind _); [by intros w|].
  intros w0. repeat case_match; apply (keeps_ret _).
Qed.

Lemma capture_linux_defaults_keeps_environ : keeps same_environ _capture_linux_defaults.
Proof. unfold _capture_linux_defaults. keeps_tac. Qed.

Lemma snapshot_linux_modules_keeps_environ : keeps same_environ _snapshot_linux_modules.
Proof. unfold _snapshot_linux_modules. keeps_tac. Qed.

#[local] Hint Resolve run_cli_diagnostics_keeps_environ capture_linux_defaults_keeps_environ
  snapshot_linux_modules_keeps_environ : keeps_db.

Lemma diff_modules_keeps_environ before after : keeps same_environ (diff_modules before after).
Proof. unfold diff_modules. keeps_tac. Qed.

#[local] Hint Resolve diff_modules_keeps_environ : keeps_db.

Lemma script_phase_keeps_environ system script command defaults modules :
  keeps same_environ (script_phase system script command defaults modules).
Proof. unfold script_phase, diff_and_unload. keeps_tac. Qed.

Ltac same_environ_chain :=
  repeat match goal with
         | H : same_environ _ _ |- _ => destruct H as [? ?]
         end;
  unfold ret; cbn [snd]; split; congruence.

(** An interactive easy-start on Linux either stops before the second
    prompt, with the environment it was entered with and without returning
    [True], or goes on as the launch phase from a world with that same
    environment. *)
Lemma run_easy_start_enters_launch_phase (w : World) :
  PyStr.lower (platform_system w) = "linux" ->
  (exists defaults modules w1,
     same_environ w w1 /\ run_easy_start true w = launch_phase "linux" defaults modules w1)
  \/ (same_environ w (snd (run_easy_start true w))
      /\ fst (run_easy_start true w) <> Return true).
Proof.
  intros Hlinux. unfold run_easy_start.
  match goal with
  | |- context [bind ?m ?k w] =>
      destruct (bind_run m k w environ_kept_environment_check)
        as [(ready & w1 & He1 & ->) | (e & w1 & He1 & ->)]
  end; [|by right].
  destruct ready; cbn [negb].
  2: { right. match goal with
       | |- context [bind ?m ?k w1] =>
           destruct (bind_run m k w1 (keeps_weaken _ (observed_print _)))
             as [(u & w2 & He2 & ->) | (e & w2 & He2 & ->)]
       end; (split; [same_environ_chain | done]). }
  match goal with
  | |- context [bind ?m ?k w1] =>
      destruct (bind_run m k w1 environ_kept_load_settings)
        as [(audio & w2 & He2 & ->) | (e & w2 & He2 & ->)]
  end; [|right; split; [same_environ_chain | done]].
  match goal with
  | |- context [bind ?m ?k w2] =>
      destruct (bind_run m k w2) as [(ok & w3 & He3 & ->) | (e & w3 & He3 & ->)]
  end.
  { apply (keeps_try_except _).
    - apply (keeps_bind _); [apply run_cli_diagnostics_keeps_environ|].
      intros _. apply (keeps_ret _).
    - intros e handler He. destruct e; try discriminate He. injection He as <-.
      keeps_tac. }
  2: { right. split; [same_environ_chain | done]. }
  destruct ok; cbn [negb]; [|right; split; [same_environ_chain | done]].
  rewrite !bind_get.
  assert (Hsystem : PyStr.lower (platform_system w3) = "linux").
  { rewrite <- Hlinux. unfold platform_system.
    destruct He1 as [_ Ho1], He2 as [_ Ho2], He3 as [_ Ho3]. congruence. }
  rewrite Hsystem. change ("linux" =? "linux")%string with true. cbv iota.
  match goal with
  | |- context [bind ?m ?k w3] =>
      destruct (bind_run m k w3) as [(sel & w4 & He4 & ->) | (e & w4 & He4 & ->)]
  end.
  { keeps_tac. }
  2: { right. split; [same_environ_chain | done]. }
  destruct sel as [[[script command] defaults] modules]. cbn [negb].
  match goal with
  | |- context [bind ?m ?k w4] =>
      destruct (bind_run m k w4 (script_phase_keeps_environ _ _ _ _ _))
        as [(prepared & w5 & He5 & ->) | (e & w5 & He5 & ->)]
  end.
  2: { right. split; [same_environ_chain | done]. }
  destruct prepared as [[d m]|]; [|right; split; [same_environ_chain | done]].
  left. exists d, m, w5. split; [same_environ_chain | reflexivity].
Qed.

(** ** Worked runs *)

(** Registered as A, B, C, the actions run as C, B, A; B raises, which is
    logged, and A still runs. *)
Example cleanup_runs_c_b_a :
  let self := Samples.manager "Linux" (Samples.config_of None None) in
  let '(r, st) := cleanup self RollbackSamples.registered in
  r = Return tt
  /\ _cleanup_actions st = []
  /\ w_trace (world st) =
       [EvPrint "C"; EvPrint "B";
        EvLog LWARNING "Audio environment cleanup failed: %s" ["pactl vanished"];
        EvPrint "A"].
Proof. vm_compute. repeat split. Qed.

(** The unit test of the flag: with the launcher's flag set and a monitor
    present, the loopback stage runs no process. *)
Example flag_set_runs_no_process :
  let monitor := {| d_name := Some "Monitor of Built-in Audio";
                    d_max_input_channels := Some 2; d_max_output_channels := Some 0;
                    d_hostapi := Some 0; d_default_samplerate := None |} in
  let w := Samples.fresh (<["AUDIO_LOOPBACK_ALREADY_SET" := "1"]> ∅)
             (Samples.steady "Linux" (Some [monitor]) true None "y" PipelineCompleted) in
  let '(r, st) := _prepare_loopback (Samples.manager "Linux" (Samples.config_of None None))
                    (Samples.idle w) in
  r = Return tt
  /\ w_trace (world st) =
       [flag_debug_log; EvQueryDevices;
        EvLog LDEBUG "Detected loopback candidate #%s: %s (inputs=%s)"
          ["0"; "Monitor of Built-in Audio"; "2"]].
Proof. vm_compute. repeat split. Qed.

(** The interactive Linux run of the unit tests: the script is accepted, the
    pipeline is started with both hints set and sees them, and nothing of
    them is left in an environment that was empty at the start. *)
Example easy_start_sets_and_clears_hints :
  let info := "Default Sink: alsa_output.pci-0000_00_1f.3.analog-stereo" in
  let w := Samples.fresh ∅
             (Samples.steady "Linux" (Some [Samples.webcam]) true (Some info) "y"
                PipelineCancelledBySignal) in
  let '(r, w') := run_easy_start true w in
  r = Return true
  /\ w_environ w' = ∅
  /\ existsb (fun ev =>
       match ev with
       | EvPipeline env _ =>
           bool_decide (env !! "AUDIO_LOOPBACK_ALREADY_SET" = Some "1")
           && bool_decide (env !! "HEADPHONE_SINK"
                           = Some "alsa_output.pci-0000_00_1f.3.analog-stereo")
       | _ => false
       end) (w_trace w') = true.
Proof. vm_compute. repeat split. Qed.

(** * Further properties of the code *)

(** ** Capture mode and device presence *)

Lemma lower_ascii_idempotent c : PyStr.lower_ascii (PyStr.lower_ascii c) = PyStr.lower_ascii c.
Proof. destruct c as [[] [] [] [] [] [] [] []]; reflexivity. Qed.

Lemma lower_idempotent s : PyStr.lower (PyStr.lower s) = PyStr.lower s.
Proof.
  induction s as [|c s IH]; [reflexivity|].
  cbn [PyStr.lower]. by rewrite lower_ascii_idempotent, IH.
Qed.

(** X1. [resolve_capture_mode] never answers [AUTO]: an explicit mode is
    passed through whatever the platform, and [AUTO] becomes [LOOPBACK] or
    [MICROPHONE]; the platform name only counts up to case. *)
Theorem resolve_capture_mode_never_auto (system : string) (config : AudioInputConfig) :
  resolve_capture_mode system config <> AUTO
  /\ (mode config <> AUTO -> resolve_capture_mode system config = mode config)
  /\ (mode config = AUTO ->
      resolve_capture_mode system config = LOOPBACK
      \/ resolve_capture_mode system config = MICROPHONE)
  /\ resolve_capture_mode (PyStr.lower system) config = resolve_capture_mode system config.
Proof.
  unfold resolve_capture_mode. rewrite lower_idempotent.
  destruct (mode config); (split; [by repeat case_match|]);
    (split; [|split]); try done; try intros _; try case_match; auto.
Qed.

(** X2. [_ensure_device_presence] returns exactly when the enumeration
    succeeds, is not empty, and has an input-capable device at the
    configured index or, without an index, anywhere; in every other case it
    raises the environment error, of the enumeration-failure kind when the
    query raised and of the device-unavailable kind otherwise.  No index
    error can escape. *)
Theorem ensure_device_presence_outcomes (self : Manager) (w : World) :
  let r := fst (_ensure_device_presence self w) in
  (r = Return tt
   <-> exists devices, o_query_devices (w_oracle w) (w_trace w) = Some devices
                       /\ presence_ok (_config self) devices)
  /\ (o_query_devices (w_oracle w) (w_trace w) = None
      <-> r = Raise (AudioEnvironmentError FailedToEnumerate))
  /\ (r = Return tt \/ fails_with DeviceUnavailable r \/ fails_with EnumerationFailure r).
Proof.
  unfold _ensure_device_presence, bind, presence_ok.
  destruct (o_query_devices (w_oracle w) (w_trace w)) as [devices|] eqn:Hq.
  2: { rewrite (query_devices_or_fail_none _ Hq). cbn [fst].
       split; [split; [done | by intros (d & Hd & _)]|].
       split; [done|]. right. right. by exists FailedToEnumerate. }
  rewrite (query_devices_or_fail_some _ _ Hq).
  destruct devices as [|d ds].
  { cbn [fst]. split; [split; [done | by intros (ds & [= <-] & Hne & _)]|].
    split; [done|]. right. left. by exists NoAudioDevices. }
  destruct (device_index (_config self)) as [i|] eqn:Hidx.
  - destruct ((i <? 0) || (i >=? Z.of_nat (length (d :: ds)))) eqn:Hrange.
    { cbn [fst]. split; [split; [done|]|].
      - intros (ds' & [= <-] & _ & Hin & _).
        apply orb_true_iff in Hrange as [H|H]; lia.
      - split; [done|]. right. left. by eexists. }
    apply orb_false_iff in Hrange as [Hlo Hhi].
    destruct ((d :: ds) !! Z.to_nat i) as [device|] eqn:Hdev.
    2: { exfalso. apply lookup_ge_None in Hdev. lia. }
    destruct (max_input_channels device <=? 0) eqn:Hin.
    + cbn [fst]. split; [split; [done|]|].
      * intros (ds' & [= <-] & _ & _ & device' & Hdev' & Hpos).
        rewrite Hdev in Hdev'. injection Hdev' as <-. lia.
      * split; [done|]. right. left. by eexists.
    + cbn [fst]. split; [split; [|done]|].
      * intros _. exists (d :: ds). repeat split; try done; try lia.
        exists device. split; [done | lia].
      * split; [done|]. by left.
  - destruct (existsb (fun dev => 0 <? max_input_channels dev) (d :: ds)) eqn:Hex;
      cbn [negb fst].
    + split; [split; [|done]|].
      * intros _. exists (d :: ds). repeat split; try done.
        apply Exists_exists. apply existsb_exists in Hex as (dev & Hdev & Hpos).
        exists dev. split; [by apply list_elem_of_In | lia].
      * split; [done|]. by left.
    + split; [split; [done|]|].
      * intros (ds' & [= <-] & _ & Hsome).
        apply Exists_exists in Hsome as (dev & Hdev & Hpos).
        assert (existsb (fun dev => 0 <? max_input_channels dev) (d :: ds) = true).
        { apply existsb_exists. exists dev. split; [by apply list_elem_of_In | lia]. }
        congruence.
      * split; [done|]. right. left. by eexists.
Qed.

(** X3. In the microphone and API modes [prepare()] is its device-presence
    check and nothing more: it ends as the check ends, the rollback stack is
    empty, no process was run and the environment is as before. *)
Theorem prepare_without_loopback_only_checks (self : Manager) (st : ManagerState) :
  let mode := resolve_capture_mode (platform_system (world st)) (_config self) in
  let w1 := emit (prepare_log self (world st)) (world st) in
  mode = MICROPHONE \/ mode = API ->
  fst (prepare self st) = fst (_ensure_device_presence self w1)
  /\ _cleanup_actions (snd (prepare self st)) = []
  /\ only_observed (world st) (world (snd (prepare self st))).
Proof.
  intros mode w1 Hmode.
  pose proof (ensure_device_presence_observes self w1) as Hobs.
  assert (Hw1 : only_observed (world st) w1) by by apply only_observed_emit.
  unfold prepare, bind, get, in_world, set_cleanup_actions, modify, log. simpl.
  fold (prepare_log self (world st)). fold w1. fold mode. clearbody mode.
  destruct (_ensure_device_presence self w1) as [[[]|e] w2]; simpl in *.
  - destruct Hmode as [-> | ->]; simpl.
    + split; [done|]. split; [done|]. by eapply only_observed_trans.
    + split; [done|]. split; [done|].
      eapply only_observed_trans; [exact Hw1|].
      eapply only_observed_trans; [exact Hobs|]. by apply only_observed_emit.
  - split; [done|]. split; [done|]. by eapply only_observed_trans.
Qed.

Lemma prepare_without_loopback_only_checks_witness :
  let self := {| _config := {| device_index := None; mode := MICROPHONE;
                              auto_setup_loopback := true;
                              linux_loopback_sink := None |};
                 _platform := "linux"; _scripts_dir := "scripts" |} in
  fst (prepare self (Samples.idle Samples.plain_without_pactl)) = Return tt
  /\ _cleanup_actions (snd (prepare self (Samples.idle Samples.plain_without_pactl))) = [].
Proof.
  intros self.
  destruct (prepare_without_loopback_only_checks self
              (Samples.idle Samples.plain_without_pactl) (or_introl eq_refl))
    as (Hrun & Hstack & _).
  split; [rewrite Hrun; reflexivity | exact Hstack].
Defined.

(** ** Diagnostics and the classifier *)

Lemma collect_world_and_device config w devices :
  o_query_devices (w_oracle w) (w_trace w) = Some devices ->
  exists summaries report,
    collect_audio_diagnostics config w = (Return report, emit EvQueryDevices w)
    /\ length summaries = length devices
    /\ (forall i dev, devices !! i = Some dev ->
          exists s, summaries !! i = Some s /\ summary_of i dev s)
    /\ platform report = platform_system w
    /\ configured_device report =
         match device_index config with
         | Some i =>
             if (0 <=? i) && (i <? Z.of_nat (length summaries))
             then summaries !! Z.to_nat i else None
         | None => None
         end.
Proof.
  intros Hq.
  destruct (summarise_from_spec devices 0 (emit EvQueryDevices w))
    as (summaries & Hrun & Hlen & Hlookup).
  exists summaries. unfold collect_audio_diagnostics, bind at 1.
  rewrite (query_devices_or_fail_some _ _ Hq).
  unfold bind at 1. unfold _summarise_devices. rewrite Hrun.
  unfold bind, get. cbn beta iota zeta.
  repeat case_match; eexists; (split; [reflexivity|]); repeat split; done.
Qed.

(** X4. [collect_audio_diagnostics] fails only when the device query
    fails, and then with the enumeration error; otherwise it returns a
    report whatever the configuration is, a configured index outside the
    enumeration included.  Either way the device query is the only thing it
    does to the outside. *)
Theorem collect_fails_only_on_enumeration (config : AudioInputConfig) (w : World) :
  match o_query_devices (w_oracle w) (w_trace w) with
  | None =>
      collect_audio_diagnostics config w =
        (Raise (AudioEnvironmentError FailedToEnumerate), emit EvQueryDevices w)
  | Some devices =>
      exists report,
        collect_audio_diagnostics config w = (Return report, emit EvQueryDevices w)
        /\ platform report = platform_system w
        /\ report_mode report = resolve_capture_mode (platform_system w) config
  end.
Proof.
  destruct (o_query_devices (w_oracle w) (w_trace w)) as [devices|] eqn:Hq.
  - destruct (collect_world_and_device config w devices Hq)
      as (summaries & report & Hrun & _ & _ & Hplatform & _).
    destruct (collect_fields config w devices Hq)
      as (summaries' & report' & w' & Hrun' & _ & _ & _ & _ & Hmode & _).
    rewrite Hrun in Hrun'. injection Hrun' as <- <-.
    by exists report.
  - unfold collect_audio_diagnostics, bind.
    by rewrite (query_devices_or_fail_none _ Hq).
Qed.

(** X5. The configured device of a report is present exactly when the
    configured index lies inside the enumeration, and it then is the summary
    of the device at that index: its index field is the configured index and
    its name and input count are the device's. *)
Theorem collect_configured_device_in_bounds
    (config : AudioInputConfig) (w w' : World) (devices : list Device)
    (report : AudioDiagnosticReport) :
  o_query_devices (w_oracle w) (w_trace w) = Some devices ->
  collect_audio_diagnostics config w = (Return report, w') ->
  (is_Some (configured_device report)
   <-> exists i, device_index config = Some i /\ 0 <= i < Z.of_nat (length devices))
  /\ (forall s, configured_device report = Some s ->
        exists i dev, device_index config = Some i
                      /\ devices !! Z.to_nat i = Some dev
                      /\ summary_of (Z.to_nat i) dev s).
Proof.
  intros Hq Hrun.
  destruct (collect_world_and_device config w devices Hq)
    as (summaries & report' & Hrun' & Hlen & Hlookup & _ & Hconf).
  rewrite Hrun in Hrun'. injection Hrun' as <- ->.
  rewrite Hconf. rewrite Hlen. clear Hconf.
  destruct (device_index config) as [i|].
  2: { split; [split; [by intros [s Hs] | by intros (i & Hi & _)] | done]. }
  destruct ((0 <=? i) && (i <? Z.of_nat (length devices))) eqn:Hrange.
  - apply andb_true_iff in Hrange as [Hlo Hhi].
    apply Z.leb_le in Hlo. apply Z.ltb_lt in Hhi.
    destruct (devices !! Z.to_nat i) as [dev|] eqn:Hdev.
    2: { apply lookup_ge_None in Hdev. lia. }
    destruct (Hlookup _ dev Hdev) as (s & Hs & Hof).
    rewrite Hs. split.
    + split; [intros _; by exists i | intros _; by exists s].
    + intros s' [= <-]. by exists i, dev.
  - split; [|done]. split; [by intros [s Hs]|].
    intros (i' & [= <-] & Hlo & Hhi).
    apply andb_false_iff in Hrange as [H|H]; [apply Z.leb_gt in H | apply Z.ltb_ge in H]; lia.
Qed.

Lemma collect_configured_device_in_bounds_witness :
  let config := Samples.config_of (Some 1) None in
  let w := ClassifierSamples.linux_with [ClassifierSamples.usb_sink; Samples.webcam] in
  exists report s,
    fst (collect_audio_diagnostics config w) = Return report
    /\ configured_device report = Some s
    /\ name s = "alsa_input.usb-Logitech_Webcam-00".
Proof.
  intros config w.
  destruct (collect_audio_diagnostics config w) as [[report|e] w'] eqn:Hrun;
    [|vm_compute in Hrun; discriminate Hrun].
  destruct (collect_configured_device_in_bounds config w w'
              [ClassifierSamples.usb_sink; Samples.webcam] report eq_refl Hrun)
    as [[_ Hpresent] Hsummary].
  destruct Hpresent as [s Hs]; [exists 1; split; [reflexivity | vm_compute; by split]|].
  exists report, s. split; [reflexivity|]. split; [exact Hs|].
  destruct (Hsummary s Hs) as (i & dev & Hi & Hdev & _ & Hname & _).
  injection Hi as <-. injection Hdev as <-. exact Hname.
Defined.

(** X6. Only input-capable devices are ever classified: every input
    device of a report has a positive input count, every loopback candidate
    of the report is one of its input devices, and the existence check
    answers yes only if the enumeration has a device with a positive input
    count. *)
Theorem classifier_sees_only_input_devices
    (self : Manager) (keywords : list string) (w w' : World) (devices : list Device)
    (report : AudioDiagnosticReport) :
  o_query_devices (w_oracle w) (w_trace w) = Some devices ->
  collect_audio_diagnostics (_config self) w = (Return report, w') ->
  Forall (fun s => 0 < inputs s) (input_devices report)
  /\ Forall (fun s => s ∈ input_devices report) (loopback_candidates report)
  /\ (fst (_detect_loopback_candidate self keywords w) = Return true ->
      Exists (fun dev => 0 < max_input_channels dev) devices).
Proof.
  intros Hq Hrun.
  destruct (collect_fields (_config self) w devices Hq)
    as (summaries & report' & w'' & Hrun' & Hlen & Hlookup & Hin & Hcand & _).
  rewrite Hrun in Hrun'. injection Hrun' as <- <-.
  split; [|split].
  - apply Forall_forall. intros s Hs. rewrite Hin in Hs.
    apply elem_of_select_input_summaries in Hs as (i & dev & Hi & Hdev & Hs).
    apply list_elem_of_filter in Hdev as [Hpos _].
    destruct (Hlookup i dev Hi) as (s' & Hs' & _ & _ & Hinputs).
    rewrite Hs in Hs'. injection Hs' as <-. by rewrite Hinputs.
  - apply Forall_forall. intros s Hs. rewrite Hcand in Hs. cbv zeta in Hs.
    apply list_elem_of_In, filter_In in Hs as [Hs _]. by apply list_elem_of_In.
  - rewrite (detect_spec self keywords w devices Hq). intros [= Hfound].
    apply existsb_exists in Hfound as (dev & Hdev & Hverdict).
    apply andb_true_iff in Hverdict as [Hpos _].
    apply negb_true_iff, Z.leb_gt in Hpos.
    apply Exists_exists. exists dev. split; [by apply list_elem_of_In | exact Hpos].
Qed.

Lemma classifier_sees_only_input_devices_witness :
  Exists (fun dev => 0 < max_input_channels dev)
         [ClassifierSamples.usb_sink; Samples.webcam].
Proof.
  set (self := ClassifierSamples.hinted "sink").
  set (w := ClassifierSamples.linux_with [ClassifierSamples.usb_sink; Samples.webcam]).
  destruct (collect_audio_diagnostics (_config self) w) as [[report|e] w'] eqn:Hrun;
    [|vm_compute in Hrun; discriminate Hrun].
  destruct (classifier_sees_only_input_devices self linux_keywords w w'
              [ClassifierSamples.usb_sink; Samples.webcam] report eq_refl Hrun)
    as (_ & _ & Hdetect).
  apply Hdetect. reflexivity.
Defined.

Lemma truthy_opt_lower_fmap (h h' : option string) :
  PyStr.lower <$> h = PyStr.lower <$> h' -> PyStr.truthy_opt h = PyStr.truthy_opt h'.
Proof.
  destruct h as [s|], h' as [s'|]; try done. intros [= Heq]. cbn [PyStr.truthy_opt].
  by rewrite <- (truthy_lower s), <- (truthy_lower s'), Heq.
Qed.

Lemma detect_verdict_up_to_case self self' kws hint d d' :
  _platform self = _platform self' ->
  PyStr.lower (default "" (d_name d)) = PyStr.lower (default "" (d_name d')) ->
  max_input_channels d = max_input_channels d' ->
  detect_verdict self kws hint d = detect_verdict self' kws hint d'.
Proof.
  intros Hp Hname Hin. unfold detect_verdict. by rewrite Hp, Hname, Hin.
Qed.

(** X7. The existence check does not depend on letter case: two
    enumerations whose device names differ only in case, keyword sets that
    differ only in case and sink hints that differ only in case get the same
    answer. *)
Theorem detection_ignores_letter_case
    (self : Manager) (hint hint' : option string) (keywords keywords' : list string)
    (w w' : World) (devices devices' : list Device) :
  o_query_devices (w_oracle w) (w_trace w) = Some devices ->
  o_query_devices (w_oracle w') (w_trace w') = Some devices' ->
  same_up_to_case devices devices' ->
  PyStr.lower <$> keywords = PyStr.lower <$> keywords' ->
  PyStr.lower <$> hint = PyStr.lower <$> hint' ->
  fst (_detect_loopback_candidate (with_sink_hint self hint) keywords w)
  = fst (_detect_loopback_candidate (with_sink_hint self hint') keywords' w').
Proof.
  intros Hq Hq' Hsame Hkw Hhint.
  rewrite (detect_spec _ keywords w devices Hq), (detect_spec _ keywords' w' devices' Hq').
  f_equal. rewrite Hkw.
  assert (Hh : sink_hint_of (_platform (with_sink_hint self hint))
                 (_config (with_sink_hint self hint))
               = sink_hint_of (_platform (with_sink_hint self hint'))
                   (_config (with_sink_hint self hint'))).
  { unfold sink_hint_of, with_sink_hint. cbn [_platform _config linux_loopback_sink].
    by rewrite (truthy_opt_lower_fmap hint hint' Hhint), Hhint. }
  rewrite Hh. clear Hq Hq' Hh.
  induction Hsame as [|d d' ds ds' [Hname Hin] Hrest IH]; [reflexivity|].
  cbn [existsb]. rewrite IH, Hin. f_equal. f_equal.
  by apply detect_verdict_up_to_case.
Qed.

Lemma detection_ignores_letter_case_witness :
  fst (_detect_loopback_candidate
         (with_sink_hint (ClassifierSamples.hinted "x") (Some "SINK")) ["Monitor"]
         (ClassifierSamples.linux_with [ClassifierSamples.usb_sink]))
  = Return true.
Proof.
  rewrite (detection_ignores_letter_case (ClassifierSamples.hinted "x")
             (Some "SINK") (Some "sink") ["Monitor"] ["monitor"]
             (ClassifierSamples.linux_with [ClassifierSamples.usb_sink])
             (ClassifierSamples.linux_with [ClassifierSamples.usb_sink])
             [ClassifierSamples.usb_sink] [ClassifierSamples.usb_sink]
             eq_refl eq_refl).
  - reflexivity.
  - repeat constructor.
  - reflexivity.
  - reflexivity.
Defined.

(** ** Reading the audio server's answers *)

Lemma or_none_truthy s : PyStr.or_none s <> Some "".
Proof. unfold PyStr.or_none. by destruct s. Qed.

Lemma scan_default_line_named acc line :
  fst acc <> Some "" -> snd acc <> Some "" ->
  fst (scan_default_line acc line) <> Some ""
  /\ snd (scan_default_line acc line) <> Some "".
Proof.
  destruct acc as [sink source]. intros Hsink Hsource. unfold scan_default_line.
  repeat case_match; cbn [fst snd]; split; auto using or_none_truthy.
Qed.

Lemma scan_lines_named lines : forall acc,
  fst acc <> Some "" -> snd acc <> Some "" ->
  fst (foldl scan_default_line acc lines) <> Some ""
  /\ snd (foldl scan_default_line acc lines) <> Some "".
Proof.
  induction lines as [|line lines IH]; intros acc Hsink Hsource; [done|].
  cbn [foldl]. destruct (scan_default_line_named acc line Hsink Hsource). by apply IH.
Qed.

(** X8. Capturing the defaults never raises and asks [pactl info] once.
    When the tool fails, nothing is captured; what is captured names a sink
    or a source, and no captured name is empty, so the launch branch passes
    on every captured sink.  The manager's [_get_linux_defaults] is the same
    computation. *)
Theorem captured_defaults_are_named (w : World) :
  exists captured,
    _capture_linux_defaults w = (Return captured, emit (EvCheckOutput ["pactl"; "info"]) w)
    /\ _get_linux_defaults w = _capture_linux_defaults w
    /\ (o_check_output (w_oracle w) ["pactl"; "info"] (w_trace w) = None -> captured = None)
    /\ (forall sink source, captured = Some (sink, source) ->
          (is_Some sink \/ is_Some source)
          /\ sink <> Some "" /\ source <> Some ""
          /\ sink_hint_for_run captured = sink).
Proof.
  unfold _capture_linux_defaults, _get_linux_defaults, try_except, bind,
    subprocess_check_output, ret.
  destruct (o_check_output (w_oracle w) ["pactl"; "info"] (w_trace w)) as [output|].
  2: { exists None. repeat split; done. }
  exists (scan_defaults output). split; [reflexivity|]. split; [reflexivity|].
  split; [done|]. intros sink source Hscan. rewrite Hscan. unfold scan_defaults in Hscan.
  destruct (scan_lines_named (PyStr.splitlines output) (None, None) ltac:(done) ltac:(done))
    as [Hsink Hsource].
  destruct (foldl scan_default_line (None, None) (PyStr.splitlines output)) as [s t].
  cbn [fst snd] in *.
  destruct (PyStr.truthy_opt s || PyStr.truthy_opt t) eqn:Htruthy; [|discriminate].
  injection Hscan as <- <-.
  split; [|split; [done|split; [done|]]].
  - apply orb_true_iff in Htruthy as [H|H]; [left; by destruct s | right; by destruct t].
  - destruct s as [[|c s]|]; [by destruct Hsink | reflexivity | reflexivity].
Qed.

Lemma append_cons (x : ascii) (a b : string) : String x a +:+ b = String x (a +:+ b).
Proof. reflexivity. Qed.

Lemma append_assoc (a b c : string) : (a +:+ b) +:+ c = a +:+ (b +:+ c).
Proof. induction a as [|x a IH]; [reflexivity|]. by rewrite !append_cons, IH. Qed.

Lemma append_empty_r (a : string) : a +:+ "" = a.
Proof. induction a as [|x a IH]; [reflexivity|]. by rewrite append_cons, IH. Qed.

Lemma rev_string_acc s : forall acc, PyStr.rev_string acc s = PyStr.rev_string "" s +:+ acc.
Proof.
  induction s as [|c s IH]; intros acc; [reflexivity|].
  cbn [PyStr.rev_string]. rewrite (IH (String c acc)), (IH (String c "")).
  by rewrite append_assoc.
Qed.

Lemma rev_string_append a b :
  PyStr.rev_string "" (a +:+ b) = PyStr.rev_string "" b +:+ PyStr.rev_string "" a.
Proof.
  induction a as [|c a IH]; [by rewrite append_empty_r|].
  rewrite append_cons. cbn [PyStr.rev_string].
  rewrite (rev_string_acc (a +:+ b)), (rev_string_acc a), IH. by rewrite append_assoc.
Qed.

Lemma rev_string_involutive s : PyStr.rev_string "" (PyStr.rev_string "" s) = s.
Proof.
  induction s as [|c s IH]; [reflexivity|].
  cbn [PyStr.rev_string]. rewrite (rev_string_acc s (String c "")).
  rewrite rev_string_append, IH. reflexivity.
Qed.

Lemma no_space_append a b : no_space (a +:+ b) = no_space a && no_space b.
Proof.
  induction a as [|c a IH]; [reflexivity|].
  rewrite append_cons. cbn [no_space]. rewrite IH. by rewrite andb_assoc.
Qed.

Lemma no_space_rev s : no_space (PyStr.rev_string "" s) = no_space s.
Proof.
  induction s as [|c s IH]; [reflexivity|].
  cbn [PyStr.rev_string no_space]. rewrite (rev_string_acc s (String c "")).
  rewrite no_space_append, IH.
  cbn [no_space]. rewrite andb_true_r. apply andb_comm.
Qed.

Lemma lstrip_no_space s : no_space s = true -> PyStr.lstrip s = s.
Proof.
  destruct s as [|c s]; [done|]. cbn [no_space PyStr.lstrip].
  intros [Hc _]%andb_true_iff. apply negb_true_iff in Hc. by rewrite Hc.
Qed.

Lemma strip_no_space s : no_space s = true -> PyStr.strip s = s.
Proof.
  intros Hs. unfold PyStr.strip. rewrite (lstrip_no_space s Hs).
  rewrite lstrip_no_space by by rewrite no_space_rev.
  apply rev_string_involutive.
Qed.

Lemma no_newline_append a b : no_newline (a +:+ b) = no_newline a && no_newline b.
Proof.
  induction a as [|c a IH]; [reflexivity|].
  rewrite append_cons. cbn [no_newline]. rewrite IH. by rewrite andb_assoc.
Qed.

Lemma no_space_no_newline s : no_space s = true -> no_newline s = true.
Proof.
  induction s as [|c s IH]; [done|]. cbn [no_space no_newline].
  intros [Hc Hs]%andb_true_iff. rewrite (IH Hs), andb_true_r.
  apply negb_true_iff, bool_decide_eq_false. intros ->. discriminate Hc.
Qed.

Lemma split_on_line s : no_newline s = true ->
  forall cur rest,
    PyStr.split_on PyStr.newline cur (s +:+ String PyStr.newline rest)
    = (PyStr.rev_string "" cur +:+ s) :: PyStr.split_on PyStr.newline "" rest.
Proof.
  induction s as [|c s IH]; intros Hs cur rest.
  - change ("" +:+ String PyStr.newline rest) with (String PyStr.newline rest).
    cbn [PyStr.split_on]. rewrite decide_True by done. by rewrite append_empty_r.
  - cbn [no_newline] in Hs. apply andb_true_iff in Hs as [Hc Hs].
    apply negb_true_iff, bool_decide_eq_false in Hc.
    rewrite append_cons. cbn [PyStr.split_on]. rewrite decide_False by done.
    rewrite (IH Hs). cbn [PyStr.rev_string].
    rewrite (rev_string_acc cur). by rewrite append_assoc.
Qed.

(** X9. Reading back what the audio server prints: from the two lines
    "Default Sink: <sink>" and "Default Source: <source>", with names that
    are not empty and hold no white space, the capture gets exactly the two
    names. *)
Theorem scan_defaults_reads_names (sink source : string) :
  clean_name sink -> clean_name source ->
  scan_defaults (pactl_info_text sink source) = Some (Some sink, Some source).
Proof.
  intros [Hsink_ne Hsink] [Hsource_ne Hsource].
  assert (Hlines : PyStr.splitlines (pactl_info_text sink source)
                   = ["Default Sink: " +:+ sink; "Default Source: " +:+ source]).
  { unfold PyStr.splitlines, pactl_info_text.
    assert (Hsplit : PyStr.split_on PyStr.newline ""
                       (("Default Sink: " +:+ sink) +:+ String PyStr.newline
                          (("Default Source: " +:+ source) +:+ String PyStr.newline ""))
                     = ["Default Sink: " +:+ sink; "Default Source: " +:+ source; ""]).
    { rewrite split_on_line.
      2: { rewrite no_newline_append. by rewrite (no_space_no_newline sink Hsink). }
      rewrite split_on_line.
      2: { rewrite no_newline_append. by rewrite (no_space_no_newline source Hsource). }
      reflexivity. }
    rewrite !append_assoc in Hsplit.
    destruct ("Default Sink: " +:+ sink +:+ String PyStr.newline
                ("Default Source: " +:+ source +:+ String PyStr.newline "")) eqn:Htext;
      [discriminate Htext|].
    rewrite Hsplit. reflexivity. }
  unfold scan_defaults. rewrite Hlines. cbn [foldl].
  assert (Hfirst : scan_default_line (None, None) ("Default Sink: " +:+ sink)
                   = (Some sink, None)).
  { unfold scan_default_line.
    change (PyStr.startswith ("Default Sink: " +:+ sink) "Default Sink:") with true.
    change (PyStr.after_first ":" ("Default Sink: " +:+ sink)) with (Some (String " " sink)).
    cbn [default from_option id].
    assert (Hstrip : PyStr.strip (String " " sink) = sink).
    { unfold PyStr.strip. change (PyStr.lstrip (String " " sink)) with (PyStr.lstrip sink).
      by apply strip_no_space. }
    rewrite Hstrip. unfold PyStr.or_none. by destruct sink. }
  rewrite Hfirst.
  assert (Hsecond : scan_default_line (Some sink, None) ("Default Source: " +:+ source)
                    = (Some sink, Some source)).
  { unfold scan_default_line.
    change (PyStr.startswith ("Default Source: " +:+ source) "Default Sink:") with false.
    change (PyStr.startswith ("Default Source: " +:+ source) "Default Source:") with true.
    change (PyStr.after_first ":" ("Default Source: " +:+ source))
      with (Some (String " " source)).
    cbn [default from_option id].
    assert (Hstrip : PyStr.strip (String " " source) = source).
    { unfold PyStr.strip. change (PyStr.lstrip (String " " source)) with (PyStr.lstrip source).
      by apply strip_no_space. }
    rewrite Hstrip. unfold PyStr.or_none. by destruct source. }
  rewrite Hsecond. by destruct sink.
Qed.

Lemma scan_defaults_reads_names_witness :
  scan_defaults (pactl_info_text "alsa_output.pci-0000_00_1f.3.analog-stereo"
                   "alsa_input.pci-0000_00_1f.3.analog-stereo")
  = Some (Some "alsa_output.pci-0000_00_1f.3.analog-stereo",
          Some "alsa_input.pci-0000_00_1f.3.analog-stereo").
Proof.
  apply scan_defaults_reads_names; split; [discriminate | reflexivity | discriminate | reflexivity].
Defined.

(** ** Module snapshots *)

Lemma scan_module_line_spec result line kind module_name id :
  (kind = "null" /\ module_name = "module-null-sink")
  \/ (kind = "loop" /\ module_name = "module-loopback") ->
  id ∈ modules_get (scan_module_line result line) kind
  <-> id ∈ modules_get result kind \/ listed_module line = Some (id, module_name).
Proof.
  intros Hkind. unfold scan_module_line, listed_module.
  destruct (PyStr.split_on PyStr.tab "" line) as [|first [|second rest]];
    [naive_solver | naive_solver |].
  destruct (PyStr.strip second =? "module-null-sink")%string eqn:Hnull.
  { apply String.eqb_eq in Hnull. rewrite Hnull.
    destruct Hkind as [[-> ->] | [-> ->]].
    - rewrite modules_get_insert_eq. set_solver.
    - rewrite modules_get_insert_ne by done. naive_solver. }
  apply String.eqb_neq in Hnull.
  destruct (PyStr.strip second =? "module-loopback")%string eqn:Hloop.
  { apply String.eqb_eq in Hloop. rewrite Hloop.
    destruct Hkind as [[-> ->] | [-> ->]].
    - rewrite modules_get_insert_ne by done. naive_solver.
    - rewrite modules_get_insert_eq. set_solver. }
  apply String.eqb_neq in Hloop.
  destruct Hkind as [[-> ->] | [-> ->]]; naive_solver.
Qed.

Lemma scan_module_lines_spec lines kind module_name id : forall result,
  (kind = "null" /\ module_name = "module-null-sink")
  \/ (kind = "loop" /\ module_name = "module-loopback") ->
  id ∈ modules_get (foldl scan_module_line result lines) kind
  <-> id ∈ modules_get result kind
      \/ exists line, line ∈ lines /\ listed_module line = Some (id, module_name).
Proof.
  induction lines as [|line lines IH]; intros result Hkind; cbn [foldl].
  - split; [by left | intros [H | (line & Hin & _)]; [done | by apply elem_of_nil in Hin]].
  - rewrite (IH _ Hkind), (scan_module_line_spec _ _ _ _ _ Hkind). split.
    + intros [[H | H] | (l & Hin & Hl)]; [by left | right | right].
      * exists line. split; [apply list_elem_of_here | done].
      * exists l. split; [by apply list_elem_of_further | done].
    + intros [H | (l & Hin & Hl)]; [by left; left|].
      apply elem_of_cons in Hin as [-> | Hin]; [left; by right | right; by exists l].
Qed.

(** X10. A module snapshot never raises, always lists both kinds, and is
    empty of modules when the listing fails.  Otherwise an identifier is
    recorded as a null sink exactly when a line of the listing carries it
    with the name "module-null-sink", and as a loopback exactly when a line
    carries it with the name "module-loopback": no other module of the
    audio server ever enters a snapshot. *)
Theorem snapshot_lists_only_sinks_and_loopbacks (w : World) :
  let listing := o_check_output (w_oracle w) ["pactl"; "list"; "short"; "modules"] (w_trace w) in
  exists modules,
    _snapshot_linux_modules w =
      (Return modules, emit (EvCheckOutput ["pactl"; "list"; "short"; "modules"]) w)
    /\ has_both_kinds modules
    /\ (listing = None -> modules = empty_modules)
    /\ (forall output id, listing = Some output ->
          (id ∈ modules_get modules "null"
           <-> exists line, line ∈ PyStr.splitlines output
                            /\ listed_module line = Some (id, "module-null-sink"))
          /\ (id ∈ modules_get modules "loop"
              <-> exists line, line ∈ PyStr.splitlines output
                               /\ listed_module line = Some (id, "module-loopback"))).
Proof.
  intros listing.
  destruct (snapshot_has_both_kinds w) as (modules & Hrun & Hboth).
  exists modules. unfold listing.
  unfold _snapshot_linux_modules, try_except, bind, subprocess_check_output, ret in *.
  destruct (o_check_output (w_oracle w) ["pactl"; "list"; "short"; "modules"] (w_trace w))
    as [output|]; cbn [fst] in Hrun; injection Hrun as <-.
  - split; [reflexivity|]. split; [exact Hboth|]. split; [done|].
    intros output' id [= <-]. split.
    + rewrite (scan_module_lines_spec _ "null" "module-null-sink" id empty_modules)
        by (left; done).
      split; [intros [H | H]; [|exact H] | by right].
      unfold modules_get, empty_modules in H. rewrite lookup_insert_eq in H. set_solver.
    + rewrite (scan_module_lines_spec _ "loop" "module-loopback" id empty_modules)
        by (right; done).
      split; [intros [H | H]; [|exact H] | by right].
      unfold modules_get, empty_modules in H.
      rewrite lookup_insert_ne, lookup_insert_eq in H by done. set_solver.
  - split; [reflexivity|]. split; [exact Hboth|]. split; [done|]. done.
Qed.

(** X11. When the later snapshot holds no module that the earlier one
    does not hold, diff-and-unload runs nothing at all: the world is left as
    it was.  In particular a helper script that creates no module causes no
    unload. *)
Theorem diff_and_unload_without_new_modules
    (before after : gmap string (gset string)) (w : World) :
  has_both_kinds after ->
  modules_get after "null" ⊆ modules_get before "null" ->
  modules_get after "loop" ⊆ modules_get before "loop" ->
  diff_and_unload (Some before) after w = (Return tt, w)
  /\ diff_and_unload (Some after) after w = (Return tt, w).
Proof.
  intros [[null_after Hnull] [loop_after Hloop]] Hsub_null Hsub_loop.
  assert (Hrun : forall b,
    modules_get after "null" ⊆ modules_get b "null" ->
    modules_get after "loop" ⊆ modules_get b "loop" ->
    diff_and_unload (Some b) after w = (Return tt, w)).
  { intros b Hn Hl. unfold diff_and_unload, bind.
    rewrite (diff_modules_spec (Some b) after null_after loop_after w Hnull Hloop).
    rewrite unload_linux_modules_spec.
    rewrite modules_get_insert_eq.
    rewrite modules_get_insert_ne by done. rewrite modules_get_insert_eq.
    cbn [default from_option id].
    unfold modules_get in Hn, Hl. rewrite Hnull in Hn. rewrite Hloop in Hl.
    cbn [default from_option id] in Hn, Hl.
    assert (Hl0 : loop_after ∖ modules_get b "loop" = ∅) by (unfold modules_get; set_solver).
    assert (Hn0 : null_after ∖ modules_get b "null" = ∅) by (unfold modules_get; set_solver).
    rewrite Hl0, Hn0, elements_empty. cbn [fmap list_fmap app].
    by rewrite emit_all_nil. }
  split; [by apply Hrun | by apply Hrun].
Qed.

Lemma diff_and_unload_without_new_modules_witness :
  diff_and_unload (Some example_after) example_before Samples.plain_without_pactl
  = (Return tt, Samples.plain_without_pactl).
Proof.
  apply (diff_and_unload_without_new_modules example_after example_before
           Samples.plain_without_pactl).
  - split; by eexists.
  - unfold example_after, example_before.
    rewrite !modules_get_insert_eq. set_solver.
  - unfold example_after, example_before.
    rewrite !modules_get_insert_ne, !modules_get_insert_eq by done. set_solver.
Defined.

(** ** Events a computation may add *)

Lemma adds_refl P w : adds P w w.
Proof. exists []. by rewrite emit_all_nil. Qed.

Lemma adds_trans P w1 w2 w3 : adds P w1 w2 -> adds P w2 w3 -> adds P w1 w3.
Proof.
  intros (e1 & -> & H1) (e2 & -> & H2). exists (e1 ++ e2).
  rewrite emit_all_app, forallb_app, H1, H2. done.
Qed.

#[global] Instance adds_preorder P : WorldPreorder (adds P) :=
  {| R_refl := adds_refl P; R_trans := adds_trans P |}.

Lemma adds_emit P ev w : P ev = true -> adds P w (emit ev w).
Proof. intros Hev. exists [ev]. split; [done|]. simpl. by rewrite Hev. Qed.

Lemma adds_same_environ P w w' : adds P w w' -> same_environ w w'.
Proof. by intros (events & -> & _). Qed.

Lemma adds_log P level fmt args :
  P (EvLog level fmt args) = true -> keeps (adds P) (log level fmt args).
Proof. intros HP w. by apply adds_emit. Qed.

Lemma adds_print P text : P (EvPrint text) = true -> keeps (adds P) (print text).
Proof. intros HP w. by apply adds_emit. Qed.

Lemma adds_query P : P EvQueryDevices = true -> keeps (adds P) sd_query_devices.
Proof.
  intros HP w. unfold sd_query_devices. destruct (o_query_devices _ _); by apply adds_emit.
Qed.

Lemma adds_check_output P argv :
  P (EvCheckOutput argv) = true -> keeps (adds P) (subprocess_check_output argv).
Proof.
  intros HP w. unfold subprocess_check_output.
  destruct (o_check_output _ _ _); by apply adds_emit.
Qed.

Lemma adds_run P argv check env :
  P (EvRun argv env) = true -> keeps (adds P) (subprocess_run argv check env).
Proof. intros HP w. unfold subprocess_run. case_match; by apply adds_emit. Qed.

Lemma adds_environment_check P :
  P EvEnvironmentCheck = true -> keeps (adds P) run_environment_check.
Proof. intros HP w. by apply adds_emit. Qed.

Lemma adds_reading P {A} (f : World -> A) : keeps (adds P) (fun w => (Return (f w), w)).
Proof. intros w. apply adds_refl. Qed.

(** Splits a goal [keeps (adds P) m] along [m]; the events met on the way
    are checked against [P] by evaluation. *)
Ltac adds_step :=
  match goal with
  | |- keeps _ (bind _ _) => apply (keeps_bind _); [| intros ?]
  | |- keeps _ (try_except _ _) => apply (keeps_try_except _); [| intros ? ? ?]
  | |- keeps _ (when _ _) => apply (keeps_when _)
  | |- keeps _ (for_each _ _) => apply (keeps_for_each _); intros ?
  | |- keeps _ (ret _) => apply (keeps_ret _)
  | |- keeps _ (raise _) => apply (keeps_raise _)
  | |- keeps (adds _) (log _ _ _) => apply adds_log; reflexivity
  | |- keeps (adds _) (print _) => apply adds_print; reflexivity
  | |- keeps (adds _) sd_query_devices => apply adds_query; reflexivity
  | |- keeps (adds _) (subprocess_check_output _) => apply adds_check_output; reflexivity
  | |- keeps (adds _) (subprocess_run _ _ _) => apply adds_run; reflexivity
  | |- keeps (adds _) run_environment_check => apply adds_environment_check; reflexivity
  | |- keeps (adds _) load_settings_audio => apply (adds_reading _ _)
  | |- keeps (adds _) (get (S := World)) => apply (adds_reading _ (fun w => w))
  | |- keeps _ (if ?c then _ else _) => destruct c eqn:?
  | |- keeps _ (match ?x with _ => _ end) => destruct x eqn:?
  | H : Some _ = Some _ |- _ => injection H as <-
  | H : (if ?c then _ else _) = Some _ |- _ => destruct c eqn:?; try discriminate H
  | H : match ?x with _ => _ end = Some _ |- _ => destruct x eqn:?; try discriminate H
  | |- keeps _ _ => solve [eauto with keeps_db]
  end.

Ltac adds_tac := repeat adds_step.

Lemma list_linux_devices_run kind w :
  exists names,
    _list_linux_devices kind w =
      (Return names, emit (EvCheckOutput ["pactl"; "list"; "short"; kind]) w).
Proof.
  unfold _list_linux_devices, try_except, bind, subprocess_check_output, ret.
  destruct (o_check_output _ _ _); by eexists.
Qed.

Lemma filter_head {A} (f : A -> bool) (l : list A) x rest :
  List.filter f l = x :: rest -> f x = true.
Proof.
  intros Hf. assert (Hin : In x (List.filter f l)) by (rewrite Hf; by left).
  by apply filter_In in Hin as [_ Hx].
Qed.

(** ** Keeping the defaults on physical devices *)

Lemma bind_returning {A B} (m : M World A) (k : A -> M World B) w a w' :
  m w = (Return a, w') -> bind m k w = k a w'.
Proof. intros Hm. unfold bind. by rewrite Hm. Qed.

Lemma ensure_physical_defaults_run w :
  exists events,
    _ensure_linux_physical_defaults w = (Return tt, emit_all events w)
    /\ forallb physical_default_event events = true
    /\ (o_check_output (w_oracle w) ["pactl"; "info"] (w_trace w) = None ->
        events = [EvCheckOutput ["pactl"; "info"]]).
Proof.
  unfold _ensure_linux_physical_defaults.
  destruct (o_check_output (w_oracle w) ["pactl"; "info"] (w_trace w)) as [info|] eqn:Hinfo.
  2: { exists [EvCheckOutput ["pactl"; "info"]].
       erewrite bind_returning;
         [|unfold try_except, bind, subprocess_check_output, ret; rewrite Hinfo; reflexivity].
       done. }
  erewrite bind_returning;
    [|unfold try_except, bind, subprocess_check_output, ret; rewrite Hinfo; reflexivity].
  cbv beta iota.
  destruct (foldl scan_default_line (None, None) (PyStr.splitlines info)) as [sink source].
  destruct (list_linux_devices_run "sinks" (emit (EvCheckOutput ["pactl"; "info"]) w))
    as [sinks Hsinks].
  erewrite bind_returning by exact Hsinks.
  match goal with
  | |- context [bind (_list_linux_devices "sources") _ ?w3] =>
      destruct (list_linux_devices_run "sources" w3) as [sources Hsources]
  end.
  erewrite bind_returning by exact Hsources.
  rewrite !emit_is_emit_all, !emit_all_app. cbn [app].
  set (physical_sinks :=
         List.filter (fun n => negb (PyStr.contains "codex_transcribe" n)) sinks).
  set (physical_sources :=
         List.filter (fun n => negb (PyStr.contains ".monitor" n)
                               && negb (PyStr.contains "codex_transcribe" n)) sources).
  assert (Hsink_ok : forall first rest, physical_sinks = first :: rest ->
            physical_default_event (EvRun ["pactl"; "set-default-sink"; first] None) = true).
  { intros first rest Hf. apply filter_head in Hf. exact Hf. }
  assert (Hsource_ok : forall first rest, physical_sources = first :: rest ->
            physical_default_event (EvRun ["pactl"; "set-default-source"; first] None) = true).
  { intros first rest Hf. apply filter_head in Hf. exact Hf. }
  clearbody physical_sinks physical_sources.
  unfold bind, when, subprocess_run, ret. cbn [andb negb].
  destruct sink as [sink|], physical_sinks as [|first_sink more_sinks];
    destruct source as [source|], physical_sources as [|first_source more_sources];
    repeat match goal with
           | |- context [if ?c then _ else _] => destruct c
           end;
    rewrite ?emit_is_emit_all, ?emit_all_app; cbn [app];
    eexists; (split; [reflexivity|]); (split; [|intros [=]]);
    cbn [forallb]; rewrite ?(Hsink_ok _ _ eq_refl), ?(Hsource_ok _ _ eq_refl); reflexivity.
Qed.

(** X12. [_ensure_linux_physical_defaults] never raises.  Besides
    querying the audio server it can only make a sink the default that is
    not one of the tool's own, and a source the default that is neither one
    of the tool's own nor a monitor; the environment is untouched, and when
    [pactl info] fails it does nothing more. *)
Theorem ensure_physical_defaults_selects_physical (w : World) :
  fst (_ensure_linux_physical_defaults w) = Return tt
  /\ adds physical_default_event w (snd (_ensure_linux_physical_defaults w))
  /\ (o_check_output (w_oracle w) ["pactl"; "info"] (w_trace w) = None ->
      snd (_ensure_linux_physical_defaults w) = emit (EvCheckOutput ["pactl"; "info"]) w).
Proof.
  destruct (ensure_physical_defaults_run w) as (events & Hrun & Hevents & Hnone).
  rewrite Hrun. cbn [fst snd]. split; [done|]. split; [by exists events|].
  intros Hinfo. by rewrite (Hnone Hinfo).
Qed.

(** ** Easy-start without a launch *)

Lemma summarise_from_adds P devices idx : keeps (adds P) (summarise_from idx devices).
Proof.
  intros w. destruct (summarise_from_spec devices idx w) as (summaries & -> & _).
  apply adds_refl.
Qed.

Lemma run_cli_diagnostics_adds P config :
  P EvQueryDevices = true -> (forall report, P (EvPrintReport report) = true) ->
  keeps (adds P) (run_cli_diagnostics config).
Proof.
  intros Hquery Hreport.
  unfold run_cli_diagnostics, collect_audio_diagnostics, query_devices_or_fail.
  apply (keeps_bind _); [|intros report w; by apply adds_emit].
  apply (keeps_bind _).
  { apply (keeps_try_except _); [by apply adds_query|].
    intros e handler [= <-]. apply (keeps_raise _). }
  intros devices. apply (keeps_bind _); [apply summarise_from_adds|].
  intros summaries. apply (keeps_bind _); [apply (adds_reading _ (fun w => w))|].
  intros w0. repeat case_match; apply (keeps_ret _).
Qed.

Lemma restore_linux_defaults_passive defaults :
  keeps (adds passive_event) (_restore_linux_defaults defaults).
Proof. unfold _restore_linux_defaults. adds_tac. Qed.

Lemma capture_linux_defaults_passive : keeps (adds passive_event) _capture_linux_defaults.
Proof. unfold _capture_linux_defaults. adds_tac. Qed.

Lemma snapshot_linux_modules_passive : keeps (adds passive_event) _snapshot_linux_modules.
Proof. unfold _snapshot_linux_modules. adds_tac. Qed.

Lemma physical_default_event_passive ev :
  physical_default_event ev = true -> passive_event ev = true.
Proof.
  destruct ev as [| | argv [env|] | | | | | |]; try done. cbn.
  by destruct (pactl_call "set-default-sink" argv), (pactl_call "set-default-source" argv).
Qed.

Lemma ensure_physical_defaults_passive :
  keeps (adds passive_event) _ensure_linux_physical_defaults.
Proof.
  intros w. destruct (ensure_physical_defaults_run w) as (events & -> & Hevents & _).
  exists events. split; [done|].
  apply forallb_forall. intros ev Hev. apply physical_default_event_passive.
  rewrite forallb_forall in Hevents. by apply Hevents.
Qed.

Lemma capture_linux_defaults_returns : returns _capture_linux_defaults.
Proof. unfold _capture_linux_defaults. returns_tac. Qed.

Lemma snapshot_linux_modules_returns : returns _snapshot_linux_modules.
Proof. unfold _snapshot_linux_modules. returns_tac. Qed.

Lemma diagnosed_returns audio :
  returns (try_except (run_cli_diagnostics audio ;;; ret true)
             (fun exc => match exc with
                         | AudioEnvironmentError _ =>
                             Some (print ("オーディオ環境エラー: " +:+ exn_text exc) ;;; ret false)
                         | _ => None
                         end)).
Proof.
  intros w. unfold try_except, run_cli_diagnostics, bind.
  destruct (o_query_devices (w_oracle w) (w_trace w)) as [devices|] eqn:Hq.
  - destruct (collect_fields audio w devices Hq) as (summaries & report & w' & Hrun & _).
    rewrite Hrun. by eexists.
  - unfold collect_audio_diagnostics, bind. rewrite (query_devices_or_fail_none _ Hq).
    by eexists.
Qed.

(** The part of [run_easy_start] up to the end of the diagnostics. *)
Lemma run_easy_start_checks interactive w :
  let w1 := emit EvEnvironmentCheck w in
  (o_environment_check (w_oracle w) (w_trace w) = false ->
   run_easy_start interactive w = (Return false, emit (EvPrint msg_not_ready) w1))
  /\ (o_environment_check (w_oracle w) (w_trace w) = true ->
      o_query_devices (w_oracle w) (w_trace w1) = None ->
      run_easy_start interactive w =
        (Return false,
         emit (EvPrint ("オーディオ環境エラー: " +:+ "AudioEnvironmentError"))
              (emit EvQueryDevices w1))).
Proof.
  intros w1. split.
  - intros Hready. unfold run_easy_start.
    erewrite bind_returning; [|unfold run_environment_check; rewrite Hready; reflexivity].
    reflexivity.
  - intros Hready Hq. subst w1. unfold run_easy_start.
    erewrite bind_returning; [|unfold run_environment_check; rewrite Hready; reflexivity].
    cbn [negb]. erewrite bind_returning by reflexivity.
    erewrite bind_returning; cycle 1.
    { unfold try_except, run_cli_diagnostics, collect_audio_diagnostics, bind.
      rewrite (query_devices_or_fail_none _ Hq). reflexivity. }
    reflexivity.
Qed.

(** X13. Easy-start fails closed: when the readiness check fails, or when
    it passes and the device query of the diagnostics raises, the run
    returns [False] having printed one message, and nothing else happened:
    no prompt, no script, no change of a default, no pipeline. *)
Theorem run_easy_start_fails_closed (interactive : bool) (w : World) :
  let w1 := emit EvEnvironmentCheck w in
  (o_environment_check (w_oracle w) (w_trace w) = false ->
   run_easy_start interactive w = (Return false, emit (EvPrint msg_not_ready) w1))
  /\ (o_environment_check (w_oracle w) (w_trace w) = true ->
      o_query_devices (w_oracle w) (w_trace w1) = None ->
      run_easy_start interactive w =
        (Return false,
         emit (EvPrint ("オーディオ環境エラー: " +:+ "AudioEnvironmentError"))
              (emit EvQueryDevices w1)))
  /\ (fst (run_easy_start interactive w) = Return true ->
      o_environment_check (w_oracle w) (w_trace w) = true
      /\ is_Some (o_query_devices (w_oracle w) (w_trace w1))).
Proof.
  intros w1. destruct (run_easy_start_checks interactive w) as [Hnot_ready Hno_devices].
  split; [exact Hnot_ready|]. split; [exact Hno_devices|].
  intros Htrue.
  destruct (o_environment_check (w_oracle w) (w_trace w)) eqn:Hready.
  2: { rewrite (Hnot_ready eq_refl) in Htrue. discriminate Htrue. }
  split; [done|].
  destruct (o_query_devices (w_oracle w) (w_trace w1)) as [devices|] eqn:Hq; [by eexists|].
  fold w1 in Hno_devices. rewrite (Hno_devices eq_refl Hq) in Htrue. discriminate Htrue.
Qed.

(** X14. A non-interactive easy-start never raises and is passive: it
    asks the user nothing, starts neither a helper script nor the pipeline,
    unloads no module and leaves the environment alone; all it runs besides
    checks and queries is [pactl] setting a default sink or source. *)
Theorem run_easy_start_non_interactive_is_passive (w : World) :
  (fst (run_easy_start false w) = Return true \/ fst (run_easy_start false w) = Return false)
  /\ adds passive_event w (snd (run_easy_start false w)).
Proof.
  assert (Hadds : keeps (adds passive_event) (run_easy_start false)).
  { unfold run_easy_start. cbn [negb].
    apply (keeps_bind _); [by apply adds_environment_check|].
    intros ready. destruct ready; cbn [negb]; [|adds_tac].
    apply (keeps_bind _);
      [apply (adds_reading _ (fun w => o_load_settings (w_oracle w) (w_trace w)))|].
    intros audio. apply (keeps_bind _).
    { apply (keeps_try_except _).
      - apply (keeps_bind _); [by apply run_cli_diagnostics_adds|].
        intros _. apply (keeps_ret _).
      - intros e handler He. destruct e; try discriminate He. injection He as <-.
        adds_tac. }
    intros ok. destruct ok; cbn [negb]; [|apply (keeps_ret _)].
    apply (keeps_bind _); [apply (adds_reading _ (fun w => w))|].
    intros w0. apply (keeps_bind _).
    { repeat match goal with
             | |- keeps _ (if ?c then _ else _) => destruct c
             end; try apply (keeps_ret _).
      apply (keeps_bind _); [apply capture_linux_defaults_passive|].
      intros defaults. apply (keeps_bind _); [apply snapshot_linux_modules_passive|].
      intros modules. apply (keeps_ret _). }
    intros [[[script command] defaults] modules].
    apply (keeps_bind _); [apply restore_linux_defaults_passive|].
    intros _. apply (keeps_bind _); [|intros _; apply (keeps_ret _)].
    apply (keeps_when _). apply ensure_physical_defaults_passive. }
  split; [|apply Hadds].
  assert (Hreturns : returns (run_easy_start false)).
  { unfold run_easy_start. cbn [negb].
    apply returns_bind; [intros w0; by eexists|].
    intros ready. destruct ready; cbn [negb]; [|returns_tac].
    apply returns_bind; [intros w0; by eexists|].
    intros audio. apply returns_bind; [apply diagnosed_returns|].
    intros ok. destruct ok; cbn [negb]; [|apply returns_ret].
    apply returns_bind; [intros w0; by eexists|].
    intros w0. apply returns_bind.
    { repeat match goal with
             | |- returns (if ?c then _ else _) => destruct c
             end; try apply returns_ret.
      apply returns_bind; [apply capture_linux_defaults_returns|].
      intros defaults. apply returns_bind; [apply snapshot_linux_modules_returns|].
      intros modules. apply returns_ret. }
    intros [[[script command] defaults] modules].
    apply returns_bind; [apply restore_linux_defaults_returns|].
    intros _. apply returns_bind; [|intros _; apply returns_ret].
    apply returns_when, ensure_linux_physical_defaults_returns. }
  destruct (Hreturns w) as [[] Hrun]; auto.
Qed.

(** ** What preparation leaves on the rollback stack *)

Lemma keeps_stack_in_world {A} (m : M World A) : keeps_stack (in_world m).
Proof. intros st. unfold in_world. by destruct (m (world st)). Qed.

Lemma keeps_stack_ret {A} (a : A) : keeps_stack (ret a).
Proof. by intros st. Qed.

Lemma keeps_stack_raise {A} (e : Exn) : keeps_stack (raise (A := A) e).
Proof. by intros st. Qed.

Lemma keeps_stack_bind {A B} (m : M ManagerState A) (k : A -> M ManagerState B) :
  keeps_stack m -> (forall a, keeps_stack (k a)) -> keeps_stack (bind m k).
Proof.
  intros Hm Hk st. unfold bind. specialize (Hm st).
  destruct (m st) as [[a|e] st1]; cbn [snd] in *; [|done].
  by rewrite Hk.
Qed.

Lemma keeps_stack_when (c : bool) (body : M ManagerState unit) :
  keeps_stack body -> keeps_stack (when c body).
Proof. intros Hbody. destruct c; [exact Hbody | apply keeps_stack_ret]. Qed.

Ltac stack_step :=
  match goal with
  | |- keeps_stack (bind _ _) => apply keeps_stack_bind; [| intros ?]
  | |- keeps_stack (when _ _) => apply keeps_stack_when
  | |- keeps_stack (in_world _) => apply keeps_stack_in_world
  | |- keeps_stack (ret _) => apply keeps_stack_ret
  | |- keeps_stack (raise _) => apply keeps_stack_raise
  | |- keeps_stack (if ?c then _ else _) => destruct c
  | |- keeps_stack (match ?x with _ => _ end) => destruct x
  end.

Ltac stack_tac := repeat stack_step.

Lemma keeps_stack_pushes {A} (m : M ManagerState A) :
  keeps_stack m -> pushes_at_most_restore m.
Proof. intros Hm st. left. apply Hm. Qed.

Lemma pushes_after_keeping {A B} (m : M ManagerState A) (k : A -> M ManagerState B) :
  keeps_stack m -> (forall a, pushes_at_most_restore (k a)) ->
  pushes_at_most_restore (bind m k).
Proof.
  intros Hm Hk st. unfold bind. specialize (Hm st).
  destruct (m st) as [[a|e] st1]; cbn [snd] in *; [|by left].
  rewrite <- Hm. apply Hk.
Qed.

Lemma pushes_before_keeping {A B} (m : M ManagerState A) (k : A -> M ManagerState B) :
  pushes_at_most_restore m -> (forall a, keeps_stack (k a)) ->
  pushes_at_most_restore (bind m k).
Proof.
  intros Hm Hk st. unfold bind. specialize (Hm st).
  destruct (m st) as [[a|e] st1]; cbn [snd] in *; [|exact Hm].
  rewrite !(Hk a st1). exact Hm.
Qed.

Lemma get_linux_defaults_run w :
  exists captured,
    _get_linux_defaults w = (Return captured, emit (EvCheckOutput ["pactl"; "info"]) w)
    /\ (forall sink source, captured = Some (sink, source) ->
          PyStr.truthy_opt sink || PyStr.truthy_opt source = true).
Proof.
  unfold _get_linux_defaults, try_except, bind, subprocess_check_output, ret.
  destruct (o_check_output (w_oracle w) ["pactl"; "info"] (w_trace w)) as [output|].
  2: { by exists None. }
  exists (scan_defaults output). split; [reflexivity|].
  intros sink source. unfold scan_defaults.
  destruct (foldl scan_default_line (None, None) (PyStr.splitlines output)) as [s t].
  destruct (PyStr.truthy_opt s || PyStr.truthy_opt t) eqn:Htruthy; [|discriminate].
  by intros [= <- <-].
Qed.

Lemma pushes_after_capture {B}
    (k : option (option string * option string) -> M ManagerState B) :
  (forall captured,
     (forall sink source, captured = Some (sink, source) ->
        PyStr.truthy_opt sink || PyStr.truthy_opt source = true) ->
     pushes_at_most_restore (k captured)) ->
  pushes_at_most_restore (bind (in_world _get_linux_defaults) k).
Proof.
  intros Hk st. unfold bind, in_world.
  destruct (get_linux_defaults_run (world st)) as (captured & -> & Hnamed).
  apply (Hk captured Hnamed
           {| _cleanup_actions := _cleanup_actions st;
              world := emit (EvCheckOutput ["pactl"; "info"]) (world st) |}).
Qed.

Lemma prepare_linux_loopback_stack self :
  pushes_at_most_restore (_prepare_linux_loopback self).
Proof.
  unfold _prepare_linux_loopback.
  apply pushes_after_keeping; [apply keeps_stack_in_world|]. intros pactl.
  destruct (negb pactl); [apply keeps_stack_pushes, keeps_stack_in_world|].
  apply pushes_after_keeping; [apply keeps_stack_in_world|]. intros flag.
  destruct (bool_decide (flag = Some "1")); [apply keeps_stack_pushes; stack_tac|].
  apply pushes_before_keeping; [|intros _; stack_tac].
  destruct (auto_setup_loopback (_config self)); [|apply keeps_stack_pushes, keeps_stack_ret].
  cbn [when]. apply pushes_after_capture. intros captured Hnamed.
  apply pushes_before_keeping; [|intros _; stack_tac].
  destruct captured as [[sink source]|]; [|apply keeps_stack_pushes, keeps_stack_ret].
  intros st. right. exists sink, source. split; [by apply Hnamed | reflexivity].
Qed.

Lemma prepare_linux_loopback_without_setup self :
  auto_setup_loopback (_config self) = false -> keeps_stack (_prepare_linux_loopback self).
Proof.
  intros Hauto. unfold _prepare_linux_loopback, when. rewrite Hauto. cbv iota. stack_tac.
Qed.

Lemma prepare_loopback_elsewhere self :
  _platform self <> "linux" -> keeps_stack (_prepare_loopback self).
Proof.
  intros Hp. unfold _prepare_loopback.
  destruct (_platform self =? "linux")%string eqn:Hlinux.
  { by apply String.eqb_eq in Hlinux. }
  unfold _prepare_windows_loopback, _prepare_macos_loopback. stack_tac.
Qed.

Lemma prepare_loopback_stack self : pushes_at_most_restore (_prepare_loopback self).
Proof.
  destruct (decide (_platform self = "linux")) as [Hp|Hp].
  - intros st. rewrite (prepare_loopback_linux self st Hp).
    apply prepare_linux_loopback_stack.
  - by apply keeps_stack_pushes, prepare_loopback_elsewhere.
Qed.

(** The state in which [prepare()] enters its last stage, when it gets
    there. *)
Lemma prepare_run self st :
  let mode := resolve_capture_mode (platform_system (world st)) (_config self) in
  let w1 := emit (prepare_log self (world st)) (world st) in
  let checked := _ensure_device_presence self w1 in
  let st2 := {| _cleanup_actions := []; world := snd checked |} in
  prepare self st =
    match fst checked with
    | Raise e => (Raise e, st2)
    | Return _ =>
        match mode with
        | LOOPBACK => _prepare_loopback self st2
        | API =>
            in_world (log LINFO
              "Audio capture mode set to 'api'. Ensure external media ingestion is configured."
              []) st2
        | _ => (Return tt, st2)
        end
    end.
Proof.
  intros mode w1 checked st2. unfold prepare, bind at 1, get. cbn beta iota.
  unfold bind at 1, in_world at 1, log at 1, modify at 1. cbn beta iota.
  unfold bind at 1, set_cleanup_actions, modify. cbn beta iota.
  unfold bind at 1, in_world at 1. cbn [world _cleanup_actions].
  change (_ensure_device_presence self _) with checked.
  subst st2. destruct checked as [[[]|e] w2]; cbn [fst snd]; [|reflexivity].
  fold mode. by destruct mode.
Qed.

(** X15. Whatever the rollback stack held before, after [prepare()] (ended
    normally or not) it is empty or holds exactly one action: the one that
    restores the default sink and source, of which one at least is named.
    The latter happens only in the loopback mode on Linux with the automatic
    set-up switched on. *)
Theorem prepare_registers_at_most_one_restore (self : Manager) (st : ManagerState) :
  let stack := _cleanup_actions (snd (prepare self st)) in
  stack = []
  \/ exists sink source,
       stack = [restore sink source]
       /\ PyStr.truthy_opt sink || PyStr.truthy_opt source = true
       /\ _platform self = "linux"
       /\ auto_setup_loopback (_config self) = true
       /\ resolve_capture_mode (platform_system (world st)) (_config self) = LOOPBACK.
Proof.
  intros stack. subst stack. rewrite prepare_run. cbv zeta.
  set (checked := _ensure_device_presence self _).
  set (st2 := {| _cleanup_actions := []; world := snd checked |}).
  destruct (fst checked) as [[]|e]; [|by left].
  destruct (resolve_capture_mode _ _) eqn:Hmode; try by left.
  destruct (prepare_loopback_stack self st2) as [Hkept | (sink & source & Hnamed & Hpushed)].
  { left. by rewrite Hkept. }
  right. exists sink, source. split; [by rewrite Hpushed|]. split; [done|].
  split; [|split; [|done]].
  - destruct (decide (_platform self = "linux")) as [Hp|Hp]; [done|].
    rewrite (prepare_loopback_elsewhere self Hp st2) in Hpushed. discriminate Hpushed.
  - destruct (auto_setup_loopback (_config self)) eqn:Hauto; [done|].
    destruct (decide (_platform self = "linux")) as [Hp|Hp].
    + rewrite (prepare_loopback_linux self st2 Hp) in Hpushed.
      rewrite (prepare_linux_loopback_without_setup self Hauto st2) in Hpushed.
      discriminate Hpushed.
    + rewrite (prepare_loopback_elsewhere self Hp st2) in Hpushed. discriminate Hpushed.
Qed.

(** ** Undoing a preparation *)

Lemma restore_run sink source w :
  exists events,
    restore sink source w = (Return tt, emit_all events w)
    /\ forallb sets_a_default events = true
    /\ (length events <= 2)%nat.
Proof.
  unfold restore, when, bind, subprocess_run, ret. cbn [andb].
  destruct (PyStr.truthy_opt sink), (PyStr.truthy_opt source).
  - exists [EvRun ["pactl"; "set-default-sink"; default "" sink] None;
            EvRun ["pactl"; "set-default-source"; default "" source] None].
    split; [|split; [reflexivity | cbn; lia]].
    by rewrite !emit_is_emit_all, emit_all_app.
  - exists [EvRun ["pactl"; "set-default-sink"; default "" sink] None].
    split; [reflexivity|]. split; [reflexivity | cbn; lia].
  - exists [EvRun ["pactl"; "set-default-source"; default "" source] None].
    split; [reflexivity|]. split; [reflexivity | cbn; lia].
  - exists []. split; [by rewrite emit_all_nil|]. split; [reflexivity | cbn; lia].
Qed.

Lemma prepare_stack_shape self st :
  _cleanup_actions (snd (prepare self st)) = []
  \/ exists sink source,
       _cleanup_actions (snd (prepare self st)) = [restore sink source]
       /\ PyStr.truthy_opt sink || PyStr.truthy_opt source = true.
Proof.
  rewrite prepare_run. cbv zeta.
  set (checked := _ensure_device_presence self _).
  set (st2 := {| _cleanup_actions := []; world := snd checked |}).
  destruct (fst checked) as [[]|e]; [|by left].
  destruct (resolve_capture_mode _ _); try by left.
  destruct (prepare_loopback_stack self st2) as [Hkept | (sink & source & Hnamed & Hpushed)].
  - left. by rewrite Hkept.
  - right. exists sink, source. by rewrite Hpushed.
Qed.

Lemma get_linux_defaults_captured w :
  _get_linux_defaults w = (Return (captured_in w), emit (EvCheckOutput ["pactl"; "info"]) w).
Proof.
  unfold _get_linux_defaults, captured_in, try_except, bind, subprocess_check_output, ret.
  by destruct (o_check_output (w_oracle w) ["pactl"; "info"] (w_trace w)).
Qed.

(** X16. A [cleanup()] after a [prepare()] returns, leaves the stack
    empty, and runs at most two commands, each a [pactl] call that sets a
    default sink or source; nothing else happens and no failure is logged. *)
Theorem cleanup_after_prepare_only_sets_defaults (self : Manager) (st : ManagerState) :
  let prepared := snd (prepare self st) in
  exists events,
    cleanup self prepared =
      (Return tt, {| _cleanup_actions := []; world := emit_all events (world prepared) |})
    /\ forallb sets_a_default events = true
    /\ (length events <= 2)%nat
    /\ (_cleanup_actions prepared = [] -> events = []).
Proof.
  intros prepared. rewrite cleanup_spec.
  destruct (prepare_stack_shape self st) as [Hempty | (sink & source & Hone & _)];
    fold prepared in Hempty || fold prepared in Hone.
  - exists []. rewrite Hempty. cbn [reverse foldl]. rewrite emit_all_nil.
    repeat split; cbn; lia || reflexivity.
  - rewrite Hone. cbn.
    destruct (restore_run sink source (world prepared)) as (events & Hrun & Hsets & Hlen).
    exists events. unfold run_logged, cleanup_turn, try_except. rewrite Hrun.
    repeat split; done.
Qed.

(** ** The helper scripts of the loopback stage *)

(** X17. Off Linux a helper script that exits with an error is tolerated.
    With a device index configured and the automatic set-up on, when the
    helper of Windows (found together with [powershell]) or of macOS exits
    with a status other than 0, the loopback stage logs a warning that
    carries the status and returns; it looks for no device and leaves the
    rollback stack alone. *)
Theorem helper_failure_is_tolerated_off_linux
    (self : Manager) (st : ManagerState) (idx : Z) :
  let w := world st in
  let status argv := o_exit_status (w_oracle w) argv None (w_trace w) in
  device_index (_config self) = Some idx ->
  auto_setup_loopback (_config self) = true ->
  (_platform self = "windows" ->
   o_which (w_oracle w) "powershell" (w_trace w) = true ->
   o_is_file (w_oracle w)
     (path_join (_scripts_dir self) "setup_audio_loopback_windows.ps1") (w_trace w) = true ->
   status (windows_helper_argv self) <> 0 ->
   _prepare_loopback self st =
     (Return tt,
      with_world st
        (emit (EvLog LWARNING
                 "Windows loopback helper exited with code %s. Continuing with verification."
                 [PyStr.of_Z (status (windows_helper_argv self))])
           (emit (EvRun (windows_helper_argv self) None) w))))
  /\ (_platform self = "darwin" ->
      o_is_file (w_oracle w)
        (path_join (_scripts_dir self) "setup_audio_loopback_macos.sh") (w_trace w) = true ->
      status (macos_helper_argv self) <> 0 ->
      _prepare_loopback self st =
        (Return tt,
         with_world st
           (emit (EvLog LWARNING
                    "macOS loopback helper exited with code %s. Continuing with verification."
                    [PyStr.of_Z (status (macos_helper_argv self))])
              (emit (EvRun (macos_helper_argv self) None) w)))).
Proof.
  intros w status Hidx Hauto. split.
  - intros Hp Hwhich Hfile Hstatus. unfold _prepare_loopback. rewrite Hp.
    change ("windows" =? "linux")%string with false.
    change ("windows" =? "windows")%string with true. cbv iota.
    unfold _prepare_windows_loopback. rewrite Hauto, Hidx. cbn [when].
    unfold bind, in_world, shutil_which, path_is_file, try_except, subprocess_run, log,
      modify, ret.
    cbn [world _cleanup_actions andb]. fold w. rewrite Hwhich, Hfile.
    cbn [world _cleanup_actions andb]. fold w.
    apply Z.eqb_neq in Hstatus. unfold status, windows_helper_argv in Hstatus |- *.
    rewrite Hstatus. reflexivity.
  - intros Hp Hfile Hstatus. unfold _prepare_loopback. rewrite Hp.
    change ("darwin" =? "linux")%string with false.
    change ("darwin" =? "windows")%string with false.
    change ("darwin" =? "darwin")%string with true. cbv iota.
    unfold _prepare_macos_loopback. rewrite Hauto, Hidx. cbn [when].
    unfold bind, in_world, path_is_file, try_except, subprocess_run, log, modify, ret.
    cbn [world _cleanup_actions andb]. fold w. rewrite Hfile.
    cbn [world _cleanup_actions andb]. fold w.
    apply Z.eqb_neq in Hstatus. unfold status, macos_helper_argv in Hstatus |- *.
    rewrite Hstatus. reflexivity.
Qed.

Lemma helper_failure_is_tolerated_off_linux_witness :
  let st := Samples.idle HelperSamples.every_helper_fails in
  let on_windows := Samples.manager "Windows" (Samples.config_of (Some 0) None) in
  let on_macos := Samples.manager "Darwin" (Samples.config_of (Some 0) None) in
  (fst (_prepare_loopback on_windows st) = Return tt
   /\ w_trace (world (snd (_prepare_loopback on_windows st))) =
        [EvRun (windows_helper_argv on_windows) None;
         EvLog LWARNING
           "Windows loopback helper exited with code %s. Continuing with verification."
           ["3"]])
  /\ (fst (_prepare_loopback on_macos st) = Return tt
      /\ w_trace (world (snd (_prepare_loopback on_macos st))) =
           [EvRun (macos_helper_argv on_macos) None;
            EvLog LWARNING
              "macOS loopback helper exited with code %s. Continuing with verification."
              ["3"]]).
Proof.
  intros st on_windows on_macos. split.
  - destruct (helper_failure_is_tolerated_off_linux on_windows st 0 eq_refl eq_refl)
      as [Hwindows _].
    rewrite Hwindows; [split; reflexivity | reflexivity | reflexivity | reflexivity |].
    vm_compute. discriminate.
  - destruct (helper_failure_is_tolerated_off_linux on_macos st 0 eq_refl eq_refl)
      as [_ Hmacos].
    rewrite Hmacos; [split; reflexivity | reflexivity | reflexivity |].
    vm_compute. discriminate.
Defined.

(** X18. On Linux the helper script is not tolerated: when [pactl] is
    there, the launcher's flag is not set, the automatic set-up is on and
    the script exists, a helper that exits with an error makes the stage
    raise the environment error, with or without a configured device
    index, before any device is looked for.  The helper has run in the
    process environment with [HEADPHONE_SINK] set to the configured sink, and
    the action restoring the captured defaults stays registered. *)
Theorem linux_helper_failure_is_fatal (self : Manager) (st : ManagerState) :
  let w := world st in
  let w1 := emit (EvCheckOutput ["pactl"; "info"]) w in
  let script := path_join (_scripts_dir self) "setup_audio_loopback_linux.sh" in
  let env := helper_environ self (w_environ w) in
  _platform self = "linux" ->
  o_which (w_oracle w) "pactl" (w_trace w) = true ->
  w_environ w !! "AUDIO_LOOPBACK_ALREADY_SET" <> Some "1" ->
  auto_setup_loopback (_config self) = true ->
  o_is_file (w_oracle w) script (w_trace w1) = true ->
  o_exit_status (w_oracle w) ["bash"; script] (Some env) (w_trace w1) <> 0 ->
  _prepare_loopback self st =
    (Raise (AudioEnvironmentError LinuxHelperFailed),
     {| _cleanup_actions :=
          _cleanup_actions st ++ registered_for (captured_in w);
        world := emit (EvRun ["bash"; script] (Some env)) w1 |}).
Proof.
  intros w w1 script env Hp Hwhich Hflag Hauto Hfile Hstatus.
  rewrite (prepare_loopback_linux self st Hp).
  unfold _prepare_linux_loopback.
  unfold bind at 1, in_world at 1, shutil_which. fold w. rewrite Hwhich. cbn [negb].
  unfold bind at 1, in_world at 1, environ_get. cbn [world _cleanup_actions]. fold w.
  rewrite bool_decide_eq_false_2 by exact Hflag.
  rewrite Hauto. cbn [when].
  unfold bind at 1. unfold bind at 1. unfold in_world at 1. cbn [world _cleanup_actions].
  fold w. rewrite (get_linux_defaults_captured w). fold w1.
  generalize (captured_in w). intros captured.
  assert (Hregistered :
    match captured with
    | Some defaults => _register_linux_defaults_restore defaults
    | None => ret tt
    end {| _cleanup_actions := _cleanup_actions st; world := w1 |} =
    (Return tt, {| _cleanup_actions := _cleanup_actions st ++ registered_for captured;
                   world := w1 |})).
  { destruct captured as [[sink source]|]; cbn; [reflexivity|].
    by rewrite app_nil_r. }
  unfold bind at 1. rewrite Hregistered.
  unfold bind at 1, in_world at 1, path_is_file. cbn [world _cleanup_actions].
  change (w_oracle w1) with (w_oracle w). fold script. rewrite Hfile.
  unfold bind at 1, in_world at 1. cbn [world _cleanup_actions].
  unfold in_world, try_except, bind, subprocess_run. cbn [world _cleanup_actions andb].
  change (w_oracle w1) with (w_oracle w). change (w_environ w1) with (w_environ w).
  fold (helper_environ self (w_environ w)). fold env.
  destruct (o_exit_status (w_oracle w) ["bash"; script] (Some env) (w_trace w1) =? 0)
    eqn:Hzero.
  { by apply Z.eqb_eq in Hzero. }
  reflexivity.
Qed.

Lemma linux_helper_failure_is_fatal_witness :
  let self := Samples.manager "Linux" (Samples.config_of (Some 0) (Some "speakers")) in
  let st := Samples.idle HelperSamples.failing_helper in
  fst (_prepare_loopback self st) = Raise (AudioEnvironmentError LinuxHelperFailed)
  /\ _cleanup_actions (snd (_prepare_loopback self st)) = [restore (Some "speakers") None].
Proof.
  intros self st.
  rewrite (linux_helper_failure_is_fatal self st); try reflexivity.
  - split; reflexivity.
  - vm_compute. discriminate.
  - vm_compute. discriminate.
Defined.

(** ** What easy-start can raise *)

Lemma returns_bind_post {S A B} (Q : A -> Prop) (m : M S A) (k : A -> M S B) :
  (forall s, exists a, fst (m s) = Return a /\ Q a) ->
  (forall a, Q a -> returns (k a)) -> returns (bind m k).
Proof.
  intros Hm Hk s. unfold bind. destruct (Hm s) as (a & Ha & HQ).
  destruct (m s) as [r s']. simpl in Ha. subst r. by apply Hk.
Qed.

Lemma diff_modules_returns before after :
  has_both_kinds after -> returns (diff_modules before after).
Proof.
  intros [[null_after Hnull] [loop_after Hloop]] w.
  rewrite (diff_modules_spec before after null_after loop_after w Hnull Hloop). by eexists.
Qed.

Lemma returns_raises_nothing {A} (m : M World A) :
  returns m -> raises_only_pipeline_or_prompt m.
Proof. intros Hm w e He. destruct (Hm w) as [a Ha]. congruence. Qed.

Lemma raises_only_pipeline_or_prompt_bind {A B} (m : M World A) (k : A -> M World B) :
  raises_only_pipeline_or_prompt m -> (forall a, raises_only_pipeline_or_prompt (k a)) ->
  raises_only_pipeline_or_prompt (bind m k).
Proof.
  intros Hm Hk w e. unfold bind. specialize (Hm w).
  destruct (m w) as [[a|e'] w1]; cbn [fst snd] in *; [apply Hk|].
  intros [= ->]. by apply Hm.
Qed.

(** A prompt raises nothing but its own [EOFError]. *)
Lemma input_raises_prompt prompt : raises_only_pipeline_or_prompt (input prompt).
Proof.
  intros w e. unfold input.
  destruct (o_input (w_oracle w) prompt (w_trace w)); cbn; [discriminate|].
  intros [= <-]. right. split; [reflexivity|]. exists prompt. apply last_snoc.
Qed.

(** Once its prompt is answered, the helper-script block cannot raise:
    whatever the script run raises is handled, and the handler's own diff
    reads a fresh snapshot, which lists both module kinds. *)
Lemma script_phase_raises system script command defaults modules :
  raises_only_pipeline_or_prompt (script_phase system script command defaults modules).
Proof.
  unfold script_phase.
  destruct script as [[dir file]|]; [|apply returns_raises_nothing, returns_ret].
  apply raises_only_pipeline_or_prompt_bind;
    [apply returns_raises_nothing; intros w; by eexists|].
  intros present. destruct (present && _); [|apply returns_raises_nothing, returns_ret].
  apply raises_only_pipeline_or_prompt_bind; [apply input_raises_prompt|].
  intros answer. apply returns_raises_nothing.
  destruct (in_set _ _); [|apply returns_ret].
  apply returns_try_except. intros e. eexists. split; [reflexivity|].
  apply returns_bind; [apply returns_print|]. intros _.
  apply returns_bind; [apply restore_linux_defaults_returns|]. intros _.
  apply returns_bind; [|intros _; apply returns_ret].
  apply returns_when.
  apply (returns_bind_post has_both_kinds); [apply snapshot_has_both_kinds|].
  intros after Hafter. unfold diff_and_unload.
  apply returns_bind; [by apply diff_modules_returns|].
  intros modules_to_unload. apply unload_linux_modules_returns.
Qed.

Lemma pipeline_raise_recorded w e :
  fst (asyncio_run_pipeline w) = Raise e ->
  In (EvPipeline (w_environ w) (PipelineRaised e)) (w_trace (snd (asyncio_run_pipeline w))).
Proof.
  unfold asyncio_run_pipeline.
  destruct (o_pipeline (w_oracle w) (w_environ w) (w_trace w)) as [outcome env'].
  destruct outcome; cbn; try discriminate.
  intros [= ->]. apply in_or_app. right. by left.
Qed.

Lemma launch_try_run system defaults w :
  exists w_run hp lf,
    launch_try system defaults (launch_locals None None w) =
      (fst (asyncio_run_pipeline w_run),
       launch_locals hp lf (snd (asyncio_run_pipeline w_run))).
Proof.
  destruct (system =? "linux")%string eqn:Hsystem.
  - apply String.eqb_eq in Hsystem. subst system.
    pose proof (launch_try_linux defaults w) as Htry. cbv zeta in Htry.
    eexists _, _, _. exact Htry.
  - exists w, None, None. unfold launch_try. rewrite Hsystem.
    unfold when, bind, ret, in_launch, launch_locals. cbn.
    by destruct (asyncio_run_pipeline w).
Qed.

Lemma launch_finally_run system defaults modules hp lf w :
  exists w',
    launch_finally system defaults modules (launch_locals hp lf w) =
      (Return tt, launch_locals hp lf w')
    /\ grows w w'.
Proof.
  destruct (system =? "linux")%string eqn:Hsystem.
  - apply String.eqb_eq in Hsystem. subst system.
    destruct (launch_finally_linux defaults modules hp lf w) as (w' & Hrun & _ & Hgrows).
    by exists w'.
  - unfold launch_finally. rewrite Hsystem.
    destruct (in_launch_returning_keeping (_restore_linux_defaults defaults) hp lf w
                (restore_linux_defaults_returns _) (restore_linux_defaults_keeps_environ _)
                (restore_linux_defaults_grows _))
      as ([] & w1 & Hrun & _ & Hgrows).
    exists w1. split; [|exact Hgrows]. unfold bind. by rewrite Hrun.
Qed.

Lemma launch_declined_returns system defaults modules :
  returns (launch_declined system defaults modules).
Proof.
  unfold launch_declined.
  apply returns_bind; [apply returns_print|]. intros _.
  apply returns_bind; [apply restore_linux_defaults_returns|]. intros _.
  apply returns_when.
  apply returns_bind; [apply returns_environ_pop|]. intros _.
  apply returns_bind; [apply returns_environ_pop|]. intros _.
  apply returns_bind; [apply unload_linux_modules_returns|]. intros _.
  apply ensure_linux_physical_defaults_returns.
Qed.

Lemma launch_phase_raises system defaults modules :
  raises_only_pipeline_or_prompt (launch_phase system defaults modules).
Proof.
  unfold launch_phase.
  apply raises_only_pipeline_or_prompt_bind; [apply input_raises_prompt|].
  intros start.
  apply raises_only_pipeline_or_prompt_bind;
    [|intros _; apply returns_raises_nothing, returns_ret].
  destruct (in_set _ _); [|apply returns_raises_nothing, launch_declined_returns].
  intros w e.
  destruct (launch_try_run system defaults w) as (w_run & hp & lf & Htry).
  destruct (launch_finally_run system defaults modules hp lf (snd (asyncio_run_pipeline w_run)))
    as (w' & Hfinally & Hgrows).
  unfold with_launch_locals, try_finally.
  change {| headphone_env_previous := None; loopback_flag_previous := None;
            launch_world := w |} with (launch_locals None None w).
  rewrite Htry, Hfinally. cbn [fst snd launch_world launch_locals].
  intros Hraise. left. exists (w_environ w_run).
  destruct Hgrows as [events ->]. apply in_or_app. left.
  by apply pipeline_raise_recorded.
Qed.



(** At the end of the input the first prompt of an interactive run raises,
    and that is how the run ends. *)
Example easy_start_at_end_of_input :
  let w := Samples.fresh ∅ LaunchSamples.silent in
  fst (run_easy_start true w) = Raise (OtherException "EOFError")
  /\ prompt_failed (OtherException "EOFError") (snd (run_easy_start true w)).
Proof.
  split; [vm_compute; reflexivity|].
  split; [reflexivity|]. eexists. vm_compute. reflexivity.
Qed.

(** ** After the Linux helper has run *)

Lemma detect_loop_not_found self kws hint devices : forall idx w,
  fst (detect_loop self kws hint idx devices w) = Return false ->
  detect_loop self kws hint idx devices w = (Return false, w).
Proof.
  induction devices as [|d ds IH]; intros idx w; [reflexivity|].
  cbn [detect_loop].
  destruct (max_input_channels d <=? 0); [apply IH|].
  match goal with |- context [if ?c then _ else _] => destruct c end; [|apply IH].
  unfold bind, log, modify, ret. cbn. discriminate.
Qed.

Lemma detect_not_found self keywords w :
  fst (_detect_loopback_candidate self keywords w) = Return false ->
  _detect_loopback_candidate self keywords w = (Return false, emit EvQueryDevices w).
Proof.
  unfold _detect_loopback_candidate, bind.
  destruct (o_query_devices (w_oracle w) (w_trace w)) as [devices|] eqn:Hq.
  - rewrite (query_devices_or_fail_some _ _ Hq). apply detect_loop_not_found.
  - rewrite (query_devices_or_fail_none _ Hq). discriminate.
Qed.

(** X20. On Linux a configured device index makes up for a missing
    loopback device.  When [pactl] is there, the launcher's flag is not set,
    the automatic set-up is on, the helper script exists and exits with
    status 0, and the detection that follows finds no candidate: with a
    device index configured the stage logs that it goes on and returns,
    without one it raises the no-loopback error.  Either way the action
    restoring the captured defaults stays registered, and the detection
    asked for the devices once. *)
Theorem configured_index_overrides_missing_candidate
    (self : Manager) (st : ManagerState) :
  let w := world st in
  let w1 := emit (EvCheckOutput ["pactl"; "info"]) w in
  let script := path_join (_scripts_dir self) "setup_audio_loopback_linux.sh" in
  let env := helper_environ self (w_environ w) in
  let w2 := emit (EvRun ["bash"; script] (Some env)) w1 in
  let stack := _cleanup_actions st ++ registered_for (captured_in w) in
  _platform self = "linux" ->
  o_which (w_oracle w) "pactl" (w_trace w) = true ->
  w_environ w !! "AUDIO_LOOPBACK_ALREADY_SET" <> Some "1" ->
  auto_setup_loopback (_config self) = true ->
  o_is_file (w_oracle w) script (w_trace w1) = true ->
  o_exit_status (w_oracle w) ["bash"; script] (Some env) (w_trace w1) = 0 ->
  fst (_detect_loopback_candidate self linux_keywords w2) = Return false ->
  _prepare_loopback self st =
    match device_index (_config self) with
    | Some index =>
        (Return tt,
         {| _cleanup_actions := stack;
            world :=
              emit (EvLog LDEBUG
                      "Loopback candidates not found, but AUDIO_DEVICE_INDEX=%s is configured; continuing."
                      [PyStr.of_Z index])
                   (emit EvQueryDevices w2) |})
    | None =>
        (Raise (AudioEnvironmentError NoLoopbackAfterSetup),
         {| _cleanup_actions := stack; world := emit EvQueryDevices w2 |})
    end.
Proof.
  intros w w1 script env w2 stack Hp Hwhich Hflag Hauto Hfile Hstatus Hnone.
  rewrite (prepare_loopback_linux self st Hp).
  unfold _prepare_linux_loopback.
  unfold bind at 1, in_world at 1, shutil_which. fold w. rewrite Hwhich. cbn [negb].
  unfold bind at 1, in_world at 1, environ_get. cbn [world _cleanup_actions]. fold w.
  rewrite bool_decide_eq_false_2 by exact Hflag.
  rewrite Hauto. cbn [when].
  unfold bind at 1. unfold bind at 1. unfold bind at 1. unfold in_world at 1.
  cbn [world _cleanup_actions].
  fold w. rewrite (get_linux_defaults_captured w). fold w1.
  subst stack. generalize (captured_in w). intros captured.
  assert (Hregistered :
    match captured with
    | Some defaults => _register_linux_defaults_restore defaults
    | None => ret tt
    end {| _cleanup_actions := _cleanup_actions st; world := w1 |} =
    (Return tt, {| _cleanup_actions := _cleanup_actions st ++ registered_for captured;
                   world := w1 |})).
  { destruct captured as [[sink source]|]; cbn; [reflexivity|].
    by rewrite app_nil_r. }
  unfold bind at 1. rewrite Hregistered.
  unfold bind at 1, in_world at 1, path_is_file. cbn [world _cleanup_actions].
  change (w_oracle w1) with (w_oracle w). fold script. rewrite Hfile.
  unfold bind at 1, in_world at 1. cbn [world _cleanup_actions].
  unfold in_world at 1, try_except, bind at 1, subprocess_run.
  cbn [world _cleanup_actions andb].
  change (w_oracle w1) with (w_oracle w). change (w_environ w1) with (w_environ w).
  fold (helper_environ self (w_environ w)). fold env.
  rewrite Hstatus. change (0 =? 0) with true. cbn [negb]. cbv iota. fold w2.
  unfold ret at 1. cbv iota beta.
  unfold in_world at 1. cbn [world _cleanup_actions].
  rewrite (detect_not_found self linux_keywords w2 Hnone). cbn [negb].
  by destruct (device_index (_config self)).
Qed.

Lemma configured_index_overrides_missing_candidate_witness :
  let st := Samples.idle HelperSamples.helper_succeeds in
  fst (_prepare_loopback (Samples.manager "Linux" (Samples.config_of (Some 0) None)) st)
    = Return tt
  /\ fst (_prepare_loopback (Samples.manager "Linux" (Samples.config_of None None)) st)
       = Raise (AudioEnvironmentError NoLoopbackAfterSetup).
Proof.
  intros st. split.
  - rewrite (configured_index_overrides_missing_candidate
               (Samples.manager "Linux" (Samples.config_of (Some 0) None)) st);
      try reflexivity.
    vm_compute. discriminate.
  - rewrite (configured_index_overrides_missing_candidate
               (Samples.manager "Linux" (Samples.config_of None None)) st);
      try reflexivity.
    vm_compute. discriminate.
Defined.
